(** * OpenAPC toolkit: a shallow embedding of [openapc_toolkit.py]

    The development follows the Python module top down: the string
    primitives the module relies on, its regular expressions, the CSV
    writer [OpenAPCUnicodeWriter], the ISBN and ISSN normalisers, and the
    row enrichment pipeline [process_row].

    Modelling conventions.
    - A Python [str] is a [string]; a character is its code point, which
      the model takes below 256.  On that range the regex class [\d] is
      exactly the ten ASCII digits and [str.strip] removes exactly the
      code points listed in [py_isspace].
    - A Python [int] is a [Z].
    - A raised exception is the [Raise] case of [result].
    - The logging module is a list of [log_entry] threaded as state. *)

From Stdlib Require Import ZArith Ascii String List Bool Lia DecimalString.
From Stdlib Require Import Floats.SpecFloat.
From stdpp Require Import base option list gmap strings.

Import ListNotations.
Local Open Scope string_scope.
Local Open Scope Z_scope.

(* stdpp freezes string concatenation under [simpl]; the proofs below
   compute with it. *)
#[local] Arguments String.append !_ _ / : simpl nomatch.

(** ** Exceptions *)

Inductive exn : Type :=
| IndexError
| KeyError (key : string)
| ValueError (msg : string)
| TypeError (msg : string)
| AttributeError (msg : string)
| RecursionError.

Inductive result (A : Type) : Type :=
| Ok (a : A)
| Raise (e : exn).
Arguments Ok {A} a.
Arguments Raise {A} e.

Definition rbind {A B} (r : result A) (k : A -> result B) : result B :=
  match r with
  | Ok a => k a
  | Raise e => Raise e
  end.

Declare Scope result_scope.
Delimit Scope result_scope with result.
Notation "'let?' x ':=' r 'in' k" :=
  (rbind r (fun x => k))
  (at level 10, x pattern, r at level 100, k at level 200) : result_scope.

(** ** Python string primitives *)

Module Py.

Definition dquote : ascii := "034"%char.
Definition newline : ascii := "010"%char.
Definition hyphen : ascii := "-"%char.
Definition comma : ascii := ","%char.
Definition space : ascii := " "%char.

Definition chr (c : ascii) : string := String c EmptyString.

(** A string between double quotes, as the messages of the module have
    them. *)
Definition q (s : string) : string := chr dquote ++ s ++ chr dquote.

(** [len(s)] *)
Definition len (s : string) : Z := Z.of_nat (String.length s).

(** [str.isspace] on one character, code points below 256. *)
Definition isspace (c : ascii) : bool :=
  let n := nat_of_ascii c in
  ((9 <=? n) && (n <=? 13) || (28 <=? n) && (n <=? 32)
   || (n =? 133) || (n =? 160))%nat.

(** [\d], code points below 256. *)
Definition isdigit (c : ascii) : bool :=
  let n := nat_of_ascii c in ((48 <=? n) && (n <=? 57))%nat.

Definition digit_value (c : ascii) : Z := Z.of_nat (nat_of_ascii c) - 48.

Fixpoint lstrip (s : string) : string :=
  match s with
  | String c s' => if isspace c then lstrip s' else s
  | EmptyString => EmptyString
  end.

(** Removes trailing blanks: a character is dropped when it is blank and
    everything after it has been dropped. *)
Fixpoint rstrip (s : string) : string :=
  match s with
  | String c s' =>
      match rstrip s' with
      | EmptyString => if isspace c then EmptyString else chr c
      | t => String c t
      end
  | EmptyString => EmptyString
  end.

(** [s.strip()] *)
Definition strip (s : string) : string := rstrip (lstrip s).

(** [s.replace(old, new)] for a one-character [old]. *)
Fixpoint replace (old : ascii) (new : string) (s : string) : string :=
  match s with
  | String c s' =>
      (if Ascii.eqb c old then new else chr c) ++ replace old new s'
  | EmptyString => EmptyString
  end.

(** [c in s] for a one-character [c]. *)
Fixpoint contains (c : ascii) (s : string) : bool :=
  match s with
  | String d s' => Ascii.eqb d c || contains c s'
  | EmptyString => false
  end.

(** [sep.join(l)] *)
Fixpoint join (sep : string) (l : list string) : string :=
  match l with
  | [] => EmptyString
  | [x] => x
  | x :: l' => x ++ sep ++ join sep l'
  end.

(** [s.startswith(p)] *)
Definition startswith (p s : string) : bool := String.prefix p s.

Fixpoint take (n : nat) (s : string) : string :=
  match n, s with
  | S n', String c s' => String c (take n' s')
  | _, _ => EmptyString
  end.

Fixpoint drop (n : nat) (s : string) : string :=
  match n, s with
  | S n', String _ s' => drop n' s'
  | _, _ => s
  end.

(** Slice bounds: a negative bound counts from the end, and every bound is
    clamped to the string. *)
Definition bound (s : string) (i : Z) : nat :=
  if i <? 0 then Z.to_nat (Z.max 0 (len s + i))
  else Z.to_nat (Z.min i (len s)).

(** [s[:i]] *)
Definition slice_to (s : string) (i : Z) : string := take (bound s i) s.

(** [s[i:]] *)
Definition slice_from (s : string) (i : Z) : string := drop (bound s i) s.

(** [x in l] for a list of strings. *)
Definition elem (x : string) (l : list string) : bool :=
  existsb (String.eqb x) l.

Fixpoint digits_value (acc : Z) (s : string) : option Z :=
  match s with
  | EmptyString => Some acc
  | String c s' =>
      if isdigit c then digits_value (10 * acc + digit_value c) s'
      else None
  end.

(** [int(s)] for the literals the module feeds it: surrounding blanks are
    ignored, an optional sign, then at least one decimal digit.  (The
    digit separator [_] of Python literals is not covered: it is read as
    a syntax error here.) *)
Definition int (s : string) : result Z :=
  let t := strip s in
  let err := Raise (ValueError ("invalid literal for int() with base 10: " ++ s)) in
  let body sign u :=
    match u with
    | EmptyString => err
    | _ => match digits_value 0 u with
           | Some v => Ok (sign * v)
           | None => err
           end
    end in
  match t with
  | String "-" u => body (-1) u
  | String "+" u => body 1 u
  | _ => body 1 t
  end.

End Py.

(** ** Regular expressions

    A small backtracking matcher for the fragment of [re] the module uses.
    [re.match] anchors at the start of the string and does not need to
    reach its end; [$] holds at the end of the string and just before a
    newline that ends the string. *)

Module Re.

Inductive t : Type :=
| Chr (c : ascii)                   (* a literal character *)
| Cls (p : ascii -> bool)           (* a character class *)
| Cat (a b : t)                     (* concatenation *)
| Alt (a b : t)                     (* a|b *)
| Rep (lo hi : nat) (a : t)         (* a{lo,hi}, greedy *)
| Eos.                              (* $ *)

Definition at_end (s : string) : bool :=
  match s with
  | EmptyString => true
  | String c EmptyString => Ascii.eqb c Py.newline
  | _ => false
  end.

Fixpoint run (r : t) (s : string) (k : string -> bool) {struct r} : bool :=
  match r with
  | Chr c => match s with
             | String d s' => Ascii.eqb d c && k s'
             | EmptyString => false
             end
  | Cls p => match s with
             | String d s' => p d && k s'
             | EmptyString => false
             end
  | Cat a b => run a s (fun s' => run b s' k)
  | Alt a b => run a s k || run b s k
  | Rep lo hi a =>
      (fix rep (hi lo : nat) (s : string) {struct hi} : bool :=
         match hi with
         | O => match lo with O => k s | S _ => false end
         | S hi' =>
             run a s (fun s' => rep hi' (Nat.pred lo) s')
             || match lo with O => k s | S _ => false end
         end) hi lo s
  | Eos => at_end s && k s
  end.

(** [re.compile(r).match(s) is not None] *)
Definition matches (r : t) (s : string) : bool := run r s (fun _ => true).

Definition digit : t := Cls Py.isdigit.
Definition digits (lo hi : nat) : t := Rep lo hi digit.
Definition oneof (l : list ascii) : t :=
  Cls (fun c => existsb (Ascii.eqb c) l).

Fixpoint seq (l : list t) : t :=
  match l with
  | [] => Rep 0 0 Eos
  | [r] => r
  | r :: l' => Cat r (seq l')
  end.

Fixpoint lit (s : string) : list t :=
  match s with
  | EmptyString => []
  | String c s' => Chr c :: lit s'
  end.

End Re.


(** ** The language of a regular expression

    [ReSem.sem r s s'] says that [r] can consume a prefix of [s] and leave
    [s']. *)

Module ReSem.
Import Re.

Fixpoint iter (n : nat) (R : string -> string -> Prop) (s s' : string)
    : Prop :=
  match n with
  | O => s = s'
  | S n' => exists m, R s m /\ iter n' R m s'
  end.

Fixpoint sem (r : t) (s s' : string) : Prop :=
  match r with
  | Chr c => s = String c s'
  | Cls p => exists d, s = String d s' /\ p d = true
  | Cat a b => exists m, sem a s m /\ sem b m s'
  | Alt a b => sem a s s' \/ sem b s s'
  | Rep lo hi a => exists n, (lo <= n <= hi)%nat /\ iter n (sem a) s s'
  | Eos => s = s' /\ at_end s = true
  end.

End ReSem.
(** ** The CSV writer *)

Module OpenAPCUnicodeWriter.

Record t : Type := mk {
  outfile : string;                 (* what has been written to [f] so far *)
  quotemask : option (list bool);   (* [None] is Python's [None] *)
  openapc_quote_rules : bool;
  has_header : bool;
  minimal_quotes : bool
}.

(** [__init__] with its default arguments. *)
Definition init (f : string) : t :=
  {| outfile := f; quotemask := None; openapc_quote_rules := true;
     has_header := true; minimal_quotes := true |}.

(** [not self.quotemask]: [None] and the empty list are both falsy. *)
Definition no_quotemask (self : t) : bool :=
  match quotemask self with
  | None | Some [] => true
  | Some (_ :: _) => false
  end.

Definition mask_list (self : t) : list bool :=
  match quotemask self with Some m => m | None => [] end.

Definition keywords : list string := ["TRUE"; "FALSE"; "NA"].

(** The two assignments that quote a cell. *)
Definition quoted (cell : string) : string :=
  Py.chr Py.dquote
  ++ Py.replace Py.dquote (String Py.dquote (Py.chr Py.dquote)) cell
  ++ Py.chr Py.dquote.

(** The body of the loop of [_prepare_row] for one index: the new value
    of [row[index]]. *)
Definition prepare_cell (self : t) (use_quotemask : bool)
    (index : nat) (cell : string) : string :=
  if openapc_quote_rules self && Py.elem cell keywords then cell
  else if negb use_quotemask || no_quotemask self then quoted cell
  else
    match mask_list self !! index with
    | Some m =>                     (* index < len(self.quotemask) *)
        if m || Py.contains Py.comma cell && minimal_quotes self
        then quoted cell else cell
    | None => cell
    end.

(** [_prepare_row]: the row is updated in place, index by index. *)
Definition _prepare_row (self : t) (row : list string)
    (use_quotemask : bool) : list string :=
  foldl (fun (row : list string) (index : nat) =>
           match row !! index with
           | Some cell =>
               <[index := prepare_cell self use_quotemask index cell]> row
           | None => row
           end)
        row (seq 0 (length row)).

Definition line (row : list string) : string :=
  Py.join "," row ++ Py.chr Py.newline.

(** [_write_row] *)
Definition _write_row (self : t) (row : list string) : t :=
  {| outfile := outfile self ++ line row;
     quotemask := quotemask self;
     openapc_quote_rules := openapc_quote_rules self;
     has_header := has_header self;
     minimal_quotes := minimal_quotes self |}.

(** The [for row in rows] loop of [write_rows]; the rows come back as the
    loop leaves them, since each is modified in place. *)
Fixpoint write_data_rows (self : t) (rows : list (list string))
    : t * list (list string) :=
  match rows with
  | [] => (self, [])
  | row :: rows' =>
      let row' := _prepare_row self row true in
      let (self', out) := write_data_rows (_write_row self row') rows' in
      (self', row' :: out)
  end.

(** [write_rows]: the writer after the call and the list [rows] as the
    call leaves it (the header popped, the data rows quoted in place).
    The rows are taken to be distinct list objects. *)
Definition write_rows (self : t) (rows : list (list string))
    : result (t * list (list string)) :=
  if has_header self then
    match rows with
    | [] => Raise IndexError        (* rows.pop(0) on an empty list *)
    | header :: rows' =>
        let self1 := _write_row self (_prepare_row self header false) in
        Ok (write_data_rows self1 rows')
    end
  else Ok (write_data_rows self rows).

End OpenAPCUnicodeWriter.


(** ** ISBN handling *)

Module ISBNHandling.

(** regex for 13-digit, unsplit ISBNs: [^97[89]\d{10}$] *)
Definition ISBN_RE : Re.t :=
  Re.seq (Re.lit "97" ++ [Re.oneof ["8"; "9"]%char; Re.digits 10 10; Re.Eos]).

(** regex for 13-digit ISBNs split with hyphens:
    [^97[89]\-\d{1,5}\-\d{1,7}\-\d{1,6}\-\d{1}$] *)
Definition ISBN_SPLIT_RE : Re.t :=
  Re.seq (Re.lit "97" ++
          [Re.oneof ["8"; "9"]%char;
           Re.Chr "-"; Re.digits 1 5;
           Re.Chr "-"; Re.digits 1 7;
           Re.Chr "-"; Re.digits 1 6;
           Re.Chr "-"; Re.digits 1 1; Re.Eos]).

(** [ISBN_ERRORS] *)
Definition ISBN_ERRORS : list (Z * string) :=
  [ (0, "Input is neither a valid split nor a valid unsplit 13-digit ISBN");
    (1, "Too short (Must be 17 chars long including hyphens)");
    (2, "Too long (Must be 17 chars long including hyphens)");
    (3, "Input ISBN was split, but the segmentation is invalid") ].

(** The range file: an element [EAN.UCC] or [Group] carries the text of
    its [Prefix] and its [Rule]s, a rule the text of its [Range] and
    [Length].  The file itself is read in [__init__]; here its content is
    part of the object. *)
Record Rule : Type := mkRule { Range : string; Length : string }.
Record Element : Type := mkElement { Prefix : string; Rules : list Rule }.

Record t : Type := mk {
  ean_elements : list Element;
  registration_groups : list Element
}.

(** [(?P<min>\d{7})-(?P<max>\d{7})], matched at the start of the text. *)
Definition range_re : Re.t :=
  Re.seq [Re.digits 7 7; Re.Chr "-"; Re.digits 7 7].

Import Py.

(** [_get_range_length_from_rules] *)
Definition _get_range_length_from_rules (isbn_fragment : string)
    (rules_element : list Rule) : result Z :=
  (let? value := Py.int (slice_to isbn_fragment 7) in
   (fix loop (rules : list Rule) : result Z :=
      match rules with
      | rule :: rules' =>
          let range_text := Range rule in
          if Re.matches range_re range_text then
            let? lo := Py.int (take 7 range_text) in
            let? hi := Py.int (take 7 (drop 8 range_text)) in
            if (lo <=? value) && (value <=? hi) then Py.int (Length rule)
            else loop rules'
          else Raise (TypeError "'NoneType' object is not subscriptable")
      | [] =>
          Raise (ValueError
                   ("Could not find a length definition for fragment "
                    ++ q isbn_fragment ++ " in the ISBN range file."))
      end) rules_element)%result.

(** The dictionary [split_isbn] returns. *)
Record split_result : Type := mkSplit { success : bool; value : string }.

Definition fail (msg : string) : result split_result :=
  Ok {| success := false; value := msg |}.

(** The second loop of [split_isbn], over the registration groups. *)
Fixpoint split_registrant (isbn split_isbn remaining_isbn : string)
    (groups : list Element) : result split_result :=
  match groups with
  | group :: groups' =>
      if String.eqb split_isbn (Prefix group) then
        (let? length := _get_range_length_from_rules remaining_isbn (Rules group) in
         if length =? 0 then
           fail ("Invalid ISBN: Remaining fragment " ++ q remaining_isbn
                 ++ " for registration group " ++ q split_isbn
                 ++ " is inside a range which is not marked for use yet")
         else
           let registrant := slice_to remaining_isbn length in
           let split_isbn := split_isbn ++ "-" ++ registrant in
           let remaining_isbn := slice_from remaining_isbn length in
           let check_digit := slice_from remaining_isbn (-1) in
           let publication_number := slice_to remaining_isbn (-1) in
           let split_isbn :=
             split_isbn ++ "-" ++ publication_number ++ "-" ++ check_digit in
           Ok {| success := true; value := split_isbn |})%result
      else split_registrant isbn split_isbn remaining_isbn groups'
  | [] =>
      fail ("ISBN " ++ q isbn
            ++ " does not seem to have a valid registration group element.")
  end.

(** The first loop of [split_isbn], over the EAN prefixes; when it is
    entered [split_isbn] is empty and [remaining_isbn] is the whole
    input. *)
Fixpoint split_group (self : t) (isbn : string) (eans : list Element)
    : result split_result :=
  match eans with
  | ean :: eans' =>
      let prefix := Prefix ean in
      if startswith prefix isbn then
        let split_isbn := "" ++ prefix in
        let remaining_isbn := slice_from isbn (len prefix) in
        (let? length := _get_range_length_from_rules remaining_isbn (Rules ean) in
         if length =? 0 then
           fail ("Invalid ISBN: Remaining fragment " ++ q remaining_isbn
                 ++ " for EAN prefix " ++ q prefix
                 ++ " is inside a range which is not marked for use yet")
         else
           let group := slice_to remaining_isbn length in
           let split_isbn := split_isbn ++ "-" ++ group in
           let remaining_isbn := slice_from remaining_isbn length in
           split_registrant isbn split_isbn remaining_isbn
             (registration_groups self))%result
      else split_group self isbn eans'
  | [] => fail ("ISBN " ++ q isbn ++ " does not seem to have a valid prefix.")
  end.

(** [split_isbn] *)
Definition split_isbn (self : t) (isbn : string) : result split_result :=
  if negb (Re.matches ISBN_RE isbn) then
    fail (q isbn ++ " is no valid 13-digit ISBN!")
  else split_group self isbn (ean_elements self).

(** The dictionary [test_and_normalize_isbn] returns; a key that is not
    set is [None]. *)
Record norm_result : Type := mkNorm {
  valid : bool;
  input_value : string;
  normalised : option string;
  error_type : option Z
}.

Definition invalid (isbn : string) (code : Z) : norm_result :=
  {| valid := false; input_value := isbn; normalised := None;
     error_type := Some code |}.

(** [test_and_normalize_isbn] *)
Definition test_and_normalize_isbn (self : t) (isbn : string)
    : result norm_result :=
  let stripped_isbn := strip isbn in
  let unsplit_isbn := replace hyphen "" stripped_isbn in
  let check (split_on_input : bool) : result norm_result :=
    if Re.matches ISBN_RE unsplit_isbn then
      (let? r := split_isbn self unsplit_isbn in
       let split_isbn := value r in
       if split_on_input && negb (String.eqb split_isbn stripped_isbn) then
         Ok (invalid isbn 3)
       else
         Ok {| valid := true; input_value := isbn;
               normalised := Some split_isbn; error_type := None |})%result
    else Ok (invalid isbn 0) in
  if Re.matches ISBN_SPLIT_RE stripped_isbn then
    if len stripped_isbn <? 17 then Ok (invalid isbn 1)
    else if len stripped_isbn >? 17 then Ok (invalid isbn 2)
    else check true
  else check false.

(** [isbn_has_valid_check_digit] *)
Definition isbn_has_valid_check_digit (isbn : string) : result bool :=
  if negb (Re.matches ISBN_RE isbn) then
    Raise (ValueError (isbn ++ " is no valid 13-digit ISBN!"))
  else
    (let? checksum :=
       (fix loop (index : nat) (s : string) (checksum : Z) : result Z :=
          match s with
          | String digit s' =>
              let? d := Py.int (chr digit) in
              loop (S index) s'
                   (if (index mod 2 =? 0)%nat then checksum + d
                    else checksum + 3 * d)
          | EmptyString => Ok checksum
          end) O isbn 0 in
     Ok (checksum mod 10 =? 0))%result.

End ISBNHandling.

(** ** ISSN validation *)

(** [^(?P<first_part>\d{4})\-(?P<second_part>\d{3})(?P<check_digit>[\dxX])$] *)
Definition ISSN_RE : Re.t :=
  Re.seq [Re.digits 4 4; Re.Chr "-"; Re.digits 3 3;
          Re.Cls (fun c => Py.isdigit c
                           || existsb (Ascii.eqb c) ["x"; "X"]%char);
          Re.Eos].

(** The named groups of a match of [ISSN_RE]; every group has a fixed
    width, so they sit at fixed offsets. *)
Record issn_groups : Type := mkGroups {
  first_part : string;
  second_part : string;
  check_digit : string
}.

Definition ISSN_RE_match (issn_string : string) : option issn_groups :=
  if Re.matches ISSN_RE issn_string then
    Some {| first_part := Py.take 4 issn_string;
            second_part := Py.take 3 (Py.drop 5 issn_string);
            check_digit := Py.take 1 (Py.drop 8 issn_string) |}
  else None.

(** [is_wellformed_ISSN] *)
Definition is_wellformed_ISSN (issn_string : string) : bool :=
  match ISSN_RE_match issn_string with
  | Some _ => true
  | None => false
  end.

(** The loop [for digit in digits] of [is_valid_ISSN]. *)
Fixpoint issn_total (digits : string) (factor total : Z) : result Z :=
  match digits with
  | String digit digits' =>
      (let? d := Py.int (Py.chr digit) in
       issn_total digits' (factor - 1) (total + d * factor))%result
  | EmptyString => Ok total
  end.

(** [is_valid_ISSN] *)
Definition is_valid_ISSN (issn_string : string) : result bool :=
  match ISSN_RE_match issn_string with
  | None =>
      Raise (AttributeError "'NoneType' object has no attribute 'groupdict'")
  | Some match_dict =>
      (let? check_digit :=
         if Py.elem (check_digit match_dict) ["X"; "x"] then Ok 10
         else Py.int (check_digit match_dict) in
       let digits := first_part match_dict ++ second_part match_dict in
       let? total := issn_total digits 8 0 in
       let mod_ := total mod 11 in
       if (mod_ =? 0) && (check_digit =? 0) then Ok true
       else if 11 - mod_ =? check_digit then Ok true
       else Ok false)%result
  end.

(** ** Specification-side definitions

    What the specification says, written out next to the code so that
    the two can be compared. *)

Module WriterSpec.
Import OpenAPCUnicodeWriter.

(** What [_prepare_row] makes of a header cell. *)
Definition header_cell (self : t) (cell : string) : string :=
  if openapc_quote_rules self && Py.elem cell keywords then cell
  else quoted cell.

End WriterSpec.

(** The standard ISSN check, in the words of the specification: the seven
    digits are weighted 8 down to 2, the check symbol counts as its digit
    value, X as 10; when the weighted sum leaves remainder 0 modulo 11
    the check symbol must be 0, otherwise it must be 11 minus the
    remainder. *)
Definition issn_symbol_value (c : ascii) : Z :=
  if (Ascii.eqb c "X" || Ascii.eqb c "x")%char then 10 else Py.digit_value c.

Definition issn_char (s : string) (n : nat) : ascii :=
  match String.get n s with Some c => c | None => "000"%char end.

Definition issn_weighted_sum (s : string) : Z :=
  8 * Py.digit_value (issn_char s 0) + 7 * Py.digit_value (issn_char s 1)
  + 6 * Py.digit_value (issn_char s 2) + 5 * Py.digit_value (issn_char s 3)
  + 4 * Py.digit_value (issn_char s 5) + 3 * Py.digit_value (issn_char s 6)
  + 2 * Py.digit_value (issn_char s 7).

Definition issn_standard_check (s : string) : bool :=
  let remainder := issn_weighted_sum s mod 11 in
  let check := issn_symbol_value (issn_char s 8) in
  if remainder =? 0 then check =? 0 else check =? 11 - remainder.

Definition is_check_symbol (c : ascii) : bool :=
  Py.isdigit c || existsb (Ascii.eqb c) ["x"; "X"]%char.


(** The shape of a well-formed ISSN: seven digits around a hyphen, a
    check symbol, and at most a final newline, which [$] lets through. *)
Definition issn_shape (d0 d1 d2 d3 d4 d5 d6 ck : ascii) (tl : string)
    : string :=
  String d0 (String d1 (String d2 (String d3 (String "-"
    (String d4 (String d5 (String d6 (String ck tl)))))))).

Definition shape_sum (d0 d1 d2 d3 d4 d5 d6 : ascii) : Z :=
  8 * Py.digit_value d0 + 7 * Py.digit_value d1 + 6 * Py.digit_value d2
  + 5 * Py.digit_value d3 + 4 * Py.digit_value d4 + 3 * Py.digit_value d5
  + 2 * Py.digit_value d6.

Definition accept (total check : Z) : bool :=
  if total mod 11 =? 0 then check =? 0 else check =? 11 - total mod 11.


(** ** Python numbers

    A [float] is an IEEE 754 binary64 value, here a [spec_float] with 53
    bits of precision; every operation below is exact integer arithmetic
    followed by one rounding to nearest, ties to even, as in CPython. *)

Module PyFloat.
Import Py.

Definition float : Type := spec_float.
Definition prec : Z := 53.
Definition emax : Z := 1024.

(** [str(n)] for an [int]. *)
Definition str_int (n : Z) : string := NilZero.string_of_int (Z.to_int n).

(** The binary64 value nearest to [n / d]. *)
Definition of_ratio (sign : bool) (n d : positive) : float :=
  let '(q, e, l) := SFdiv_core_binary prec emax (Zpos n) 0 (Zpos d) 0 in
  binary_round_aux prec emax sign q e l.

(** The binary64 value nearest to [m * 10^e10]. *)
Definition of_decimal (sign : bool) (m : Z) (e10 : Z) : float :=
  match m with
  | Zpos p =>
      if 0 <=? e10 then binary_round prec emax sign (p * Z.to_pos (10 ^ e10)) 0
      else of_ratio sign p (Z.to_pos (10 ^ (- e10)))
  | _ => S754_zero sign
  end.

(** *** [float(s)] *)

(** The digits that follow a digit: more digits, each optionally preceded
    by one underscore.  Returns the digits and the rest of the string. *)
Fixpoint more_digits (s : string) : string * string :=
  match s with
  | String c s' =>
      if isdigit c then
        let (d, r) := more_digits s' in (String c d, r)
      else if Ascii.eqb c "_" then
        match s' with
        | String c2 s'' =>
            if isdigit c2 then
              let (d, r) := more_digits s'' in (String c2 d, r)
            else (EmptyString, s)
        | EmptyString => (EmptyString, s)
        end
      else (EmptyString, s)
  | EmptyString => (EmptyString, EmptyString)
  end.

(** [digitpart ::= digit (["_"] digit)*], possibly absent. *)
Definition digitpart (s : string) : string * string :=
  match s with
  | String c s' =>
      if isdigit c then let (d, r) := more_digits s' in (String c d, r)
      else (EmptyString, s)
  | EmptyString => (EmptyString, EmptyString)
  end.

Definition lower_char (c : ascii) : ascii :=
  let n := nat_of_ascii c in
  if ((65 <=? n) && (n <=? 90)
      || (192 <=? n) && (n <=? 222) && negb (n =? 215))%nat
  then ascii_of_nat (n + 32) else c.

(** [s.lower()], code points below 256. *)
Fixpoint lower (s : string) : string :=
  match s with
  | String c s' => String (lower_char c) (lower s')
  | EmptyString => EmptyString
  end.

Definition decimal_value (digits : string) : Z :=
  match digits_value 0 digits with Some v => v | None => 0 end.

(** The optional exponent [("e" | "E") ["+" | "-"] digitpart] that ends a
    number; [None] when what is left is not one. *)
Definition exponent (s : string) : option Z :=
  match s with
  | EmptyString => Some 0
  | String c s' =>
      if Ascii.eqb (lower_char c) "e" then
        let (neg, s1) :=
          match s' with
          | String "-" t => (true, t)
          | String "+" t => (false, t)
          | _ => (false, s')
          end in
        match digitpart s1 with
        | (String d ds, EmptyString) =>
            let v := decimal_value (String d ds) in
            Some (if neg then - v else v)
        | _ => None
        end
      else None
  end.

(** [float(s)]: blanks around the literal are ignored; the literal is a
    sign, then [inf], [infinity], [nan] in any case, or a decimal number
    with optional fraction and exponent. *)
Definition of_string (s : string) : result float :=
  let err :=
    Raise (ValueError ("could not convert string to float: " ++ q s)) in
  let t := strip s in
  let (sign, u) :=
    match t with
    | String "-" u => (true, u)
    | String "+" u => (false, u)
    | _ => (false, t)
    end in
  let lu := lower u in
  if String.eqb lu "inf" || String.eqb lu "infinity" then
    Ok (S754_infinity sign)
  else if String.eqb lu "nan" then Ok S754_nan
  else
    let (ip, r1) := digitpart u in
    let (fp, r2) :=
      match r1 with
      | String "." r => digitpart r
      | _ => (EmptyString, r1)
      end in
    match ip ++ fp with
    | EmptyString => err
    | digits =>
        match exponent r2 with
        | Some e =>
            Ok (of_decimal sign (decimal_value digits) (e - len fp))
        | None => err
        end
    end.

(** *** [locale.atof]

    The two entries of [locale.localeconv()] that [locale.delocalize]
    reads; an empty entry is [None].  Entries are taken to be single
    characters. *)
Record localeconv : Type := mkLocale {
  thousands_sep : option ascii;
  decimal_point : option ascii
}.

(** The C locale, and a locale with a decimal comma. *)
Definition C_locale : localeconv :=
  {| thousands_sep := None; decimal_point := Some "."%char |}.
Definition de_DE_locale : localeconv :=
  {| thousands_sep := Some "."%char; decimal_point := Some ","%char |}.

(** [locale.delocalize] *)
Definition delocalize (conv : localeconv) (s : string) : string :=
  let s := match thousands_sep conv with
           | Some ts => replace ts "" s
           | None => s
           end in
  match decimal_point conv with
  | Some dd => replace dd "." s
  | None => s
  end.

(** [locale.atof] *)
Definition atof (conv : localeconv) (s : string) : result float :=
  of_string (delocalize conv s).

(** *** Exact value of a float *)

(** A finite non-zero float [m * 2^e] as a fraction. *)
Definition fraction (m : positive) (e : Z) : Z * Z :=
  if 0 <=? e then (Zpos m * 2 ^ e, 1) else (Zpos m, 2 ^ (- e)).

(** [x.is_integer()] *)
Definition is_integer (x : float) : bool :=
  match x with
  | S754_zero _ => true
  | S754_finite _ m e =>
      let (n, d) := fraction m e in n mod d =? 0
  | _ => false
  end.

(** [int(x)] for a finite [x]: truncation towards zero. *)
Definition to_int (x : float) : Z :=
  match x with
  | S754_finite s m e =>
      let (n, d) := fraction m e in
      if s then - (n / d) else n / d
  | _ => 0
  end.

(** [x == 0] *)
Definition is_zero (x : float) : bool :=
  match x with S754_zero _ => true | _ => false end.

(** *** [round(x, 2)]

    The decimal with two fractional digits nearest to the exact value of
    [x], ties to even, converted back to a float. *)
Definition div_half_even (n d : Z) : Z :=
  let q := n / d in
  let r := n mod d in
  match 2 * r ?= d with
  | Lt => q
  | Gt => q + 1
  | Eq => if Z.even q then q else q + 1
  end.

Definition round2 (x : float) : float :=
  match x with
  | S754_finite s m e =>
      let (n, d) := fraction m e in
      of_decimal s (div_half_even (n * 100) d) (-2)
  | _ => x
  end.

(** *** [repr(x)]: the shortest decimal that reads back as [x] *)

(** The [k] with [10^(k-1) <= n/d < 10^k]. *)
Fixpoint decimal_exponent (fuel : nat) (n d : Z) (k : Z) : Z :=
  match fuel with
  | O => k
  | S fuel' =>
      if 0 <? k then
        if n <? d * 10 ^ (k - 1) then decimal_exponent fuel' n d (k - 1)
        else if d * 10 ^ k <=? n then decimal_exponent fuel' n d (k + 1)
        else k
      else
        if n * 10 ^ (1 - k) <? d then decimal_exponent fuel' n d (k - 1)
        else if d <=? n * 10 ^ (- k) then decimal_exponent fuel' n d (k + 1)
        else k
  end.

(** [floor (n/d * 10^j)] and whether [2 * (n/d * 10^j)] is below, at or
    above [2 * floor + 1]. *)
Definition scaled (n d j : Z) : Z * comparison :=
  let (a, b) := if 0 <=? j then (n * 10 ^ j, d) else (n, d * 10 ^ (- j)) in
  let lo := a / b in
  (lo, (2 * a ?= (2 * lo + 1) * b)).

(** The candidates with [digits] significant digits on either side of
    [x]; the one that reads back as [x] and is nearest to it, with its
    power of ten. *)
Definition candidate (x : float) (n d k : Z) (digits : Z)
    : option (Z * Z) :=
  let e10 := k - digits in
  let (lo, side) := scaled n d (- e10) in
  let hi := lo + 1 in
  let ok c := SFeqb (of_decimal false c e10) (SFabs x) in
  match ok lo, ok hi with
  | true, true =>
      match side with
      | Lt => Some (lo, e10)
      | Gt => Some (hi, e10)
      | Eq => Some (if Z.even lo then lo else hi, e10)
      end
  | true, false => Some (lo, e10)
  | false, true => Some (hi, e10)
  | false, false => None
  end.

Fixpoint shortest (fuel : nat) (x : float) (n d k : Z) (digits : Z)
    : Z * Z :=
  match fuel with
  | O => (fst (scaled n d (digits - k)), k - digits)
  | S fuel' =>
      match candidate x n d k digits with
      | Some r => r
      | None => shortest fuel' x n d k (digits + 1)
      end
  end.

(** Drops the zeros that end a decimal, raising its power of ten. *)
Fixpoint strip_zeros (fuel : nat) (c e10 : Z) : Z * Z :=
  match fuel with
  | O => (c, e10)
  | S fuel' =>
      if (c mod 10 =? 0) && negb (c =? 0) then strip_zeros fuel' (c / 10) (e10 + 1)
      else (c, e10)
  end.

Fixpoint zeros (n : nat) : string :=
  match n with O => EmptyString | S n' => String "0" (zeros n') end.

(** The digits and the position of the decimal point ([decpt]) of the
    shortest decimal of a finite non-zero float. *)
Definition shortest_digits (x : float) : string * Z :=
  match x with
  | S754_finite _ m e =>
      let (n, d) := fraction m e in
      let k := decimal_exponent 700 n d 1 in
      let (c, e10) := shortest 17 x n d k 1 in
      let (c, e10) := strip_zeros 20 c e10 in
      let ds := str_int c in
      (ds, len ds + e10)
  | _ => ("0", 1)
  end.

(** [repr(x)], which is also [str(x)]: exponent notation below [1e-4]
    and from [1e16] on. *)
Definition repr (x : float) : string :=
  match x with
  | S754_nan => "nan"
  | S754_infinity s => if s then "-inf" else "inf"
  | S754_zero s => if s then "-0.0" else "0.0"
  | S754_finite s _ _ =>
      let (ds, decpt) := shortest_digits x in
      let body :=
        if (decpt <=? -4) || (16 <? decpt) then
          let e := decpt - 1 in
          let mant :=
            match ds with
            | String c EmptyString => chr c
            | String c rest => String c ("." ++ rest)
            | EmptyString => EmptyString
            end in
          let es := str_int (Z.abs e) in
          mant ++ "e" ++ (if e <? 0 then "-" else "+")
               ++ (if len es <? 2 then "0" ++ es else es)
        else if decpt <=? 0 then "0." ++ zeros (Z.to_nat (- decpt)) ++ ds
        else if decpt <? len ds then
          slice_to ds decpt ++ "." ++ slice_from ds decpt
        else ds ++ zeros (Z.to_nat (decpt - len ds)) ++ ".0" in
      if s then "-" ++ body else body
  end.

(** The value of the variable [euro]: an [int] or a [float]. *)
Inductive number : Type :=
| Int (n : Z)
| Float (x : float).

(** [str(euro)] *)
Definition str (v : number) : string :=
  match v with
  | Int n => str_int n
  | Float x => repr x
  end.

(** [round(euro, 2)]; an [int] rounds to itself. *)
Definition round (v : number) : number :=
  match v with
  | Int n => Int n
  | Float x => Float (round2 x)
  end.

(** [euro == 0] *)
Definition eq_zero (v : number) : bool :=
  match v with
  | Int n => n =? 0
  | Float x => is_zero x
  end.

End PyFloat.

(** ** Logging and external collaborators *)

Module Log.

Inductive level : Type := DEBUG | INFO | WARNING | ERROR.

(** A call [logging.<level>(msg, *args)]: the template and its
    arguments, already turned into strings; the template is not
    expanded. *)
Record entry : Type := mk { lvl : level; msg : string; args : list string }.

Definition is_error (e : entry) : bool :=
  match lvl e with ERROR => true | _ => false end.

(** The number of records at level ERROR. *)
Definition errors (l : list entry) : nat := length (filter (fun e => is_error e = true) l).

End Log.

(** The messages of [MESSAGES] (the line break of ["locale"] is written
    with [Py.newline]). *)
Module MESSAGES.
Definition num_columns : string :=
  "Syntax: The number of values in this row (%s) "
  ++ "differs from the number of columns (%s). Line left "
  ++ "unchanged, the resulting CSV file will not be valid.".
Definition locale : string :=
  "Error: Could not process the monetary value '%s' in "
  ++ "column %s. Usually this happens due to one of two reasons:"
  ++ Py.chr Py.newline ++ "1) "
  ++ "The value does not represent a number." ++ Py.chr Py.newline
  ++ "2) The value "
  ++ "represents a number, but its format differs from your "
  ++ "current system locale - the most common source of error "
  ++ "is the decimal mark (1234.56 vs 1234,56). Try using "
  ++ "another locale with the -l option.".
Definition unify : string :=
  "Normalisation: Crossref-based {} changed from '{}' to '{}' "
  ++ "to maintain consistency.".
Definition digits_error : string :=
  "Monetary value %s has more than 2 digits after "
  ++ "the decimal point. If this is just a formatting issue (from automated "
  ++ "conversion for example) you may call the enrichment script with the -r "
  ++ "option to round such values to 2 digits automatically.".
Definition digits_norm : string :=
  "Normalisation: Monetary value %s rounded to 2 digits after "
  ++ "decimal mark (%s -> %s)".
Definition doi_norm : string :=
  "Normalisation: DOI '{}' normalised to pure form ({}).".
Definition springer_distinction : string :=
  "publisher 'Springer Nature' found "
  ++ "for a pre-2015 article - publisher "
  ++ "changed to '%s' based on prefix "
  ++ "discrimination ('%s')".
Definition unknown_prefix : string :=
  "publisher 'Springer Nature' found for a "
  ++ "pre-2015 article, but discrimination was "
  ++ "not possible - unknown prefix ('%s')".
Definition issn_hyphen_fix : string :=
  "Normalisation: Added hyphen to %s value (%s -> %s)".
Definition period_format : string :=
  "Normalisation: Date format in period column changed to year only (%s -> %s)".
Definition unknown_hybrid_identifier : string :=
  "Unknown identifier in 'is_hybrid' column ('%s').".
Definition hybrid_normalisation : string :=
  "Normalisation: is_hybrid status changed from '%s' to '%s'.".
Definition no_hybrid_identifier : string :=
  "Empty value in 'is_hybrid' column.".
End MESSAGES.

(** [COLUMN_SCHEMAS] *)
Definition COLUMN_SCHEMAS : list (string * list string) :=
  [ ("journal_article",
     ["institution"; "period"; "euro"; "doi"; "is_hybrid"; "publisher";
      "journal_full_title"; "issn"; "issn_print"; "issn_electronic";
      "issn_l"; "license_ref"; "indexed_in_crossref"; "pmid"; "pmcid";
      "ut"; "url"; "doaj"]);
    ("journal_article_transagree",
     ["institution"; "period"; "euro"; "doi"; "is_hybrid"; "publisher";
      "journal_full_title"; "issn"; "issn_print"; "issn_electronic";
      "issn_l"; "license_ref"; "indexed_in_crossref"; "pmid"; "pmcid";
      "ut"; "url"; "doaj"; "agreement"]);
    ("book_title",
     ["institution"; "period"; "euro"; "doi"; "backlist_oa"; "publisher";
      "book_title"; "isbn"; "isbn_print"; "isbn_electronic"; "license_ref";
      "indexed_in_crossref"; "doab"]) ].

(** *** Containers *)

(** [d[k]] on a dictionary with string keys. *)
Definition getitem {V : Type} (d : gmap string V) (k : string) : result V :=
  match d !! k with
  | Some v => Ok v
  | None => Raise (KeyError k)
  end.

(** [d[k]] on a dictionary kept in insertion order. *)
Fixpoint assoc {V : Type} (d : list (string * V)) (k : string) : result V :=
  match d with
  | (k', v) :: d' => if String.eqb k k' then Ok v else assoc d' k
  | [] => Raise (KeyError k)
  end.

(** A list index: negative indices count from the end. *)
Definition list_index {A : Type} (l : list A) (i : Z) : option nat :=
  let n := Z.of_nat (length l) in
  let j := if i <? 0 then i + n else i in
  if (0 <=? j) && (j <? n) then Some (Z.to_nat j) else None.

Definition not_an_index : exn :=
  TypeError "list indices must be integers or slices, not NoneType".

(** [l[i]], where [i] is an [int] or [None]. *)
Definition list_get {A : Type} (l : list A) (i : option Z) : result A :=
  match i with
  | None => Raise not_an_index
  | Some i =>
      match list_index l i with
      | Some j => match l !! j with Some x => Ok x | None => Raise IndexError end
      | None => Raise IndexError
      end
  end.

(** [l[i] = x] *)
Definition list_set {A : Type} (l : list A) (i : option Z) (x : A)
    : result (list A) :=
  match i with
  | None => Raise not_an_index
  | Some i =>
      match list_index l i with
      | Some j => Ok (<[j := x]> l)
      | None => Raise IndexError
      end
  end.

(** [[l[i] for i in indices]] *)
Fixpoint list_gets {A : Type} (l : list A) (indices : list Z)
    : result (list A) :=
  match indices with
  | [] => Ok []
  | i :: indices' =>
      (let? x := list_get l (Some i) in
       let? xs := list_gets l indices' in
       Ok (x :: xs))%result
  end.

(** [has_value] *)
Definition has_value (field : string) : bool :=
  (Py.len field >? 0) && negb (String.eqb field "NA").

(** *** The reference lookups *)

Module DOAJAnalysis.

Record t : Type := mk {
  doaj_issn_map : gmap string string;
  doaj_eissn_map : gmap string string
}.

(** [lookup] *)
Definition lookup (self : t) (any_issn : string) : option string :=
  match doaj_issn_map self !! any_issn with
  | Some title => Some title
  | None => doaj_eissn_map self !! any_issn
  end.

End DOAJAnalysis.

Module DOABAnalysis.

Record t : Type := mk {
  isbn_map : gmap string (gmap string string);  (* ISBN to line of the CSV *)
  isbn_handling : ISBNHandling.t
}.

(** The dictionary [lookup] returns, keys in insertion order. *)
Definition lookup_result : Type := list (string * string).

(** [lookup] *)
Definition lookup (self : t) (isbn : string) : result (option lookup_result) :=
  (let? result := ISBNHandling.test_and_normalize_isbn (isbn_handling self) isbn in
   if ISBNHandling.valid result then
     match ISBNHandling.normalised result with
     | None => Raise (KeyError "normalised")
     | Some norm_isbn =>
         match isbn_map self !! norm_isbn with
         | Some line =>
             let? title := getitem line "Title" in
             let? publisher := getitem line "Publisher" in
             let? license := getitem line "License" in
             Ok (Some [("book_title", title); ("publisher", publisher);
                       ("license_ref", license)])
         | None => Ok None
         end
     end
   else Ok None)%result.

End DOABAnalysis.

(** A column of the input file.  The class [CSVColumn] is defined in the
    calling scripts; the pipeline reads its [index] and [column_type] and
    calls [check_overwrite], which is kept as the method it is. *)
Module CSVColumn.
Record t : Type := mk {
  index : option Z;
  column_type : string;
  check_overwrite : string -> string -> string
}.
End CSVColumn.

(** The tables of the module [mappings] that the pipeline reads. *)
Module mappings.
Record t : Type := mk {
  HYBRID_STATUS : list (string * list string);
  PUBLISHER_MAPPINGS : gmap string string;
  JOURNAL_MAPPINGS : gmap string string
}.
End mappings.

(** What the registries answer. *)
Inductive crossref_response : Type :=
| CrossrefData (doi_type : string) (prefix : option string)
               (data : list (string * option string))
| CrossrefError (error_msg : string).

Inductive pubmed_response : Type :=
| PubmedData (data : list (string * option string))
| PubmedError (error_msg : string).

Inductive isbn_query_response : Type :=
| FoundDois (dois : list string)
| QueryError (error_msg : string).

(** The functions of the module that talk to the network, as functions
    of the state [W] of the outside world. *)
Record collaborators (W : Type) : Type := mkCollaborators {
  get_normalised_DOI : string -> W -> option string * W;
  get_metadata_from_crossref : string -> W -> crossref_response * W;
  get_metadata_from_pubmed : string -> W -> pubmed_response * W;
  (** the request of [find_book_dois_in_crossref] *)
  crossref_isbn_query : list string -> W -> isbn_query_response * W
}.
Arguments get_normalised_DOI {W} _ _ _.
Arguments get_metadata_from_crossref {W} _ _ _.
Arguments get_metadata_from_pubmed {W} _ _ _.
Arguments crossref_isbn_query {W} _ _ _.

(** *** The monad of the pipeline: log and outside world as state,
    exceptions as results *)

Module M.
Section Monad.
Context {W : Type}.

Definition state : Type := list Log.entry * W.
Definition t (A : Type) : Type := state -> result A * state.

Definition ret {A} (a : A) : t A := fun st => (Ok a, st).
Definition raise {A} (e : exn) : t A := fun st => (Raise e, st).
Definition lift {A} (r : result A) : t A := fun st => (r, st).
Definition bind {A B} (m : t A) (k : A -> t B) : t B :=
  fun st =>
    match m st with
    | (Ok a, st') => k a st'
    | (Raise e, st') => (Raise e, st')
    end.

Definition log (lvl : Log.level) (msg : string) (args : list string) : t unit :=
  fun st => (Ok tt, ((st.1 ++ [Log.mk lvl msg args])%list, st.2)).

Definition call {A} (f : W -> A * W) : t A :=
  fun st => let (a, w) := f st.2 in (Ok a, (st.1, w)).

End Monad.
End M.

Declare Scope pipeline_scope.
Delimit Scope pipeline_scope with pipeline.
Notation "'let!' x ':=' m 'in' k" :=
  (M.bind m (fun x => k))
  (at level 10, x pattern, m at level 100, k at level 200) : pipeline_scope.

(** ** The enrichment pipeline *)

(** [^\d+\.\d{3}]; the unbounded [\d+] is [\d{1,n}] for a subject of [n]
    characters. *)
Definition three_digits_re (n : nat) : Re.t :=
  Re.seq [Re.digits 1 n; Re.Chr "."; Re.digits 3 3].

(** [^\d{4}-[0-1]{1}\d(-[0-3]{1}\d)?$] *)
Definition period_re : Re.t :=
  Re.seq [Re.digits 4 4; Re.Chr "-";
          Re.Rep 1 1 (Re.oneof ["0"; "1"]%char); Re.digit;
          Re.Rep 0 1 (Re.seq [Re.Chr "-";
                              Re.Rep 1 1 (Re.oneof ["0"; "1"; "2"; "3"]%char);
                              Re.digit]);
          Re.Eos].

(** [^\d{7}[\dxX]$] *)
Definition bare_issn_re : Re.t :=
  Re.seq [Re.digits 7 7;
          Re.Cls (fun c => Py.isdigit c
                           || existsb (Ascii.eqb c) ["x"; "X"]%char);
          Re.Eos].

(** What [process_row] returns: the row as it came, or the record type
    with the enriched row. *)
Inductive row_result : Type :=
| Unchanged (row : list string)
| Enriched (record_type : string) (result : list string).

Section Pipeline.
Context {W : Type}.
Variable env : collaborators W.
Variable maps : mappings.t.
Variable conv : PyFloat.localeconv.   (* locale.localeconv() *)

Local Open Scope pipeline_scope.
Import Log.
Abbreviation str := PyFloat.str_int.

(** The level of the messages that an offsetting file tones down. *)
Definition error_unless_offsetting (offsetting_mode : option string)
    : Log.level :=
  match offsetting_mode with None => ERROR | Some _ => WARNING end.

(** [_process_euro_value] *)
Definition _process_euro_value (euro_value : string) (round_monetary : bool)
    (row_num : Z) (index : Z) (offsetting_mode : option string)
    : M.t (W := W) string :=
  if negb (has_value euro_value) then
    let! _ := M.log (error_unless_offsetting offsetting_mode)
                "Line %s: Empty monetary value in column %s."
                [str row_num; str index] in
    M.ret "NA"
  else
    match PyFloat.atof conv euro_value with
    | Raise (ValueError _) =>
        let! _ := M.log ERROR ("Line %s: " ++ MESSAGES.locale)
                    [str row_num; euro_value; str index] in
        M.ret "NA"
    | Raise e => M.raise e
    | Ok x =>
        let euro :=
          if PyFloat.is_integer x then PyFloat.Int (PyFloat.to_int x)
          else PyFloat.Float x in
        let text := PyFloat.str euro in
        let! euro :=
          if Re.matches (three_digits_re (String.length text)) text then
            if round_monetary then
              let euro := PyFloat.round euro in
              let! _ := M.log WARNING ("Line %s: " ++ MESSAGES.digits_norm)
                          [str row_num; euro_value; euro_value;
                           PyFloat.str euro] in
              M.ret euro
            else
              let! _ := M.log ERROR ("Line %s: " ++ MESSAGES.digits_error)
                          [str row_num; euro_value] in
              M.ret euro
          else M.ret euro in
        let! _ :=
          if PyFloat.eq_zero euro then
            M.log (error_unless_offsetting offsetting_mode)
              "Line %s: Euro value is 0" [str row_num]
          else M.ret tt in
        M.ret (PyFloat.str euro)
    end.

(** [_process_period_value] *)
Definition _process_period_value (period_value : string) (row_num : Z)
    : M.t (W := W) string :=
  if Re.matches period_re period_value then
    let new_value := Py.slice_to period_value 4 in
    let! _ := M.log INFO ("Line %s: " ++ MESSAGES.period_format)
                [str row_num; period_value; new_value] in
    M.ret new_value
  else M.ret period_value.

(** [get_hybrid_status_from_whitelist] *)
Definition get_hybrid_status_from_whitelist (hybrid_status : string)
    : option string :=
  (fix loop (items : list (string * list string)) : option string :=
     match items with
     | (boolean_value, whitelist) :: items' =>
         if Py.elem (PyFloat.lower (Py.strip hybrid_status)) whitelist
         then Some boolean_value else loop items'
     | [] => None
     end) (mappings.HYBRID_STATUS maps).

(** [_process_hybrid_status] *)
Definition _process_hybrid_status (hybrid_status : string) (row_num : Z)
    : M.t (W := W) string :=
  if negb (has_value hybrid_status) then
    let! _ := M.log ERROR ("Line %s: " ++ MESSAGES.no_hybrid_identifier)
                [str row_num] in
    M.ret "NA"
  else
    match get_hybrid_status_from_whitelist hybrid_status with
    | None =>
        let! _ := M.log ERROR ("Line %s: " ++ MESSAGES.unknown_hybrid_identifier)
                    [str row_num; hybrid_status] in
        M.ret hybrid_status
    | Some norm_value =>
        if negb (String.eqb norm_value hybrid_status) then
          let! _ := M.log WARNING ("Line %s: " ++ MESSAGES.hybrid_normalisation)
                      [str row_num; hybrid_status; norm_value] in
          M.ret norm_value
        else M.ret hybrid_status
    end.

(** [get_unified_publisher_name], [get_unified_journal_title] *)
Definition get_unified_publisher_name (publisher : string) : string :=
  default publisher (mappings.PUBLISHER_MAPPINGS maps !! publisher).
Definition get_unified_journal_title (journal_full_title : string) : string :=
  default journal_full_title
          (mappings.JOURNAL_MAPPINGS maps !! journal_full_title).

(** [str(prefix)], where [prefix] may be [None]. *)
Definition str_opt (x : option string) : string := default "None" x.

Definition opt_elem (x : option string) (l : list string) : bool :=
  match x with Some s => Py.elem s l | None => false end.

(** [_process_crossref_results] *)
Definition _process_crossref_results (current_row : gmap string string)
    (row_num : Z) (prefix : option string) (key : string)
    (value : option string) : M.t (W := W) string :=
  match value with
  | None => M.ret "NA"
  | Some value =>
      if String.eqb key "journal_full_title" then
        let unified_value := get_unified_journal_title value in
        let! _ :=
          if negb (String.eqb unified_value value) then
            M.log WARNING MESSAGES.unify ["journal title"; value; unified_value]
          else M.ret tt in
        M.ret unified_value
      else if String.eqb key "publisher" then
        let unified_value := get_unified_publisher_name value in
        let! _ :=
          if negb (String.eqb unified_value value) then
            M.log WARNING MESSAGES.unify ["publisher name"; value; unified_value]
          else M.ret tt in
        let new_value := unified_value in
        let! period := M.lift (getitem current_row "period") in
        let! year := M.lift (Py.int period) in
        if (year <? 2015) && String.eqb new_value "Springer Nature" then
          let publisher :=
            if opt_elem prefix ["Springer (Biomed Central Ltd.)";
                                "Springer-Verlag";
                                "Springer - Psychonomic Society"]
            then Some "Springer Science + Business Media"
            else if opt_elem prefix
                      ["Nature Publishing Group";
                       "Nature Publishing Group - Macmillan Publishers"]
            then Some "Nature Publishing Group"
            else None in
          match publisher with
          | Some publisher =>
              let! _ := M.log WARNING
                          ("Line %s: " ++ MESSAGES.springer_distinction)
                          [str row_num; publisher; str_opt prefix] in
              M.ret publisher
          | None =>
              let! _ := M.log ERROR ("Line %s: " ++ MESSAGES.unknown_prefix)
                          [str row_num; str_opt prefix] in
              M.ret new_value
          end
        else M.ret new_value
      else if Py.elem key ["issn"; "issn_print"; "issn_electronic"] then
        if Re.matches bare_issn_re value then
          let new_value := Py.slice_to value 4 ++ "-" ++ Py.slice_from value 4 in
          let! _ := M.log WARNING ("Line %s: " ++ MESSAGES.issn_hyphen_fix)
                      [str row_num; key; value; new_value] in
          M.ret new_value
        else M.ret value
      else M.ret value
  end.

(** [ISBNHandling.ISBN_ERRORS[res["error_type"]]] *)
Definition isbn_error_text (res : ISBNHandling.norm_result) : result string :=
  match ISBNHandling.error_type res with
  | None => Raise (KeyError "error_type")
  | Some code =>
      match List.find (fun kv => fst kv =? code) ISBNHandling.ISBN_ERRORS with
      | Some kv => Ok (snd kv)
      | None => Raise (KeyError (str code))
      end
  end.

(** [res["normalised"]] *)
Definition normalised_of (res : ISBNHandling.norm_result) : result string :=
  match ISBNHandling.normalised res with
  | Some n => Ok n
  | None => Raise (KeyError "normalised")
  end.

(** [find_book_dois_in_crossref]: the argument check, then the request. *)
Definition find_book_dois_in_crossref (isbn_list : list string)
    : M.t (W := W) isbn_query_response :=
  match isbn_list with
  | [] => M.raise (ValueError "Parameter must be a non-empty list!")
  | _ => M.call (crossref_isbn_query env isbn_list)
  end.

(** [_isbn_lookup]: the DOI found, if any, and the record type to
    assume. *)
Definition _isbn_lookup (current_row : gmap string string) (row_num : Z)
    (additional_isbns : list string) (isbn_handling : ISBNHandling.t)
    : M.t (W := W) (option string * option string) :=
  let! collected_isbns :=
    (fix loop (fields : list string) (acc : list string)
       : M.t (W := W) (list string) :=
       match fields with
       | isbn_field :: fields' =>
           let! v := M.lift (getitem current_row isbn_field) in
           loop fields' (if has_value v then (acc ++ [v])%list else acc)
       | [] => M.ret acc
       end) ["isbn"; "isbn_print"; "isbn_electronic"] [] in
  let collected_isbns :=
    (collected_isbns ++ filter (fun isbn => has_value isbn = true)
                               additional_isbns)%list in
  match collected_isbns with
  | [] =>
      let! _ := M.log WARNING
                  ("Line %s: Neither a DOI nor an ISBN found, assuming default record type "
                   ++ "journal_article") [str row_num] in
      M.ret (None, Some "journal_article")
  | _ =>
      let! query_isbns :=
        (fix loop (isbns : list string) (acc : list string)
           : M.t (W := W) (list string) :=
           match isbns with
           | isbn :: isbns' =>
               let! res := M.lift (ISBNHandling.test_and_normalize_isbn
                                     isbn_handling isbn) in
               if negb (ISBNHandling.valid res) then
                 let! text := M.lift (isbn_error_text res) in
                 let! _ := M.log WARNING "Invalid ISBN {}: {}" [isbn; text] in
                 loop isbns' acc
               else
                 let acc := (acc ++ [ISBNHandling.input_value res])%list in
                 let! normalised := M.lift (normalised_of res) in
                 loop isbns'
                      (if negb (String.eqb (ISBNHandling.input_value res)
                                           normalised)
                       then (acc ++ [normalised])%list else acc)
           | [] => M.ret acc
           end) collected_isbns [] in
      let! cr_res := find_book_dois_in_crossref query_isbns in
      match cr_res with
      | QueryError error_msg =>
          let! _ := M.log ERROR
                      "Line %s: Error while trying to look up ISBNs in Crossref: %s"
                      [str row_num; error_msg] in
          M.ret (None, Some "book_title")
      | FoundDois [] =>
          let! _ := M.log INFO
                      "Line %s: Performed Crossref ISBN lookup, no DOI found."
                      [str row_num] in
          M.ret (None, Some "book_title")
      | FoundDois (doi :: (_ :: _) as dois) =>
          let! _ := M.log WARNING
                      "Line %s: Performed Crossref ISBN lookup, more than one DOI found (%s) -> Used first in list."
                      (str row_num :: dois) in
          M.ret (Some doi, None)
      | FoundDois [doi] =>
          let! _ := M.log INFO
                      "Line %s: Performed Crossref ISBN lookup, DOI found (%s)."
                      [str row_num; doi] in
          M.ret (Some doi, None)
      end
  end.

(** The message of the repair branch of [_process_isbn]. *)
Definition invalid_split_msg : string :=
  "Line %s: ISBN value had an invalid split, used the correct one (%s -> %s)".

(** [_process_isbn] *)
Definition _process_isbn (row_num : Z) (isbn : string)
    (isbn_handling : ISBNHandling.t) : M.t (W := W) string :=
  if negb (has_value isbn) then M.ret "NA"
  else
    (* handle a potential white-space split *)
    let isbn := Py.replace Py.space "" isbn in
    let! norm_res := M.lift (ISBNHandling.test_and_normalize_isbn
                               isbn_handling isbn) in
    if ISBNHandling.valid norm_res then
      let! normalised := M.lift (normalised_of norm_res) in
      let! _ :=
        if negb (String.eqb normalised (ISBNHandling.input_value norm_res)) then
          M.log INFO
            "Line %s: Normalisation: ISBN value tested and split (%s -> %s)"
            [str row_num; ISBNHandling.input_value norm_res; normalised]
        else M.ret tt in
      M.ret normalised
    else
      match ISBNHandling.error_type norm_res with
      | None => M.raise (KeyError "error_type")
      | Some code =>
          if code =? 4 then
            let unsplit_isbn := Py.replace Py.hyphen "" isbn in
            let! new_res := M.lift (ISBNHandling.test_and_normalize_isbn
                                      isbn_handling unsplit_isbn) in
            let! normalised := M.lift (normalised_of new_res) in
            let! _ := M.log INFO invalid_split_msg
                        [str row_num; isbn; normalised] in
            M.ret normalised
          else
            let! text := M.lift (isbn_error_text norm_res) in
            let! _ := M.log WARNING
                        "Line %s: Invalid ISBN value (%s), set to NA (reason: %s)"
                        [str row_num; ISBNHandling.input_value norm_res; text] in
            M.ret "NA"
      end.

(** *** [process_row] *)

(** The arguments of [process_row] that a restart passes on as they
    are. *)
Record settings : Type := mkSettings {
  row_num : Z;
  column_map : list (string * CSVColumn.t);   (* a dict, in insertion order *)
  num_required_columns : Z;
  additional_isbn_columns : list Z;
  doab_analysis : DOABAnalysis.t;
  doaj_analysis : DOAJAnalysis.t;
  no_crossref_lookup : bool;
  no_pubmed_lookup : bool;
  no_doaj_lookup : bool;
  round_monetary : bool;
  offsetting_mode : option string
}.

(** The list [row] after the call, and the value returned.  When the row
    is returned as it came, the two are the same list object. *)
Definition outcome : Type := list string * row_result.

Section Row.
Variable cfg : settings.

(** The loop that copies the identified columns into [current_row]. *)
Fixpoint copy_columns (row : list string) (columns : list CSVColumn.t)
    (current_row : gmap string string) : M.t (W := W) (gmap string string) :=
  match columns with
  | [] => M.ret current_row
  | csv_column :: columns' =>
      let index := CSVColumn.index csv_column in
      let column_type := CSVColumn.column_type csv_column in
      let! current_row :=
        match String.eqb column_type "euro", index with
        | true, Some i =>
            let! cell := M.lift (list_get row index) in
            let! v := _process_euro_value cell (round_monetary cfg)
                        (row_num cfg) i (offsetting_mode cfg) in
            M.ret (<["euro" := v]> current_row)
        | _, _ =>
            if String.eqb column_type "period" then
              let! cell := M.lift (list_get row index) in
              let! v := _process_period_value cell (row_num cfg) in
              M.ret (<["period" := v]> current_row)
            else
              match String.eqb column_type "is_hybrid", index with
              | true, Some _ =>
                  let! cell := M.lift (list_get row index) in
                  let! v := _process_hybrid_status cell (row_num cfg) in
                  M.ret (<["is_hybrid" := v]> current_row)
              | _, _ =>
                  match index with
                  | Some _ =>
                      let! cell := M.lift (list_get row index) in
                      if Py.len cell >? 0 then
                        M.ret (<[column_type := cell]> current_row)
                      else M.ret (<[column_type := "NA"]> current_row)
                  | None => M.ret (<[column_type := "NA"]> current_row)
                  end
              end
        end in
      copy_columns row columns' current_row
  end.

(** [current_row[key] = column_map[key].check_overwrite(old, new)] *)
Definition overwrite (current_row : gmap string string) (key : string)
    (new_value : string) : M.t (W := W) (gmap string string) :=
  let! old_value := M.lift (getitem current_row key) in
  let! column := M.lift (assoc (column_map cfg) key) in
  M.ret (<[key := CSVColumn.check_overwrite column old_value new_value]>
           current_row).

(** The retry loop on gateway timeouts; [budget] is what is left of
    [crossref_max_retries]. *)
Fixpoint retry_crossref (budget : nat) (doi : string)
    (crossref_result : crossref_response) : M.t (W := W) crossref_response :=
  match crossref_result with
  | CrossrefError error_msg =>
      if Py.startswith "HTTPError: 504" error_msg then
        match budget with
        | O => M.ret crossref_result
        | S budget' =>
            let! _ := M.log WARNING "%s, retrying..." [error_msg] in
            let! crossref_result :=
              M.call (get_metadata_from_crossref env doi) in
            retry_crossref budget' doi crossref_result
        end
      else M.ret crossref_result
  | CrossrefData _ _ _ => M.ret crossref_result
  end.

(** From the offsetting override to the end of [process_row]. *)
Definition finish (row : list string) (current_row : gmap string string)
    (record_type : option string) : M.t (W := W) outcome :=
  let '(current_row, record_type) :=
    match offsetting_mode cfg with
    | Some mode =>
        if negb (String.eqb mode "") then
          (<["agreement" := mode]> current_row,
           Some "journal_article_transagree")
        else (current_row, record_type)
    | None => (current_row, record_type)
    end in
  let! record_type :=
    match record_type with
    | None =>
        let! _ := M.log ERROR
                    "Line %s: Could not identify record type, using default schema 'journal_article'"
                    [str (row_num cfg)] in
        M.ret "journal_article"
    | Some t => M.ret t
    end in
  let! schema := M.lift (assoc COLUMN_SCHEMAS record_type) in
  let! result :=
    (fix loop (fields : list string) : M.t (W := W) (list string) :=
       match fields with
       | field :: fields' =>
           let! v := M.lift (getitem current_row field) in
           let! vs := loop fields' in
           M.ret (v :: vs)
       | [] => M.ret []
       end) schema in
  M.ret (row, Enriched record_type result).

(** The DOAB lookup over the collected ISBNs (the [for ... else]). *)
Fixpoint doab_loop (isbns : list string) (current_row : gmap string string)
    : M.t (W := W) (gmap string string) :=
  match isbns with
  | isbn :: isbns' =>
      let! doab_result := M.lift (DOABAnalysis.lookup (doab_analysis cfg) isbn) in
      match doab_result with
      | Some doab_result =>
          let current_row := <["doab" := "TRUE"]> current_row in
          let! publisher := M.lift (assoc doab_result "publisher") in
          let! book_title := M.lift (assoc doab_result "book_title") in
          let! _ := M.log INFO
                      ("DOAB: ISBN %s found in normalized DOAB (%s, "
                       ++ Py.q "%s" ++ ")")
                      [isbn; publisher; book_title] in
          let! indexed := M.lift (getitem current_row "indexed_in_crossref") in
          let! current_row :=
            if String.eqb indexed "TRUE" then
              let! _ := M.log INFO
                          "Book already found in Crossref via DOI, those results take precedence"
                          [] in
              M.ret current_row
            else
              M.ret (fold_left (fun cr kv => <[fst kv := snd kv]> cr)
                               doab_result current_row) in
          let! isbn_value := M.lift (getitem current_row "isbn") in
          if negb (has_value isbn_value) then
            M.ret (<["isbn" := isbn]> current_row)
          else M.ret current_row
      | None => doab_loop isbns' current_row
      end
  | [] =>
      let! _ := M.log INFO "DOAB: None of the ISBNs found in DOAB" [] in
      M.ret (<["doab" := "FALSE"]> current_row)
  end.

(** The book-specific part, then the end. *)
Definition stage_book (row : list string) (current_row : gmap string string)
    (record_type : option string) : M.t (W := W) outcome :=
  if negb (bool_decide (record_type = Some "journal_article")) then
    let isbn_handling := DOABAnalysis.isbn_handling (doab_analysis cfg) in
    let! (current_row, collected_isbns) :=
      (fix loop (fields : list string) (current_row : gmap string string)
           (collected : list string)
         : M.t (W := W) (gmap string string * list string) :=
         match fields with
         | isbn_field :: fields' =>
             (* test and split all ISBNs *)
             let! v := M.lift (getitem current_row isbn_field) in
             let! v := _process_isbn (row_num cfg) v isbn_handling in
             loop fields' (<[isbn_field := v]> current_row)
                  (if has_value v then (collected ++ [v])%list else collected)
         | [] => M.ret (current_row, collected)
         end) ["isbn"; "isbn_print"; "isbn_electronic"] current_row [] in
    let! additional_isbns :=
      M.lift (list_gets row (additional_isbn_columns cfg)) in
    let! collected_isbns :=
      (fix loop (isbns : list string) (collected : list string)
         : M.t (W := W) (list string) :=
         match isbns with
         | isbn :: isbns' =>
             let! result := _process_isbn (row_num cfg) isbn isbn_handling in
             loop isbns'
                  (if has_value result then (collected ++ [result])%list
                   else collected)
         | [] => M.ret collected
         end) additional_isbns collected_isbns in
    match collected_isbns with
    | [] =>
        let! _ := M.log INFO "No ISBN found, skipping DOAB lookup." [] in
        finish row (<["doab" := "NA"]> current_row) record_type
    | _ =>
        let record_type := Some "book_title" in
        let! _ := M.log INFO
                    "Trying a DOAB lookup with the following values: %s"
                    collected_isbns in
        let! current_row := doab_loop collected_isbns current_row in
        finish row current_row record_type
    end
  else finish row current_row record_type.

(** The DOAJ lookup, then the rest. *)
Definition stage_doaj (row : list string) (current_row : gmap string string)
    (record_type : option string) : M.t (W := W) outcome :=
  if negb (no_doaj_lookup cfg) then
    let! issn_electronic := M.lift (getitem current_row "issn_electronic") in
    let! issn := M.lift (getitem current_row "issn") in
    let! issn_print := M.lift (getitem current_row "issn_print") in
    let issns :=
      filter (fun v => negb (String.eqb v "NA") = true)
             [issn_electronic; issn; issn_print] in
    let! new_value :=
      (fix loop (issns : list string) (new_value : string)
         : M.t (W := W) string :=
         match issns with
         | issn :: issns' =>
             match DOAJAnalysis.lookup (doaj_analysis cfg) issn with
             | Some (String c title) =>
                 let! _ := M.log INFO
                             "DOAJ: Journal ISSN (%s) found in DOAJ offline copy ('%s')."
                             [issn; String c title] in
                 M.ret "TRUE"
             | _ =>                    (* [None] or an empty title *)
                 let! _ := M.log INFO
                             "DOAJ: Journal ISSN (%s) not found in DOAJ offline copy."
                             [issn] in
                 loop issns' "FALSE"
             end
         | [] => M.ret new_value
         end) issns "NA" in
    let! current_row := overwrite current_row "doaj" new_value in
    stage_book row current_row record_type
  else stage_book row current_row record_type.

(** The Pubmed lookup, then the rest. *)
Definition stage_pubmed (row : list string) (current_row : gmap string string)
    (record_type : option string) (doi : string) : M.t (W := W) outcome :=
  if negb (no_pubmed_lookup cfg) then
    let! pubmed_result := M.call (get_metadata_from_pubmed env doi) in
    match pubmed_result with
    | PubmedData data =>
        let! _ := M.log INFO ("Pubmed: DOI resolved: " ++ doi) [] in
        let! current_row :=
          (fix loop (items : list (string * option string))
               (current_row : gmap string string)
             : M.t (W := W) (gmap string string) :=
             match items with
             | (key, value) :: items' =>
                 let! new_value :=
                   match value with
                   | Some v => M.ret v
                   | None =>
                       let! _ := M.log DEBUG
                                   "WARNING: Element %s not found in in response for doi %s."
                                   [key; doi] in
                       M.ret "NA"
                   end in
                 let! current_row := overwrite current_row key new_value in
                 loop items' current_row
             | [] => M.ret current_row
             end) data current_row in
        stage_doaj row current_row record_type
    | PubmedError error_msg =>
        let! _ := M.log ERROR
                    "Line %s: Pubmed: Error while trying to resolve DOI %s: %s"
                    [str (row_num cfg); doi; error_msg] in
        stage_doaj row current_row record_type
    end
  else stage_doaj row current_row record_type.

(** [index = column_map["doi"].index; row[index] = found_doi], then the
    recursive call. *)
Definition integrate_and_restart (restart : list string -> M.t (W := W) outcome)
    (row : list string) (found_doi : string) : M.t (W := W) outcome :=
  let! _ := M.log INFO
              "New DOI integrated, restarting enrichment for current line." [] in
  let! column := M.lift (assoc (column_map cfg) "doi") in
  let! row := M.lift (list_set row (CSVColumn.index column) found_doi) in
  restart row.

(** The part of [process_row] under [if has_value(doi)], then the rest. *)
Definition stage_doi (restart : list string -> M.t (W := W) outcome)
    (crossref_max_retries : Z)
    (row : list string) (current_row : gmap string string)
    (record_type : option string) (doi : string) : M.t (W := W) outcome :=
  if has_value doi then
    (* Normalise DOI *)
    let! norm_doi := M.call (get_normalised_DOI env doi) in
    let! (current_row, doi) :=
      match norm_doi with
      | Some norm_doi =>
          if negb (String.eqb norm_doi doi) then
            let! _ := M.log INFO MESSAGES.doi_norm [doi; norm_doi] in
            M.ret (<["doi" := norm_doi]> current_row, norm_doi)
          else M.ret (current_row, doi)
      | None => M.ret (current_row, doi)
      end in
    (* include crossref metadata *)
    if negb (no_crossref_lookup cfg) then
      let! crossref_result := M.call (get_metadata_from_crossref env doi) in
      let! crossref_result :=
        retry_crossref (Z.to_nat crossref_max_retries) doi crossref_result in
      match crossref_result with
      | CrossrefData doi_type prefix data =>
          let record_type := Some doi_type in
          let! _ := M.log INFO
                      ("Crossref: DOI resolved: " ++ doi ++ " [" ++ doi_type ++ "]")
                      [] in
          let current_row := <["indexed_in_crossref" := "TRUE"]> current_row in
          let! current_row :=
            (fix loop (items : list (string * option string))
                 (current_row : gmap string string)
               : M.t (W := W) (gmap string string) :=
               match items with
               | (key, value) :: items' =>
                   let! new_value :=
                     _process_crossref_results current_row (row_num cfg)
                       prefix key value in
                   let! current_row := overwrite current_row key new_value in
                   loop items' current_row
               | [] => M.ret current_row
               end) data current_row in
          stage_pubmed row current_row record_type doi
      | CrossrefError error_msg =>
          let! _ := M.log ERROR
                      "Line %s: Crossref: Error while trying to resolve DOI %s: %s"
                      [str (row_num cfg); doi; error_msg] in
          let current_row := <["indexed_in_crossref" := "FALSE"]> current_row in
          (* lookup ISBNs in crossref and try to find a correct DOI *)
          let! additional_isbns :=
            M.lift (list_gets row (additional_isbn_columns cfg)) in
          let! (found_doi, r_type) :=
            _isbn_lookup current_row (row_num cfg) additional_isbns
              (DOABAnalysis.isbn_handling (doab_analysis cfg)) in
          let record_type :=
            match r_type with Some t => Some t | None => record_type end in
          match found_doi with
          | Some found_doi => integrate_and_restart restart row found_doi
          | None => stage_pubmed row current_row record_type doi
          end
      end
    else stage_pubmed row current_row record_type doi
  else stage_doaj row current_row record_type.

(** The body of [process_row]; [restart] is the recursive call, which
    passes every argument on but [crossref_max_retries]. *)
Definition process_row_body (restart : list string -> M.t (W := W) outcome)
    (crossref_max_retries : Z) (row : list string) : M.t (W := W) outcome :=
  if negb (Z.of_nat (length row) =? num_required_columns cfg) then
    let! _ := M.log ERROR ("Line %s: " ++ MESSAGES.num_columns)
                [str (row_num cfg); str (Z.of_nat (length row));
                 str (num_required_columns cfg)] in
    M.ret (row, Unchanged row)
  else
    let record_type : option string := None in
    (* Copy content of identified columns and apply special processing rules *)
    let! current_row := copy_columns row (map snd (column_map cfg)) ∅ in
    let! doi := M.lift (getitem current_row "doi") in
    if (Py.len doi =? 0) || String.eqb doi "NA" then
      (* lookup ISBNs in crossref *)
      let! _ := M.log INFO "Line %s: No DOI found" [str (row_num cfg)] in
      let current_row := <["indexed_in_crossref" := "FALSE"]> current_row in
      let! additional_isbns :=
        M.lift (list_gets row (additional_isbn_columns cfg)) in
      let! (found_doi, r_type) :=
        _isbn_lookup current_row (row_num cfg) additional_isbns
          (DOABAnalysis.isbn_handling (doab_analysis cfg)) in
      let record_type :=
        match r_type with Some t => Some t | None => record_type end in
      match found_doi with
      | Some found_doi => integrate_and_restart restart row found_doi
      | None =>
          stage_doi restart crossref_max_retries row current_row record_type doi
      end
    else stage_doi restart crossref_max_retries row current_row record_type doi.

(** [process_row].  [depth] is what the interpreter's recursion limit
    still allows in nested calls of [process_row]; a call beyond it
    raises [RecursionError].  The recursive call does not pass
    [crossref_max_retries], which falls back to its default 3. *)
Fixpoint process_row (depth : nat) (crossref_max_retries : Z)
    (row : list string) : M.t (W := W) outcome :=
  process_row_body
    (fun row' =>
       match depth with
       | O => M.raise RecursionError
       | S depth' => process_row depth' 3 row'
       end)
    crossref_max_retries row.

End Row.

End Pipeline.

(** ** Further specification-side definitions *)

(** The ISBN-13 checksum in the usual wording: the digits at even
    positions (counting from 0) weigh 1, the others 3. *)
Fixpoint isbn13_sum (index : nat) (s : string) : Z :=
  match s with
  | String c s' =>
      (if Nat.even index then 1 else 3) * Py.digit_value c
      + isbn13_sum (S index) s'
  | EmptyString => 0
  end.

(** The check value that fits seven ISSN digits with weighted sum
    [total]. *)
Definition issn_expected_check (total : Z) : Z :=
  if total mod 11 =? 0 then 0 else 11 - total mod 11.

(** What a CSV reader makes of a quoted field: the outer quotes go, and
    of two quotes in a row the first is dropped. *)
Fixpoint undouble (s : string) : string :=
  match s with
  | String c s' =>
      if Ascii.eqb c Py.dquote then
        match s' with
        | String d s'' =>
            if Ascii.eqb d Py.dquote then String Py.dquote (undouble s'')
            else String c (undouble s')
        | EmptyString => Py.chr c
        end
      else String c (undouble s')
  | EmptyString => EmptyString
  end.

Definition unquote (field : string) : option string :=
  match field with
  | String c body =>
      if Ascii.eqb c Py.dquote then
        match String.length body with
        | O => None
        | S n =>
            if String.eqb (Py.drop n body) (Py.chr Py.dquote)
            then Some (undouble (Py.take n body)) else None
        end
      else None
  | EmptyString => None
  end.

(** The two loops of [_isbn_lookup], named so that they can be reasoned
    about: collecting the ISBN fields of the row, and normalising what
    was collected. *)
Section IsbnLookupLoops.
Context {W : Type}.
Local Open Scope pipeline_scope.

Definition collect_loop (current_row : gmap string string) :=
  fix loop (fields : list string) (acc : list string)
    : M.t (W := W) (list string) :=
    match fields with
    | isbn_field :: fields' =>
        let! v := M.lift (getitem current_row isbn_field) in
        loop fields' (if has_value v then (acc ++ [v])%list else acc)
    | [] => M.ret acc
    end.

Definition query_loop (isbn_handling : ISBNHandling.t) :=
  fix loop (isbns : list string) (acc : list string)
    : M.t (W := W) (list string) :=
    match isbns with
    | isbn :: isbns' =>
        let! res := M.lift (ISBNHandling.test_and_normalize_isbn
                              isbn_handling isbn) in
        if negb (ISBNHandling.valid res) then
          let! text := M.lift (isbn_error_text res) in
          let! _ := M.log Log.WARNING "Invalid ISBN {}: {}" [isbn; text] in
          loop isbns' acc
        else
          let acc := (acc ++ [ISBNHandling.input_value res])%list in
          let! normalised := M.lift (normalised_of res) in
          loop isbns'
               (if negb (String.eqb (ISBNHandling.input_value res)
                                    normalised)
                then (acc ++ [normalised])%list else acc)
    | [] => M.ret acc
    end.

End IsbnLookupLoops.



(** A string none of whose characters [str.strip] would remove. *)
Definition no_blank (s : string) : Prop :=
  Forall (fun c => Py.isspace c = false) (list_ascii_of_string s).

(** Partial correctness in the monad of the pipeline: whatever [m]
    returns normally satisfies [P]. *)
Definition post {W A : Type} (P : A -> Prop) (m : M.t (W := W) A) : Prop :=
  forall st v st', m st = (Ok v, st') -> P v.

(** An enriched row for an input of [n] cells: the list [row] still has
    [n] cells, the record type has a schema, the result has one value
    per column of it, and an offsetting file gives the record type of
    transformative agreements. *)
Definition well_shaped (cfg : settings) (n : nat) (out : outcome) : Prop :=
  length out.1 = n
  /\ exists (record_type : string) (result schema : list string),
       out.2 = Enriched record_type result
       /\ assoc COLUMN_SCHEMAS record_type = Ok schema
       /\ length result = length schema
       /\ forall mode, offsetting_mode cfg = Some mode -> mode <> "" ->
                       record_type = "journal_article_transagree".

(** ** The offline copies of DOAJ and DOAB

    [DOAJAnalysis.__init__] and [DOABAnalysis.__init__] read a CSV file
    through [csv.DictReader]; here they start from the rows the reader
    yields, each a dictionary from column name to cell. *)

(** The truth value of a string. *)
Definition truthy (s : string) : bool := negb (String.eqb s "").

(** The loop of [DOAJAnalysis.__init__]. *)
Fixpoint DOAJAnalysis_rows (reader : list (gmap string string))
    (self : DOAJAnalysis.t) : result DOAJAnalysis.t :=
  match reader with
  | line :: reader' =>
      (let? journal_title := getitem line "Journal title" in
       let? issn := getitem line "Journal ISSN (print version)" in
       let? eissn := getitem line "Journal EISSN (online version)" in
       let self :=
         if truthy issn then
           {| DOAJAnalysis.doaj_issn_map :=
                <[issn := journal_title]> (DOAJAnalysis.doaj_issn_map self);
              DOAJAnalysis.doaj_eissn_map := DOAJAnalysis.doaj_eissn_map self |}
         else self in
       let self :=
         if truthy eissn then
           {| DOAJAnalysis.doaj_issn_map := DOAJAnalysis.doaj_issn_map self;
              DOAJAnalysis.doaj_eissn_map :=
                <[eissn := journal_title]> (DOAJAnalysis.doaj_eissn_map self) |}
         else self in
       DOAJAnalysis_rows reader' self)%result
  | [] => Ok self
  end.

(** [DOAJAnalysis.__init__] *)
Definition DOAJAnalysis_init (reader : list (gmap string string))
    : result DOAJAnalysis.t :=
  DOAJAnalysis_rows reader
    {| DOAJAnalysis.doaj_issn_map := ∅; DOAJAnalysis.doaj_eissn_map := ∅ |}.

(** The title of the last row whose column [field] holds [any_issn]. *)
Fixpoint last_title (field : string) (reader : list (gmap string string))
    (any_issn : string) : option string :=
  match reader with
  | line :: reader' =>
      match last_title field reader' any_issn with
      | Some title => Some title
      | None =>
          if bool_decide (line !! field = Some any_issn)
          then line !! "Journal title" else None
      end
  | [] => None
  end.

(** *** More string primitives *)

Definition tab : ascii := "009"%char.
Definition escape : ascii := "027"%char.

(** ["  " in s] *)
Fixpoint double_space_in (s : string) : bool :=
  match s with
  | String c s' =>
      match s' with
      | String d _ =>
          (Ascii.eqb c Py.space && Ascii.eqb d Py.space) || double_space_in s'
      | EmptyString => false
      end
  | EmptyString => false
  end.

(** [s.replace("  ", " ")]: the occurrences are taken from the left and
    do not overlap. *)
Fixpoint replace_double_space (s : string) : string :=
  match s with
  | String c s' =>
      match s' with
      | String d s'' =>
          if Ascii.eqb c Py.space && Ascii.eqb d Py.space
          then String Py.space (replace_double_space s'')
          else String c (replace_double_space s')
      | EmptyString => s
      end
  | EmptyString => EmptyString
  end.

(** [while "  " in s: s = s.replace("  ", " ")]; every round shortens
    the string, so [fuel] rounds are enough when [fuel] is its length. *)
Fixpoint squeeze_spaces (fuel : nat) (s : string) : string :=
  if double_space_in s then
    match fuel with
    | S fuel' => squeeze_spaces fuel' (replace_double_space s)
    | O => s
    end
  else s.

(** [s.split(sep)] for a one-character [sep]. *)
Fixpoint str_split (sep : ascii) (s : string) : list string :=
  match s with
  | String c s' =>
      if Ascii.eqb c sep then EmptyString :: str_split sep s'
      else match str_split sep s' with
           | word :: words => String c word :: words
           | [] => [Py.chr c]
           end
  | EmptyString => [EmptyString]
  end.

(** [colorize]; [print_r] and [print_y] print its result. *)
Definition ANSI_COLORS : list (string * string) :=
  [ ("red", Py.chr escape ++ "[91m"); ("green", Py.chr escape ++ "[92m");
    ("yellow", Py.chr escape ++ "[93m"); ("blue", Py.chr escape ++ "[94m");
    ("cyan", Py.chr escape ++ "[96m") ].

Definition colorize (text color : string) : result string :=
  (let? code := assoc ANSI_COLORS color in
   Ok (code ++ text ++ Py.chr escape ++ "[0m"))%result.

(** *** [DOABAnalysis.__init__] *)

(** What the loops of [__init__] work on: the index, the duplicates
    seen, and the lines printed. *)
Record doab_index : Type := mkIndex {
  entries : gmap string (gmap string string);
  duplicate_isbns : list string;
  printed : list string
}.

Definition print_colored (color text : string) (ix : doab_index)
    : result doab_index :=
  (let? line := colorize text color in
   Ok {| entries := entries ix; duplicate_isbns := duplicate_isbns ix;
         printed := (printed ix ++ [line])%list |})%result.

Section DOABInit.
(** [list(set(isbns))]: the values without repetition, in the order of
    the interpreter's hash table. *)
Variable list_set_of : list string -> list string.
Variable isbn_handling : ISBNHandling.t.
Variable verbose : bool.

(** [for isbn in list(set(isbns))] *)
Fixpoint index_isbns (line_num : Z) (line : gmap string string)
    (isbns : list string) (ix : doab_index) : result doab_index :=
  match isbns with
  | isbn :: isbns' =>
      (let? result := ISBNHandling.test_and_normalize_isbn isbn_handling isbn in
       if negb (ISBNHandling.valid result) then
         let? ix :=
           if verbose then
             let? text := isbn_error_text result in
             print_colored "red"
               ("Line " ++ PyFloat.str_int line_num
                ++ ": ISBN normalization failure ("
                ++ ISBNHandling.input_value result ++ "): " ++ text) ix
           else Ok ix in
         index_isbns line_num line isbns' ix
       else
         let? isbn := normalised_of result in
         let? ix :=
           match entries ix !! isbn with
           | None =>
               Ok {| entries := <[isbn := line]> (entries ix);
                     duplicate_isbns := duplicate_isbns ix;
                     printed := printed ix |}
           | Some _ =>
               if negb (Py.elem isbn (duplicate_isbns ix)) then
                 let ix :=
                   {| entries := entries ix;
                      duplicate_isbns := (duplicate_isbns ix ++ [isbn])%list;
                      printed := printed ix |} in
                 if verbose then
                   print_colored "yellow"
                     ("ISBN duplicate found in DOAB: " ++ isbn) ix
                 else Ok ix
               else Ok ix
           end in
         index_isbns line_num line isbns' ix)%result
  | [] => Ok ix
  end.

(** [for line in reader]; a row comes with [reader.line_num]. *)
Fixpoint index_lines (reader : list (Z * gmap string string))
    (ix : doab_index) : result doab_index :=
  match reader with
  | (line_num, line) :: reader' =>
      (let? isbn_string := getitem line "ISBN" in
       let? record_type := getitem line "Type" in
       (* ATM we focus on books only *)
       if negb (String.eqb record_type "book") then index_lines reader' ix
       else
         let isbn_string := Py.replace "/" " " isbn_string in
         let isbn_string := Py.replace ";" " " isbn_string in
         let isbn_string := Py.replace tab " " isbn_string in
         let isbn_string := Py.strip isbn_string in
         if Py.len isbn_string =? 0 then index_lines reader' ix
         else
           let isbn_string :=
             squeeze_spaces (String.length isbn_string) isbn_string in
           let isbns := str_split Py.space isbn_string in
           let? ix := index_isbns line_num line (list_set_of isbns) ix in
           index_lines reader' ix)%result
  | [] => Ok ix
  end.

(** [for duplicate in duplicate_isbns: del(self.isbn_map[duplicate])] *)
Fixpoint drop_duplicates (duplicates : list string)
    (isbn_map : gmap string (gmap string string))
    : result (gmap string (gmap string string)) :=
  match duplicates with
  | duplicate :: duplicates' =>
      match isbn_map !! duplicate with
      | Some _ => drop_duplicates duplicates' (delete duplicate isbn_map)
      | None => Raise (KeyError duplicate)
      end
  | [] => Ok isbn_map
  end.

(** [DOABAnalysis.__init__]: the object and what was printed. *)
Definition DOABAnalysis_init (reader : list (Z * gmap string string))
    : result (DOABAnalysis.t * list string) :=
  (let? ix := index_lines reader
                {| entries := ∅; duplicate_isbns := []; printed := [] |} in
   let? isbn_map := drop_duplicates (duplicate_isbns ix) (entries ix) in
   Ok ({| DOABAnalysis.isbn_map := isbn_map;
          DOABAnalysis.isbn_handling := isbn_handling |}, printed ix))%result.

(** What one offer does to the index and to the list of duplicates. *)
Definition note_offer
    (state : gmap string (gmap string string) * list string)
    (offer : string * gmap string string)
    : gmap string (gmap string string) * list string :=
  match state.1 !! offer.1 with
  | None => (<[offer.1 := offer.2]> state.1, state.2)
  | Some _ =>
      (state.1,
       if Py.elem offer.1 state.2 then state.2
       else (state.2 ++ [offer.1])%list)
  end.

(** The normalised form of an ISBN that the index takes up. *)
Definition indexed_form (isbn : string) : option string :=
  match ISBNHandling.test_and_normalize_isbn isbn_handling isbn with
  | Ok result =>
      if ISBNHandling.valid result then ISBNHandling.normalised result
      else None
  | Raise _ => None
  end.

(** The values of the ISBN cell of a row. *)
Definition isbn_values (isbn_string : string) : list string :=
  let cleaned :=
    Py.strip (Py.replace tab " "
                (Py.replace ";" " " (Py.replace "/" " " isbn_string))) in
  if Py.len cleaned =? 0 then []
  else list_set_of
         (str_split Py.space (squeeze_spaces (String.length cleaned) cleaned)).

(** What a row offers to the index: one pair for each of its ISBN values
    that normalises, if the row describes a book. *)
Definition row_offers (line : gmap string string)
    : list (string * gmap string string) :=
  match line !! "ISBN", line !! "Type" with
  | Some isbn_string, Some record_type =>
      if String.eqb record_type "book" then
        map (fun isbn => (isbn, line))
            (omap indexed_form (isbn_values isbn_string))
      else []
  | _, _ => []
  end.

Definition offers (reader : list (Z * gmap string string))
    : list (string * gmap string string) :=
  flat_map (fun numbered => row_offers numbered.2) reader.

(** The offers made for one ISBN. *)
Definition offers_for (isbn : string)
    (reader : list (Z * gmap string string))
    : list (string * gmap string string) :=
  filter (fun offer => offer.1 = isbn) (offers reader).

End DOABInit.

(** ** Concrete data for the examples *)

Module Examples.
Import ISBNHandling.

Definition rule (range length : string) : Rule :=
  {| Range := range; Length := length |}.

(** An excerpt of the range file [RangeMessage.xml]: the two EAN prefixes
    and the registration groups 978-2 and 978-3.  A length of 0 marks a
    range that is not in use. *)
Definition range_file : ISBNHandling.t :=
  {| ean_elements :=
       [ {| Prefix := "978";
            Rules := [ rule "0000000-5999999" "1"; rule "6000000-6499999" "3";
                       rule "6500000-6599999" "2"; rule "6600000-6999999" "0";
                       rule "7000000-7999999" "1"; rule "8000000-9499999" "2";
                       rule "9500000-9899999" "3"; rule "9900000-9989999" "4";
                       rule "9990000-9999999" "5" ] |};
         {| Prefix := "979";
            Rules := [ rule "0000000-0999999" "0"; rule "1000000-1299999" "2";
                       rule "1300000-7999999" "0"; rule "8000000-8999999" "1";
                       rule "9000000-9999999" "0" ] |} ];
     registration_groups :=
       [ {| Prefix := "978-2";
            Rules := [ rule "0000000-1999999" "2"; rule "2000000-3499999" "3";
                       rule "3500000-3999999" "5"; rule "4000000-6999999" "3";
                       rule "7000000-8399999" "4"; rule "8400000-8999999" "5";
                       rule "9000000-9999999" "6" ] |};
         {| Prefix := "978-3";
            Rules := [ rule "0000000-0299999" "2"; rule "0300000-0339999" "3";
                       rule "0340000-0369999" "4"; rule "0370000-0399999" "5";
                       rule "0400000-1999999" "2"; rule "2000000-6999999" "3";
                       rule "7000000-8499999" "4"; rule "8500000-8999999" "5";
                       rule "9000000-9499999" "6"; rule "9500000-9999999" "7" ] |} ] |}.

(** The message [split_isbn] leaves in ["value"] for an ISBN that lies
    in a range not in use. *)
Definition reserved_msg : string :=
  "Invalid ISBN: Remaining fragment " ++ Py.q "6600000000"
  ++ " for EAN prefix " ++ Py.q "978"
  ++ " is inside a range which is not marked for use yet".

(** A row without DOI but with an ISBN, and the same row once the DOI
    found for the ISBN has been written into it. *)
Definition row_without_doi : list string :=
  ["Bielefeld U"; "2019"; "1500"; ""; "FALSE"; "9783161484100"].
Definition found_doi : string := "10.1000/demo".
Definition row_with_doi : list string :=
  ["Bielefeld U"; "2019"; "1500"; found_doi; "FALSE"; "9783161484100"].

Definition column (index : option Z) (column_type : string) : CSVColumn.t :=
  {| CSVColumn.index := index; CSVColumn.column_type := column_type;
     CSVColumn.check_overwrite := fun old_value new_value => new_value |}.

Definition columns : list (string * CSVColumn.t) :=
  map (fun c => (CSVColumn.column_type c, c))
    [ column (Some 0) "institution"; column (Some 1) "period";
      column (Some 2) "euro"; column (Some 3) "doi";
      column (Some 4) "is_hybrid"; column (Some 5) "isbn";
      column None "isbn_print"; column None "isbn_electronic";
      column None "publisher"; column None "book_title";
      column None "license_ref"; column None "backlist_oa";
      column None "indexed_in_crossref"; column None "doab";
      column None "journal_full_title"; column None "issn";
      column None "issn_print"; column None "issn_electronic";
      column None "issn_l"; column None "pmid"; column None "pmcid";
      column None "ut"; column None "url"; column None "doaj" ].

Definition cfg : settings :=
  {| row_num := 1;
     column_map := columns;
     num_required_columns := 6;
     additional_isbn_columns := [];
     doab_analysis := {| DOABAnalysis.isbn_map := ∅;
                         DOABAnalysis.isbn_handling := range_file |};
     doaj_analysis := {| DOAJAnalysis.doaj_issn_map := ∅;
                         DOAJAnalysis.doaj_eissn_map := ∅ |};
     no_crossref_lookup := false;
     no_pubmed_lookup := false;
     no_doaj_lookup := false;
     round_monetary := false;
     offsetting_mode := None |}.

Definition no_mappings : mappings.t :=
  {| mappings.HYBRID_STATUS := [("TRUE", ["true"; "yes"]);
                                ("FALSE", ["false"; "no"])];
     mappings.PUBLISHER_MAPPINGS := ∅;
     mappings.JOURNAL_MAPPINGS := ∅ |}.

(** Registries that know one book DOI for every ISBN and have no
    metadata for any DOI; the outside world has no state. *)
Definition registries : collaborators unit :=
  {| get_normalised_DOI := fun doi w => (Some doi, w);
     get_metadata_from_crossref :=
       fun doi w => (CrossrefError "HTTPError: 404 - Not Found", w);
     get_metadata_from_pubmed :=
       fun doi w => (PubmedError "HTTPError: 404 - Not Found", w);
     crossref_isbn_query := fun isbns w => (FoundDois [found_doi], w) |}.

(** The same, but with metadata for every DOI. *)
Definition good_registries : collaborators unit :=
  {| get_normalised_DOI := fun doi w => (Some doi, w);
     get_metadata_from_crossref :=
       fun doi w => (CrossrefData "book_title" (Some "Demo Press")
                       [("publisher", Some "Demo Press");
                        ("book_title", Some "A Book");
                        ("isbn", Some "9783161484100");
                        ("isbn_print", None); ("isbn_electronic", None);
                        ("license_ref", None)], w);
     get_metadata_from_pubmed :=
       fun doi w => (PubmedData [("pmid", None); ("pmcid", None)], w);
     crossref_isbn_query := fun isbns w => (FoundDois [found_doi], w) |}.

(** A call of [process_row] against [registries], with the default
    number of retries. *)
Definition run_row (depth : nat) (row : list string)
    : M.t (W := unit) outcome :=
  process_row registries no_mappings PyFloat.C_locale cfg depth 3 row.

(** [logging.info("New DOI integrated, ...")]: one record per restart. *)
Definition restart_msg : string :=
  "New DOI integrated, restarting enrichment for current line.".

Definition restarts (log : list Log.entry) : nat :=
  length (filter (fun e => Log.msg e = restart_msg) log).

End Examples.

(** ** More concrete data *)

Module MoreExamples.
Import Examples.

(** The row without DOI against registries that know the book: the DOI
    found for the ISBN is written into the row, the row is processed
    again, and comes back as a book. *)
Definition enriched : outcome :=
  (row_with_doi,
   Enriched "book_title"
     ["Bielefeld U"; "2019"; "1500"; found_doi; "NA"; "Demo Press";
      "A Book"; "978-3-16-148410-0"; "NA"; "NA"; "NA"; "TRUE"; "FALSE"]).

Definition enriched_run : result outcome * M.state (W := unit) :=
  process_row good_registries no_mappings PyFloat.C_locale cfg 1 3
    row_without_doi ([], tt).

(** A row of metadata as [process_row] holds it when the Crossref
    values arrive. *)
Definition row_2012 : gmap string string := {["period" := "2012"]}.

(** A copy of DOAB with one book. *)
Definition doab : DOABAnalysis.t :=
  {| DOABAnalysis.isbn_map :=
       {["978-2-7535-1827-8" :=
           {["Title" := "Un livre"; "Publisher" := "Presses";
             "License" := "CC BY"]}]};
     DOABAnalysis.isbn_handling := range_file |}.

Definition cfg_doab : settings :=
  {| row_num := 1;
     column_map := columns;
     num_required_columns := 6;
     additional_isbn_columns := [];
     doab_analysis := doab;
     doaj_analysis := doaj_analysis cfg;
     no_crossref_lookup := false;
     no_pubmed_lookup := false;
     no_doaj_lookup := false;
     round_monetary := false;
     offsetting_mode := None |}.

(** A row that Crossref did not resolve, and what the DOAB loop makes of
    it for two ISBNs, the second of which is in DOAB. *)
Definition unresolved_row : gmap string string :=
  {["indexed_in_crossref" := "FALSE"; "isbn" := "NA"]}.

Definition two_isbns : list string :=
  ["978-3-16-148410-0"; "978-2-7535-1827-8"].

Definition doab_row : gmap string string :=
  <["isbn" := "978-2-7535-1827-8"]>
    (<["license_ref" := "CC BY"]>
       (<["publisher" := "Presses"]>
          (<["book_title" := "Un livre"]>
             (<["doab" := "TRUE"]> unresolved_row)))).

Definition doab_run : result (gmap string string) * M.state (W := unit) :=
  doab_loop cfg_doab two_isbns unresolved_row ([], tt).

(** Two rows of the DOAJ file: the same ISSN as the print ISSN of one
    journal and as the EISSN of another. *)
Definition doaj_row (title issn eissn : string) : gmap string string :=
  {["Journal title" := title; "Journal ISSN (print version)" := issn;
    "Journal EISSN (online version)" := eissn]}.

Definition doaj_reader : list (gmap string string) :=
  [doaj_row "Acta A" "0262-4079" ""; doaj_row "Acta B" "" "0262-4079"].

Definition doaj : DOAJAnalysis.t :=
  {| DOAJAnalysis.doaj_issn_map := {["0262-4079" := "Acta A"]};
     DOAJAnalysis.doaj_eissn_map := {["0262-4079" := "Acta B"]} |}.

(** Three rows of the DOAB file: a book, a chapter, and a book that
    lists two ISBNs, one of them the ISBN of the first book in another
    notation. *)
Definition doab_line (title type isbn : string) : gmap string string :=
  {["Title" := title; "Type" := type; "ISBN" := isbn;
    "Publisher" := "Presses"; "License" := "CC BY"]}.

Definition doab_reader : list (Z * gmap string string) :=
  [(2, doab_line "One" "book" "9783161484100");
   (3, doab_line "Two" "chapter" "9782753518278");
   (4, doab_line "Three" "book" "978-3-16-148410-0; 9782753518278")].

End MoreExamples.

(** ** What the matcher accepts: the matcher succeeds exactly when some
    remainder allowed by [ReSem.sem] satisfies its continuation. *)

Module ReFacts.
Import Re ReSem.

Lemma run_sem (r : t) :
  forall (s : string) (k : string -> bool),
    run r s k = true <-> exists s', sem r s s' /\ k s' = true.
Proof.
  induction r as [c | p | a IHa b IHb | a IHa b IHb | lo hi a IHa | ];
    intros s k; simpl.
  - destruct s as [|d s1].
    + split; [discriminate | intros (s' & H & _); discriminate].
    + rewrite andb_true_iff. split.
      * intros [Hc Hk]. apply Ascii.eqb_eq in Hc. subst. eauto.
      * intros (s' & H & Hk). injection H as -> ->.
        split; [apply Ascii.eqb_refl | assumption].
  - destruct s as [|d s1].
    + split; [discriminate | intros (s' & (d & H & _) & _); discriminate].
    + rewrite andb_true_iff. split.
      * intros [Hp Hk]. eauto.
      * intros (s' & (d' & H & Hp) & Hk). injection H as -> ->. auto.
  - rewrite IHa. split.
    + intros (m & Ha & Hb). apply IHb in Hb as (s' & Hb & Hk). eauto.
    + intros (s' & (m & Ha & Hb) & Hk). exists m. split; [assumption|].
      apply IHb. eauto.
  - rewrite orb_true_iff, IHa, IHb. split.
    + intros [(s' & H & Hk) | (s' & H & Hk)]; eauto.
    + intros (s' & [H | H] & Hk); eauto.
  - revert lo s. induction hi as [|hi IH]; intros lo s.
    + destruct lo as [|lo]; split.
      * intros Hk. exists s. split; [exists 0%nat; simpl; split; [lia | reflexivity] | assumption].
      * intros (s' & (n & Hn & Hi) & Hk).
        assert (n = 0%nat) as -> by lia. simpl in Hi. now subst.
      * discriminate.
      * intros (s' & (n & Hn & _) & _). lia.
    + rewrite orb_true_iff, IHa. split.
      * intros [(m & Ha & Hrep) | H0].
        -- apply IH in Hrep as (s' & (n & Hn & Hi) & Hk).
           exists s'. split; [|assumption].
           exists (S n). split; [lia|]. simpl. eauto.
        -- destruct lo; [|discriminate].
           exists s. split; [exists 0%nat; simpl; split; [lia | reflexivity] | assumption].
      * intros (s' & (n & Hn & Hi) & Hk). destruct n as [|n].
        -- simpl in Hi. subst s'. right.
           destruct lo; [assumption | lia].
        -- simpl in Hi. destruct Hi as (m & Ha & Hi). left.
           exists m. split; [assumption|]. apply IH.
           exists s'. split; [|assumption]. exists n. split; [lia | assumption].
  - rewrite andb_true_iff. split.
    + intros [He Hk]. eauto.
    + intros (s' & [-> He] & Hk). auto.
Qed.

Lemma matches_sem (r : t) (s : string) :
  matches r s = true <-> exists s', sem r s s'.
Proof.
  unfold matches. rewrite run_sem. split.
  - intros (s' & H & _). eauto.
  - intros (s' & H). eauto.
Qed.

(** [n] characters of a class, one after the other. *)
Lemma iter_cls (p : ascii -> bool) (n : nat) (s s' : string) :
  iter n (sem (Cls p)) s s' <->
  exists pre, s = pre ++ s' /\ String.length pre = n
              /\ Forall (fun c => p c = true) (list_ascii_of_string pre).
Proof.
  revert s. induction n as [|n IH]; intros s; simpl.
  - split.
    + intros ->. exists "". repeat split. constructor.
    + intros (pre & -> & Hl & _). destruct pre; [reflexivity | discriminate].
  - split.
    + intros (m & (d & -> & Hp) & Hi). apply IH in Hi as (pre & -> & Hl & Hall).
      exists (String d pre). simpl. repeat split; [congruence|].
      constructor; assumption.
    + intros (pre & -> & Hl & Hall). destruct pre as [|d pre]; [discriminate|].
      simpl in *. inversion Hall; subst. exists (pre ++ s'). split; [eauto|].
      apply IH. exists pre. repeat split; [congruence | assumption].
Qed.

Lemma at_end_cases (s : string) :
  at_end s = true -> s = "" \/ s = Py.chr Py.newline.
Proof.
  destruct s as [|c [|d s]]; simpl; intros H; try discriminate; [now left|].
  right. apply Ascii.eqb_eq in H. now subst.
Qed.

End ReFacts.
(** ** Properties of the writer *)

Section WriterFacts.
Import OpenAPCUnicodeWriter.

Lemma string_length_app (a b : string) :
  String.length (a ++ b) = (String.length a + String.length b)%nat.
Proof. induction a as [|c a IH]; simpl; [reflexivity | now rewrite IH]. Qed.

Lemma string_app_nil_r (a : string) : a ++ "" = a.
Proof. induction a as [|c a IH]; simpl; [reflexivity | now rewrite IH]. Qed.

Lemma string_app_assoc (a b c : string) : (a ++ b) ++ c = a ++ (b ++ c).
Proof. induction a as [|x a IH]; simpl; [reflexivity | now rewrite IH]. Qed.

Lemma replace_length_ge (old : ascii) (c1 c2 : ascii) (s : string) :
  (String.length s <= String.length (Py.replace old (String c1 (Py.chr c2)) s))%nat.
Proof.
  induction s as [|c s IH]; simpl; [lia|].
  unfold Py.chr in *. rewrite string_length_app.
  destruct (Ascii.eqb c old); simpl; lia.
Qed.

(** Quoting makes a cell at least two characters longer, so a quoted cell
    is never the cell itself. *)
Lemma quoted_neq (cell : string) : quoted cell <> cell.
Proof.
  intros H. apply (f_equal String.length) in H. revert H.
  pose proof (replace_length_ge Py.dquote Py.dquote Py.dquote cell) as Hge.
  unfold quoted. rewrite !string_length_app. unfold Py.chr in *. simpl in *.
  lia.
Qed.

(** The in-place loop touches index [i] exactly once. *)
Lemma update_loop_lookup (f : nat -> string -> string) (n a : nat)
    (row : list string) (i : nat) :
  foldl (fun (row : list string) (index : nat) =>
           match row !! index with
           | Some cell => <[index := f index cell]> row
           | None => row
           end) row (seq a n) !! i
  = if decide (a <= i < a + n)%nat then f i <$> row !! i else row !! i.
Proof.
  revert a row. induction n as [|n IH]; intros a row; simpl.
  - destruct (decide _); [lia | reflexivity].
  - rewrite IH. destruct (row !! a) as [cell|] eqn:Ha.
    + destruct (decide (a = i)) as [->|Hne].
      * rewrite list_lookup_insert_eq by (eapply lookup_lt_Some; eauto).
        rewrite Ha. repeat destruct (decide _); try lia; reflexivity.
      * rewrite list_lookup_insert_ne by assumption.
        repeat destruct (decide _); try lia; reflexivity.
    + destruct (decide (a = i)) as [->|Hne].
      * rewrite Ha. repeat destruct (decide _); reflexivity.
      * repeat destruct (decide _); try lia; reflexivity.
Qed.

Lemma prepare_row_lookup (self : t) (row : list string) (u : bool) (i : nat) :
  _prepare_row self row u !! i = prepare_cell self u i <$> row !! i.
Proof.
  unfold _prepare_row. rewrite update_loop_lookup.
  destruct (decide _) as [|Hout]; [reflexivity|].
  rewrite lookup_ge_None_2 by lia. reflexivity.
Qed.

Lemma prepare_row_imap (self : t) (row : list string) (u : bool) :
  _prepare_row self row u = imap (prepare_cell self u) row.
Proof.
  apply list_eq. intros i.
  rewrite prepare_row_lookup, list_lookup_imap. reflexivity.
Qed.

Lemma write_data_rows_outfile (self : t) (rows : list (list string)) :
  outfile (write_data_rows self rows).1
  = outfile self
    ++ String.concat "" (map (fun row => line (_prepare_row self row true)) rows).
Proof.
  revert self. induction rows as [|row rows IH]; intros self; simpl.
  - now rewrite string_app_nil_r.
  - destruct (write_data_rows _ rows) as [self' out] eqn:E. simpl.
    specialize (IH (_write_row self (_prepare_row self row true))).
    rewrite E in IH. simpl in IH. rewrite IH.
    assert (Hmap : forall w, quotemask w = quotemask self ->
              openapc_quote_rules w = openapc_quote_rules self ->
              minimal_quotes w = minimal_quotes self ->
              map (fun r => line (_prepare_row w r true)) rows
              = map (fun r => line (_prepare_row self r true)) rows).
    { intros w Hq Ho Hm. apply map_ext. intros r. f_equal.
      rewrite !prepare_row_imap. apply imap_ext. intros j c _.
      unfold prepare_cell, no_quotemask, mask_list. now rewrite Hq, Ho, Hm. }
    rewrite Hmap by reflexivity.
    destruct rows as [|r2 rows']; simpl.
    + now rewrite string_app_nil_r.
    + now rewrite string_app_assoc.
Qed.

(** The last character of a string that ends in [c]. *)
Lemma get_last (body : string) (d c : ascii) :
  String.get (String.length (String d (body ++ Py.chr c)) - 1)
             (String d (body ++ Py.chr c))
  = Some c.
Proof.
  cbn [String.length]. rewrite Nat.sub_succ, Nat.sub_0_r.
  rewrite string_length_app. cbn [Py.chr String.length].
  rewrite Nat.add_1_r. cbn [String.get].
  induction body as [|x body IH]; [reflexivity | exact IH].
Qed.

End WriterFacts.

Section WriterClaims.
Import OpenAPCUnicodeWriter.

Lemma prepare_header (self : t) (header : list string) :
  _prepare_row self header false = map (WriterSpec.header_cell self) header.
Proof.
  apply list_eq. intros i.
  rewrite prepare_row_lookup, list_lookup_fmap. reflexivity.
Qed.

(** C5, as amended.  On a data row, with a quotemask given and the
    OpenAPC quote rules switched on, a cell whose index the mask covers
    is left alone when it is one of the keywords TRUE, FALSE, NA, and is
    otherwise quoted exactly when its mask entry is true or it contains a
    comma while minimal quotes are on; it is never anything but the cell
    or the quoted cell.  Mask [true, false] on the row [a,b | c] writes
    the line ["a,b",c], and TRUE in a false-masked column stays as it
    is. *)
Theorem prepare_row_quote_policy :
  (forall (self : t) (mask : list bool) (row : list string) (i : nat)
          (cell : string) (m : bool),
      quotemask self = Some mask ->
      openapc_quote_rules self = true ->
      row !! i = Some cell ->
      mask !! i = Some m ->
      (Py.elem cell keywords = true ->
       _prepare_row self row true !! i = Some cell)
      /\ (Py.elem cell keywords = false ->
          (_prepare_row self row true !! i = Some (quoted cell)
           <-> m = true
               \/ (Py.contains Py.comma cell = true
                   /\ minimal_quotes self = true))
          /\ (_prepare_row self row true !! i = Some cell
              \/ _prepare_row self row true !! i = Some (quoted cell))))
  /\ (forall f h,
        line (_prepare_row (mk f (Some [true; false]) true h true)
                ["a,b"; "c"] true)
        = Py.q "a,b" ++ ",c" ++ Py.chr Py.newline)
  /\ (forall f h (cell : string),
        _prepare_row (mk f (Some [true; false]) true h true)
          [cell; "TRUE"] true !! 1%nat = Some "TRUE").
Proof.
  split; [|split].
  - intros self mask row i cell m Hmask Hrules Hcell Hm.
    rewrite prepare_row_lookup, Hcell. simpl.
    unfold prepare_cell, no_quotemask, mask_list.
    rewrite Hrules, Hmask. simpl.
    assert (Hne : mask <> []) by (intros ->; discriminate).
    destruct mask as [|m0 mask']; [contradiction|]. rewrite Hm.
    split.
    + intros ->. reflexivity.
    + intros ->. simpl.
      destruct m; simpl.
      * split; [split; [intros _; now left | reflexivity] | now right].
      * destruct (Py.contains Py.comma cell) eqn:Hc,
                 (minimal_quotes self) eqn:Hq; simpl.
        -- split; [split; [intros _; right; now split | reflexivity] | now right].
        -- split; [split | now left].
           ++ intros H. injection H as H. symmetry in H.
              now apply quoted_neq in H.
           ++ intros [H | [_ H]]; discriminate.
        -- split; [split | now left].
           ++ intros H. injection H as H. symmetry in H.
              now apply quoted_neq in H.
           ++ intros [H | [H _]]; discriminate.
        -- split; [split | now left].
           ++ intros H. injection H as H. symmetry in H.
              now apply quoted_neq in H.
           ++ intros [H | [H _]]; discriminate.
  - intros f h. reflexivity.
  - intros f h cell. rewrite prepare_row_lookup. reflexivity.
Qed.

Lemma prepare_row_quote_policy_witness :
  _prepare_row (mk "" (Some [true; false]) true true true)
    ["x"; "a,b"] true !! 1%nat = Some (quoted "a,b")
  <-> false = true
      \/ (Py.contains Py.comma "a,b" = true /\ true = true).
Proof.
  pose proof prepare_row_quote_policy as [H _].
  apply (H (mk "" (Some [true; false]) true true true)
           [true; false] ["x"; "a,b"] 1%nat "a,b" false);
    reflexivity.
Defined.

(** C5 fails as stated when the mask is shorter than the row: the second
    cell contains a comma, no mask entry covers it, and it is written
    without quotes. *)
Lemma comma_beyond_mask_not_quoted :
  let self := mk "" (Some [true]) true true true in
  _prepare_row self ["x"; "a,b"] true = [quoted "x"; "a,b"]
  /\ Py.contains Py.comma "a,b" = true
  /\ _prepare_row self ["x"; "a,b"] true !! 1%nat <> Some (quoted "a,b").
Proof.
  simpl. split; [reflexivity|]. split; [reflexivity|]. discriminate.
Qed.

(** C6, as amended.  With [has_header] set, [write_rows] first writes the
    header line.  Whatever the quotemask says, every cell of that line
    is the header cell between two double quotes, with each double quote
    inside it doubled; the one exception is a header cell equal to TRUE,
    FALSE or NA under the OpenAPC quote rules, which is written as it
    is. *)
Theorem write_rows_header_quoted (self : t) (header : list string)
    (rest : list (list string)) :
  has_header self = true ->
  exists (self' : t) (rows' : list (list string)) (written : list string)
         (tail : string),
    write_rows self (header :: rest) = Ok (self', rows')
    /\ outfile self' = outfile self ++ line written ++ tail
    /\ length written = length header
    /\ forall (i : nat) (cell : string),
         header !! i = Some cell ->
         written !! i
         = Some (if openapc_quote_rules self && Py.elem cell keywords
                 then cell
                 else Py.chr Py.dquote
                      ++ Py.replace Py.dquote
                           (String Py.dquote (Py.chr Py.dquote)) cell
                      ++ Py.chr Py.dquote).
Proof.
  intros Hh. unfold write_rows. rewrite Hh.
  destruct (write_data_rows _ rest) as [self' rows'] eqn:E.
  exists self', rows', (_prepare_row self header false). eexists.
  split; [reflexivity|]. split; [|split].
  - pose proof (write_data_rows_outfile
                  (_write_row self (_prepare_row self header false)) rest) as H.
    rewrite E in H. simpl in H. rewrite H.
    rewrite string_app_assoc. reflexivity.
  - rewrite prepare_row_imap. apply length_imap.
  - intros i cell Hcell. rewrite prepare_row_lookup, Hcell. cbn [fmap option_fmap option_map].
    unfold prepare_cell. cbn [negb orb].
    destruct (openapc_quote_rules self && Py.elem cell keywords);
      reflexivity.
Qed.

Lemma write_rows_header_quoted_witness :
  exists (self' : t) (rows' : list (list string)) (written : list string)
         (tail : string),
    write_rows (init "") [["doi"; "NA"]; ["10.1/x"; "7"]] = Ok (self', rows')
    /\ outfile self' = "" ++ line written ++ tail
    /\ length written = length ["doi"; "NA"]
    /\ forall (i : nat) (cell : string),
         ["doi"; "NA"] !! i = Some cell ->
         written !! i
         = Some (if openapc_quote_rules (init "") && Py.elem cell keywords
                 then cell
                 else Py.chr Py.dquote
                      ++ Py.replace Py.dquote
                           (String Py.dquote (Py.chr Py.dquote)) cell
                      ++ Py.chr Py.dquote).
Proof.
  apply (write_rows_header_quoted (init "") ["doi"; "NA"] [["10.1/x"; "7"]]).
  reflexivity.
Defined.

(** The header line of that call: the first cell in quotes, the keyword
    as it is. *)
Example header_line_example :
  exists self' : t,
    write_rows (init "") [["doi"; "NA"]] = Ok (self', [])
    /\ outfile self' = Py.q "doi" ++ ",NA" ++ Py.chr Py.newline.
Proof. eexists. split; reflexivity. Qed.

(** C6 fails as stated on a header cell that is a reserved keyword: the
    header [NA] is written without quotes. *)
Lemma header_keyword_not_quoted :
  exists self' : t,
    write_rows (init "") [["NA"]] = Ok (self', [])
    /\ outfile self' = "NA" ++ Py.chr Py.newline
    /\ outfile self' <> line [quoted "NA"].
Proof.
  eexists. split; [reflexivity|]. split; [reflexivity|]. discriminate.
Qed.

(** C10.  With a non-empty quotemask, a cell of a data row at an index at
    or beyond the length of the mask is left exactly as it is (no quotes,
    no escaping), comma or not.  With no quotemask, or an empty one,
    every cell that is not a reserved keyword is written between two
    double quotes, with each double quote inside it doubled, so it is
    at least two characters longer than the cell. *)
Theorem short_mask_leaves_cells :
  (forall (self : t) (row : list string) (i : nat) (cell : string)
          (mask : list bool),
      row !! i = Some cell ->
      quotemask self = Some mask -> mask <> [] ->
      (length mask <= i)%nat ->
      _prepare_row self row true !! i = Some cell)
  /\ (forall (self : t) (row : list string) (i : nat) (cell : string),
        row !! i = Some cell ->
        quotemask self = None \/ quotemask self = Some [] ->
        Py.elem cell keywords = false ->
        exists out : string,
          _prepare_row self row true !! i = Some out
          /\ out = Py.chr Py.dquote
                   ++ Py.replace Py.dquote
                        (String Py.dquote (Py.chr Py.dquote)) cell
                   ++ Py.chr Py.dquote
          /\ String.get 0 out = Some Py.dquote
          /\ String.get (String.length out - 1) out = Some Py.dquote
          /\ (String.length cell + 2 <= String.length out)%nat).
Proof.
  split.
  - intros self row i cell mask Hcell Hmask Hne Hlen.
    rewrite prepare_row_lookup, Hcell. simpl. f_equal.
    unfold prepare_cell, no_quotemask, mask_list. rewrite Hmask.
    destruct mask as [|m0 mask']; [contradiction|]. simpl negb. simpl orb.
    rewrite (lookup_ge_None_2 _ i) by exact Hlen.
    destruct (_ && _); reflexivity.
  - intros self row i cell Hcell Hq Hk.
    eexists. split; [|split; [reflexivity|]].
    + rewrite prepare_row_lookup, Hcell. simpl. f_equal.
      unfold prepare_cell, no_quotemask. rewrite Hk, andb_false_r.
      destruct Hq as [-> | ->]; reflexivity.
    + set (body := Py.replace Py.dquote (String Py.dquote (Py.chr Py.dquote))
                     cell).
      pose proof (replace_length_ge Py.dquote Py.dquote Py.dquote cell) as Hge.
      fold body in Hge.
      split; [reflexivity|]. split.
      * apply (get_last body Py.dquote Py.dquote).
      * rewrite !string_length_app. cbn [Py.chr String.length]. lia.
Qed.

Lemma short_mask_leaves_cells_witness :
  _prepare_row (mk "" (Some [true]) true true true)
    ["x"; "a,b"] true !! 1%nat = Some "a,b"
  /\ exists out : string,
       _prepare_row (mk "" None true true true) ["a,b"] true !! 0%nat
       = Some out
       /\ out = Py.chr Py.dquote
                ++ Py.replace Py.dquote
                     (String Py.dquote (Py.chr Py.dquote)) "a,b"
                ++ Py.chr Py.dquote
       /\ String.get 0 out = Some Py.dquote
       /\ String.get (String.length out - 1) out = Some Py.dquote
       /\ (String.length "a,b" + 2 <= String.length out)%nat.
Proof.
  pose proof short_mask_leaves_cells as [Hshort Hnone].
  split.
  - apply (Hshort (mk "" (Some [true]) true true true) ["x"; "a,b"] 1%nat
             "a,b" [true]); [reflexivity | reflexivity | discriminate
                            | simpl; lia].
  - apply (Hnone (mk "" None true true true) ["a,b"] 0%nat "a,b");
      [reflexivity | now left | reflexivity].
Defined.

(** Both halves of C10 on one row each: beyond the mask the comma cell
    is written as it is, without a mask it is written in quotes. *)
Example short_mask_example :
  line (_prepare_row (mk "" (Some [true]) true true true) ["x"; "a,b"] true)
  = Py.q "x" ++ ",a,b" ++ Py.chr Py.newline
  /\ line (_prepare_row (mk "" None true true true) ["x"; "a,b"] true)
     = Py.q "x" ++ "," ++ Py.q "a,b" ++ Py.chr Py.newline.
Proof. split; reflexivity. Qed.

End WriterClaims.

(** ** Properties of the ISBN normaliser *)

Section ISBNFacts.
Import ISBNHandling.

(** The outcomes of [test_and_normalize_isbn], branch by branch. *)
Lemma test_and_normalize_cases (self : t) (isbn : string) :
  let stripped := Py.strip isbn in
  let unsplit := Py.replace Py.hyphen "" stripped in
  test_and_normalize_isbn self isbn = Ok (invalid isbn 1)
  \/ test_and_normalize_isbn self isbn = Ok (invalid isbn 2)
  \/ test_and_normalize_isbn self isbn = Ok (invalid isbn 3)
  \/ test_and_normalize_isbn self isbn = Ok (invalid isbn 0)
  \/ (exists e, test_and_normalize_isbn self isbn = Raise e)
  \/ (exists r, split_isbn self unsplit = Ok r
                /\ Re.matches ISBN_RE unsplit = true
                /\ test_and_normalize_isbn self isbn
                   = Ok {| valid := true; input_value := isbn;
                           normalised := Some (value r);
                           error_type := None |}).
Proof.
  intros stripped unsplit. unfold test_and_normalize_isbn.
  fold stripped. fold unsplit.
  destruct (Re.matches ISBN_SPLIT_RE stripped).
  - destruct (Py.len stripped <? 17); [now left|].
    destruct (Py.len stripped >? 17); [now right; left|].
    destruct (Re.matches ISBN_RE unsplit) eqn:Hre; [|now do 3 right; left].
    destruct (split_isbn self unsplit) as [r|e] eqn:Hs; simpl.
    + destruct (negb (String.eqb (value r) stripped)); simpl.
      * now right; right; left.
      * do 5 right. exists r. auto.
    + do 4 right. left. eauto.
  - destruct (Re.matches ISBN_RE unsplit) eqn:Hre; [|now do 3 right; left].
    destruct (split_isbn self unsplit) as [r|e] eqn:Hs; simpl.
    + do 5 right. exists r. auto.
    + do 4 right. left. eauto.
Qed.




(** The three branches of C2 on inputs that reach them. *)
Example too_short_example :
  test_and_normalize_isbn Examples.range_file " 978-3-16-14841-0 "
  = Ok (invalid " 978-3-16-14841-0 " 1).
Proof. reflexivity. Qed.

Example too_long_example :
  test_and_normalize_isbn Examples.range_file "978-33-16-148410-0"
  = Ok (invalid "978-33-16-148410-0" 2).
Proof. reflexivity. Qed.

Example bad_segmentation_example :
  test_and_normalize_isbn Examples.range_file "978-3-161-48410-0"
  = Ok (invalid "978-3-161-48410-0" 3).
Proof. reflexivity. Qed.

(** [test_and_normalize_isbn] never looks at the ["success"] entry of
    what [split_isbn] returns: when the split fails on an unsegmented
    13-digit input, the error message is handed out as the normalised
    ISBN of a valid result. *)
Lemma failed_split_accepted (self : t) (isbn : string) (r : split_result) :
  Re.matches ISBN_SPLIT_RE (Py.strip isbn) = false ->
  Re.matches ISBN_RE (Py.replace Py.hyphen "" (Py.strip isbn)) = true ->
  split_isbn self (Py.replace Py.hyphen "" (Py.strip isbn)) = Ok r ->
  success r = false ->
  test_and_normalize_isbn self isbn
  = Ok {| valid := true; input_value := isbn;
          normalised := Some (value r); error_type := None |}.
Proof.
  intros Hs Hre Hr _. unfold test_and_normalize_isbn.
  now rewrite Hs, Hre, Hr.
Qed.

(** C3 at an input where the code breaks it.  The 13 digits
    9786600000000 lie in a range of the range file that is not in use:
    [split_isbn] fails, yet the input is accepted as valid and its
    normalised form is the error message; normalising that form again,
    with or without its hyphens, is rejected with code 0. *)
Theorem normalisation_not_idempotent :
  test_and_normalize_isbn Examples.range_file "9786600000000"
  = Ok {| valid := true; input_value := "9786600000000";
          normalised := Some Examples.reserved_msg; error_type := None |}
  /\ split_isbn Examples.range_file "9786600000000"
     = Ok {| success := false; value := Examples.reserved_msg |}
  /\ test_and_normalize_isbn Examples.range_file Examples.reserved_msg
     = Ok (invalid Examples.reserved_msg 0)
  /\ test_and_normalize_isbn Examples.range_file
       (Py.replace Py.hyphen "" Examples.reserved_msg)
     = Ok (invalid (Py.replace Py.hyphen "" Examples.reserved_msg) 0).
Proof. repeat split; vm_compute; reflexivity. Qed.

(** C9, first half: an invalid result carries one of the codes 0 to 3,
    a valid one carries none. *)
Lemma error_codes (self : t) (isbn : string) (r : norm_result) :
  test_and_normalize_isbn self isbn = Ok r ->
  (valid r = false /\
   (error_type r = Some 0 \/ error_type r = Some 1
    \/ error_type r = Some 2 \/ error_type r = Some 3))
  \/ (valid r = true /\ error_type r = None).
Proof.
  intros H.
  destruct (test_and_normalize_cases self isbn)
    as [E | [E | [E | [E | [[e E] | (s & _ & _ & E)]]]]];
    rewrite E in H; simplify_eq; simpl; auto 10.
Qed.

End ISBNFacts.

(** ** Properties of the ISSN validator *)

Section ISSNFacts.

#[local] Arguments Py.isdigit : simpl never.
#[local] Arguments Py.digit_value : simpl never.

Lemma isdigit_cases (c : ascii) :
  Py.isdigit c = true ->
  In c ["0"; "1"; "2"; "3"; "4"; "5"; "6"; "7"; "8"; "9"]%char.
Proof.
  destruct c as [[] [] [] [] [] [] [] []]; intros H;
    try discriminate H; simpl; tauto.
Qed.

Lemma int_digit (c : ascii) :
  Py.isdigit c = true -> Py.int (Py.chr c) = Ok (Py.digit_value c).
Proof.
  intros H. apply isdigit_cases in H. simpl in H.
  repeat (destruct H as [<- | H]; [reflexivity|]). contradiction.
Qed.

Lemma digit_value_range (c : ascii) :
  Py.isdigit c = true -> 0 <= Py.digit_value c <= 9.
Proof.
  intros H. apply isdigit_cases in H. simpl in H.
  repeat (destruct H as [<- | H]; [vm_compute; split; discriminate|]).
  contradiction.
Qed.

Lemma digit_not_x (c : ascii) :
  Py.isdigit c = true -> (Ascii.eqb c "X" || Ascii.eqb c "x")%char = false.
Proof.
  intros H. apply isdigit_cases in H. simpl in H.
  repeat (destruct H as [<- | H]; [reflexivity|]). contradiction.
Qed.

Lemma symbol_value_range (c : ascii) :
  is_check_symbol c = true -> 0 <= issn_symbol_value c <= 10.
Proof.
  unfold is_check_symbol, issn_symbol_value. intros H.
  destruct (Py.isdigit c) eqn:Hd.
  - rewrite (digit_not_x c Hd). pose proof (digit_value_range c Hd). lia.
  - simpl in H. rewrite orb_false_r, orb_comm in H. rewrite H. lia.
Qed.

Lemma wellformed_inv (s : string) :
  is_wellformed_ISSN s = true ->
  exists d0 d1 d2 d3 d4 d5 d6 ck tl,
    s = issn_shape d0 d1 d2 d3 d4 d5 d6 ck tl
    /\ Forall (fun d => Py.isdigit d = true) [d0; d1; d2; d3; d4; d5; d6]
    /\ is_check_symbol ck = true
    /\ Re.at_end tl = true.
Proof.
  unfold is_wellformed_ISSN, ISSN_RE_match.
  destruct (Re.matches ISSN_RE s) eqn:M; [intros _ | discriminate].
  apply ReFacts.matches_sem in M as (s' & M). simpl in M.
  destruct M as (m1 & (n1 & Hn1 & I1) & m2 & -> & m3 & (n2 & Hn2 & I2)
                 & m4 & (ck & -> & Hck) & <- & Hend).
  assert (n1 = 4%nat) as -> by lia. assert (n2 = 3%nat) as -> by lia.
  simpl in I1, I2.
  destruct I1 as (? & (d0 & -> & H0) & ? & (d1 & -> & H1)
                  & ? & (d2 & -> & H2) & ? & (d3 & -> & H3) & ->).
  destruct I2 as (? & (d4 & -> & H4) & ? & (d5 & -> & H5)
                  & ? & (d6 & -> & H6) & ->).
  exists d0, d1, d2, d3, d4, d5, d6, ck, m4.
  split; [reflexivity|]. split; [repeat constructor; assumption|].
  split; assumption.
Qed.

Lemma standard_check_shape (d0 d1 d2 d3 d4 d5 d6 ck : ascii) (tl : string) :
  issn_standard_check (issn_shape d0 d1 d2 d3 d4 d5 d6 ck tl)
  = accept (shape_sum d0 d1 d2 d3 d4 d5 d6) (issn_symbol_value ck).
Proof. reflexivity. Qed.

Lemma check_symbol_int (ck : ascii) :
  is_check_symbol ck = true ->
  (if Py.elem (Py.chr ck) ["X"; "x"] then Ok 10 else Py.int (Py.chr ck))
  = Ok (issn_symbol_value ck).
Proof.
  unfold is_check_symbol, issn_symbol_value. intros H.
  destruct (Py.isdigit ck) eqn:Hd.
  - pose proof (int_digit ck Hd) as Hi. rewrite (digit_not_x ck Hd).
    apply isdigit_cases in Hd. simpl in Hd.
    repeat (destruct Hd as [<- | Hd]; [exact Hi|]). contradiction.
  - simpl in H. rewrite orb_false_r in H.
    apply orb_prop in H as [H | H]; apply Ascii.eqb_eq in H; subst;
      reflexivity.
Qed.

(** The two tests that end [is_valid_ISSN] are the standard rule. *)
Lemma code_accept (total check : Z) :
  0 <= total mod 11 < 11 -> 0 <= check <= 10 ->
  (if (total mod 11 =? 0) && (check =? 0) then Ok true
   else if 11 - total mod 11 =? check then Ok true else Ok false)
  = Ok (accept total check).
Proof.
  intros Hr Hc. unfold accept.
  destruct (total mod 11 =? 0) eqn:E0, (check =? 0) eqn:E1,
           (11 - total mod 11 =? check) eqn:E2,
           (check =? 11 - total mod 11) eqn:E3;
    cbn [andb]; try reflexivity; lia.
Qed.

(** On a well-formed string the validator runs the standard check. *)
Lemma is_valid_shape (d0 d1 d2 d3 d4 d5 d6 ck : ascii) (tl : string) :
  Forall (fun d => Py.isdigit d = true) [d0; d1; d2; d3; d4; d5; d6] ->
  is_check_symbol ck = true ->
  is_wellformed_ISSN (issn_shape d0 d1 d2 d3 d4 d5 d6 ck tl) = true ->
  is_valid_ISSN (issn_shape d0 d1 d2 d3 d4 d5 d6 ck tl)
  = Ok (accept (shape_sum d0 d1 d2 d3 d4 d5 d6) (issn_symbol_value ck)).
Proof.
  intros Hall Hck Hwf.
  unfold is_wellformed_ISSN in Hwf. unfold is_valid_ISSN.
  unfold ISSN_RE_match in *.
  destruct (Re.matches ISSN_RE _); [clear Hwf | discriminate].
  cbn [first_part second_part check_digit issn_shape Py.take Py.drop].
  fold (Py.chr ck). rewrite (check_symbol_int ck Hck).
  cbn [rbind String.append issn_total].
  repeat match goal with
         | H : Forall _ (_ :: _) |- _ =>
             let Hd := fresh "Hd" in
             apply Forall_cons_1 in H as [Hd H];
             rewrite (int_digit _ Hd); cbn [rbind]
         end.
  pose proof (symbol_value_range ck Hck) as Hr.
  match goal with |- context [?T mod 11] =>
    replace T with (shape_sum d0 d1 d2 d3 d4 d5 d6)
      by (unfold shape_sum; ring)
  end.
  apply code_accept; [apply Z.mod_pos_bound; reflexivity | exact Hr].
Qed.

(** Changing one of two digits changes the remainder of the sum. *)
Lemma weighted_shift (T T' v v' w : Z) :
  2 <= w <= 8 -> 0 <= v <= 9 -> 0 <= v' <= 9 -> v <> v' ->
  T' = T + w * (v' - v) -> T mod 11 <> T' mod 11.
Proof.
  intros Hw Hv Hv' Hne -> Heq.
  assert (Hd : (w * (v' - v)) mod 11 = 0).
  { replace (w * (v' - v)) with ((T + w * (v' - v)) - T) by ring.
    rewrite Zminus_mod, <- Heq, Z.sub_diag. reflexivity. }
  remember (v' - v) as d eqn:Ed.
  assert (Hr : -9 <= d <= 9 /\ d <> 0) by lia. clear - Hw Hr Hd.
  assert (w = 2 \/ w = 3 \/ w = 4 \/ w = 5 \/ w = 6 \/ w = 7 \/ w = 8)
    as Hc by lia.
  assert (d = -9 \/ d = -8 \/ d = -7 \/ d = -6 \/ d = -5 \/ d = -4
          \/ d = -3 \/ d = -2 \/ d = -1 \/ d = 1 \/ d = 2 \/ d = 3
          \/ d = 4 \/ d = 5 \/ d = 6 \/ d = 7 \/ d = 8 \/ d = 9)
    as Hc' by lia.
  clear Hw Hr.
  repeat (destruct Hc as [-> | Hc]);
    repeat (destruct Hc' as [-> | Hc']); try subst;
    vm_compute in Hd; discriminate Hd.
Qed.

(** With the check symbol fixed, two sums with different remainders are
    not both accepted; with the sum fixed, two different check values are
    not both accepted. *)
Lemma accept_sum_unique (T T' c : Z) :
  T mod 11 <> T' mod 11 -> accept T c = true -> accept T' c = false.
Proof.
  unfold accept. intros Hne.
  pose proof (Z.mod_pos_bound T 11 eq_refl).
  pose proof (Z.mod_pos_bound T' 11 eq_refl).
  destruct (T mod 11 =? 0) eqn:E, (T' mod 11 =? 0) eqn:E'; lia.
Qed.

Lemma accept_check_unique (T c c' : Z) :
  c <> c' -> accept T c = true -> accept T c' = false.
Proof.
  unfold accept. intros Hne. destruct (T mod 11 =? 0); lia.
Qed.

Lemma digit_symbol_value (c : ascii) :
  Py.isdigit c = true -> issn_symbol_value c = Py.digit_value c.
Proof. intros H. unfold issn_symbol_value. now rewrite (digit_not_x c H). Qed.

(** C4.  On every well-formed ISSN the validator computes the standard
    check (digits weighted 8 down to 2, X worth 10, remainder 0 asks for
    check digit 0, any other remainder for 11 minus it); it accepts
    0262-4079; and when one character of an accepted ISSN is replaced by
    one of another value, the result, if still well-formed, is
    rejected. *)
Theorem is_valid_ISSN_standard :
  (forall s : string,
      is_wellformed_ISSN s = true ->
      is_valid_ISSN s = Ok (issn_standard_check s))
  /\ is_valid_ISSN "0262-4079" = Ok true
  /\ (forall (pre post : string) (c c' : ascii),
        is_wellformed_ISSN (pre ++ String c post) = true ->
        is_wellformed_ISSN (pre ++ String c' post) = true ->
        issn_symbol_value c <> issn_symbol_value c' ->
        is_valid_ISSN (pre ++ String c post) = Ok true ->
        is_valid_ISSN (pre ++ String c' post) = Ok false).
Proof.
  split; [|split].
  - intros s Hwf.
    destruct (wellformed_inv s Hwf)
      as (d0 & d1 & d2 & d3 & d4 & d5 & d6 & ck & tl & -> & Hall & Hck & _).
    rewrite standard_check_shape. now apply is_valid_shape.
  - reflexivity.
  - intros pre post c c' Hwf Hwf' Hv Hvalid.
    destruct (wellformed_inv _ Hwf)
      as (d0 & d1 & d2 & d3 & d4 & d5 & d6 & ck & tl & Es & Hall & Hck & He).
    destruct (wellformed_inv _ Hwf')
      as (e0 & e1 & e2 & e3 & e4 & e5 & e6 & ek & tl' & Es' & Hall' & Hek & He').
    rewrite Es in Hvalid, Hwf. rewrite Es' in Hwf' |- *.
    rewrite is_valid_shape in Hvalid by assumption.
    rewrite is_valid_shape by assumption.
    injection Hvalid as Hvalid. f_equal.
    repeat match goal with
           | H : Forall _ (_ :: _) |- _ =>
               let Hd := fresh "Hd" in apply Forall_cons_1 in H as [Hd H]
           end.
    unfold issn_shape in Es, Es'.
    destruct pre as [|x0 [|x1 [|x2 [|x3 [|x4 [|x5 [|x6 [|x7 [|x8 pre]]]]]]]]];
      simpl in Es, Es'; simplify_eq.
    8: { apply accept_check_unique with (c := issn_symbol_value ck);
         assumption. }
    8: { exfalso. apply Hv.
         destruct pre as [|y pre]; simpl in He, He'.
         - destruct post; [|discriminate He].
           apply Ascii.eqb_eq in He, He'. congruence.
         - destruct pre; discriminate He. }
    all: rewrite !digit_symbol_value in Hv by assumption.
    all: apply accept_sum_unique with (T := shape_sum d0 d1 d2 d3 d4 d5 d6);
      [|assumption].
    all: unfold shape_sum.
    all: match goal with
         | Hv : Py.digit_value ?a <> Py.digit_value ?b |- _ =>
             pose proof (digit_value_range a ltac:(assumption)) as Ra;
             pose proof (digit_value_range b ltac:(assumption)) as Rb;
             let shift w :=
               apply (weighted_shift _ _ (Py.digit_value a)
                        (Py.digit_value b) w);
               [lia | exact Ra | exact Rb | exact Hv | ring] in
             first [shift 8 | shift 7 | shift 6 | shift 5 | shift 4
                   | shift 3 | shift 2]
         end.
Qed.

Lemma is_valid_ISSN_standard_witness :
  is_valid_ISSN ("026" ++ String "3" "-4079") = Ok false.
Proof.
  apply (proj2 (proj2 is_valid_ISSN_standard) "026" "-4079" "2"%char "3"%char).
  - reflexivity.
  - reflexivity.
  - vm_compute. discriminate.
  - reflexivity.
Defined.

(** An ISSN with check symbol X, and the same with a small x: the two
    differ in one character and are both accepted, the character stands
    for the same value. *)
Example issn_with_x :
  is_valid_ISSN "2434-561X" = Ok true /\ is_valid_ISSN "2434-561x" = Ok true.
Proof. split; reflexivity. Qed.

End ISSNFacts.

(** ** Properties of the monetary normalisation *)

Section EuroFacts.
Context {W : Type}.
Implicit Types st : M.state (W := W).

(** An empty value, the sentinel itself, and a value that [locale.atof]
    rejects all come back as [NA]. *)
Lemma euro_value_sentinel (conv : PyFloat.localeconv) (euro_value : string)
    (round_monetary : bool) (row_num index : Z)
    (offsetting_mode : option string) st :
  has_value euro_value = false
  \/ (exists msg, PyFloat.atof conv euro_value = Raise (ValueError msg)) ->
  (_process_euro_value conv euro_value round_monetary row_num index
     offsetting_mode st).1 = Ok "NA".
Proof.
  unfold _process_euro_value. destruct (has_value euro_value); simpl.
  - intros [H | [msg H]]; [discriminate | rewrite H; reflexivity].
  - intros _. reflexivity.
Qed.

End EuroFacts.

(** The examples of the specification, in the C locale: 1234.567 is
    rounded to 1234.57 with one warning when rounding is on, and kept
    with one error when it is off. *)
Example euro_rounded :
  _process_euro_value PyFloat.C_locale "1234.567" true 7 2 None ([], tt)
  = (Ok "1234.57",
     ([Log.mk Log.WARNING ("Line %s: " ++ MESSAGES.digits_norm)
         ["7"; "1234.567"; "1234.567"; "1234.57"]], tt)).
Proof. vm_compute. reflexivity. Qed.

Example euro_not_rounded :
  _process_euro_value PyFloat.C_locale "1234.567" false 7 2 None ([], tt)
  = (Ok "1234.567",
     ([Log.mk Log.ERROR ("Line %s: " ++ MESSAGES.digits_error)
         ["7"; "1234.567"]], tt)).
Proof. vm_compute. reflexivity. Qed.

(** An integral value loses its [.0]; a value that is no number becomes
    [NA]. *)
Example euro_integral :
  (_process_euro_value PyFloat.C_locale "1500.0" true 7 2 None ([], tt)).1
  = Ok "1500"
  /\ (_process_euro_value PyFloat.C_locale "1500" true 7 2 None ([], tt)).1
     = Ok "1500".
Proof. split; vm_compute; reflexivity. Qed.

Example euro_unparseable :
  (_process_euro_value PyFloat.C_locale "1234,56" true 7 2 None ([], tt)).1
  = Ok "NA"
  /\ (_process_euro_value PyFloat.C_locale "" true 7 2 None ([], tt)).1
     = Ok "NA".
Proof. split; vm_compute; reflexivity. Qed.

(** C8 at inputs where the code breaks it.  The test for more than two
    fractional digits is the pattern [^\d+\.\d{3}] on [str(euro)], which
    asks for a digit first: a negative value with three fractional
    digits is neither rounded although rounding is on, nor reported
    although it is off, and nothing is logged.  The same holds for a
    small value that [str] prints with an exponent and fewer than three
    digits before it.  And a value rounded to a whole number keeps its
    [.0]. *)
Theorem euro_digits_check_misses :
  _process_euro_value PyFloat.C_locale "-1.234" true 7 2 None ([], tt)
  = (Ok "-1.234", ([], tt))
  /\ _process_euro_value PyFloat.C_locale "-1.234" false 7 2 None ([], tt)
     = (Ok "-1.234", ([], tt))
  /\ _process_euro_value PyFloat.C_locale "0.00000015" true 7 2 None ([], tt)
     = (Ok "1.5e-07", ([], tt))
  /\ (_process_euro_value PyFloat.C_locale "1.999" true 7 2 None ([], tt)).1
     = Ok "2.0".
Proof. repeat split; vm_compute; reflexivity. Qed.

(** ** Properties of the pipeline *)

Section PipelineFacts.
Context {W : Type}.
Implicit Types st : M.state (W := W).

(** C9.  When [test_and_normalize_isbn] returns an invalid result, its
    [error_type] is one of 0, 1, 2, 3; so [_process_isbn] never enters
    the branch guarded by [error_type == 4]: it never logs the message of
    that branch, and it leaves the outside world alone. *)
Theorem isbn_error_taxonomy (self : ISBNHandling.t) (isbn : string) :
  (forall r : ISBNHandling.norm_result,
      ISBNHandling.test_and_normalize_isbn self isbn = Ok r ->
      ISBNHandling.valid r = false ->
      ISBNHandling.error_type r = Some 0
      \/ ISBNHandling.error_type r = Some 1
      \/ ISBNHandling.error_type r = Some 2
      \/ ISBNHandling.error_type r = Some 3)
  /\ (forall (row_num : Z) st,
        exists new : list Log.entry,
          (_process_isbn row_num isbn self st).2 = ((st.1 ++ new)%list, st.2)
          /\ Forall (fun e => Log.msg e <> invalid_split_msg) new).
Proof.
  split.
  - intros r Hr Hv.
    destruct (error_codes self isbn r Hr) as [[_ H] | [H _]];
      [exact H | congruence].
  - intros row_num [l w]. unfold _process_isbn.
    destruct (has_value isbn); simpl.
    2: { exists []. split; [now rewrite app_nil_r | constructor]. }
    unfold M.bind, M.lift.
    destruct (ISBNHandling.test_and_normalize_isbn self _) as [r|e] eqn:Hr.
    2: { exists []. split; [now rewrite app_nil_r | constructor]. }
    destruct (error_codes self _ r Hr) as [[Hv Hc] | [Hv Hc]]; rewrite Hv.
    + assert (exists c, ISBNHandling.error_type r = Some c /\ (c =? 4) = false)
        as (c & -> & ->).
      { destruct Hc as [-> | [-> | [-> | ->]]]; eauto. }
      unfold M.bind, M.lift.
      destruct (isbn_error_text r); simpl.
      * eexists [_]. split; [reflexivity|].
        repeat constructor. discriminate.
      * exists []. split; [now rewrite app_nil_r | constructor].
    + unfold M.bind, M.lift.
      destruct (normalised_of r) as [n|e]; simpl.
      2: { exists []. split; [now rewrite app_nil_r | constructor]. }
      destruct (negb (String.eqb n (ISBNHandling.input_value r))); simpl.
      * eexists [_]. split; [reflexivity|].
        repeat constructor. discriminate.
      * exists []. split; [now rewrite app_nil_r | constructor].
Qed.

Variable env : collaborators W.
Variable maps : mappings.t.
Variable conv : PyFloat.localeconv.

Lemma process_row_unfold (cfg : settings) (depth : nat) (retries : Z)
    (row : list string) :
  process_row env maps conv cfg depth retries row
  = process_row_body env maps conv cfg
      (fun row' =>
         match depth with
         | O => M.raise RecursionError
         | S depth' => process_row env maps conv cfg depth' 3 row'
         end)
      retries row.
Proof. destruct depth; reflexivity. Qed.

(** C7.  A row whose number of cells is not [num_required_columns] comes
    back as it is, the call returns normally whatever the recursion
    limit and the registries, exactly one record is logged, an error, and
    the outside world is not consulted. *)
Theorem process_row_shape_mismatch (cfg : settings) (depth : nat)
    (retries : Z) (row : list string) st :
  Z.of_nat (length row) <> num_required_columns cfg ->
  exists e : Log.entry,
    process_row env maps conv cfg depth retries row st
    = (Ok (row, Unchanged row), ((st.1 ++ [e])%list, st.2))
    /\ Log.lvl e = Log.ERROR
    /\ Log.errors [e] = 1%nat.
Proof.
  intros Hne. rewrite process_row_unfold. unfold process_row_body.
  apply Z.eqb_neq in Hne. rewrite Hne. simpl.
  eexists. split; [reflexivity|]. split; reflexivity.
Qed.

End PipelineFacts.

Lemma isbn_error_taxonomy_witness :
  ISBNHandling.error_type (ISBNHandling.invalid "978-3-161-48410-0" 3) = Some 0
  \/ ISBNHandling.error_type (ISBNHandling.invalid "978-3-161-48410-0" 3) = Some 1
  \/ ISBNHandling.error_type (ISBNHandling.invalid "978-3-161-48410-0" 3) = Some 2
  \/ ISBNHandling.error_type (ISBNHandling.invalid "978-3-161-48410-0" 3) = Some 3.
Proof.
  apply (proj1 (isbn_error_taxonomy (W := unit) Examples.range_file "978-3-161-48410-0")
           (ISBNHandling.invalid "978-3-161-48410-0" 3));
    reflexivity.
Defined.

Lemma process_row_shape_mismatch_witness :
  exists e : Log.entry,
    process_row Examples.registries Examples.no_mappings PyFloat.C_locale
      Examples.cfg 0 3 ["a"; "b"] ([], tt)
    = (Ok (["a"; "b"], Unchanged ["a"; "b"]), (([] ++ [e])%list, tt))
    /\ Log.lvl e = Log.ERROR
    /\ Log.errors [e] = 1%nat.
Proof.
  apply (process_row_shape_mismatch Examples.registries Examples.no_mappings
           PyFloat.C_locale Examples.cfg 0 3 ["a"; "b"] ([], tt)).
  simpl. lia.
Defined.

Section Restart.
Import Examples.

Lemma restarts_snoc (log : list Log.entry) (e : Log.entry) :
  restarts (log ++ [e])
  = (restarts log + if decide (Log.msg e = restart_msg) then 1 else 0)%nat.
Proof.
  unfold restarts. rewrite filter_app, length_app. f_equal.
  rewrite filter_cons, filter_nil. destruct (decide _); reflexivity.
Qed.

(** One pass over the row that carries the DOI: the metadata lookup
    fails, the ISBN lookup finds the same DOI again, and the row is
    handed to the recursive call as it was. *)
Lemma pass_with_doi (restart : list string -> M.t (W := unit) outcome)
    (log : list Log.entry) :
  exists log' : list Log.entry,
    process_row_body registries no_mappings PyFloat.C_locale cfg
      restart 3 row_with_doi (log, tt)
    = restart row_with_doi (log', tt)
    /\ restarts log' = S (restarts log).
Proof.
  eexists. split; [vm_compute; reflexivity|].
  rewrite !restarts_snoc. simpl. lia.
Qed.

(** The first pass: no DOI, the ISBN lookup finds one. *)
Lemma pass_without_doi (restart : list string -> M.t (W := unit) outcome)
    (log : list Log.entry) :
  exists log' : list Log.entry,
    process_row_body registries no_mappings PyFloat.C_locale cfg
      restart 3 row_without_doi (log, tt)
    = restart row_with_doi (log', tt)
    /\ restarts log' = S (restarts log).
Proof.
  eexists. split; [vm_compute; reflexivity|].
  rewrite !restarts_snoc. simpl. lia.
Qed.

Lemma restart_loop (depth : nat) (log : list Log.entry) :
  exists log' : list Log.entry,
    run_row depth row_with_doi (log, tt) = (Raise RecursionError, (log', tt))
    /\ restarts log' = (restarts log + S depth)%nat.
Proof.
  revert log. unfold run_row.
  induction depth as [|depth IH]; intros log; rewrite process_row_unfold.
  - destruct (pass_with_doi (fun _ => M.raise RecursionError) log)
      as (log2 & E2 & Hc2).
    rewrite E2. exists log2. split; [reflexivity | lia].
  - destruct (pass_with_doi
                (fun row' => process_row registries no_mappings
                               PyFloat.C_locale cfg depth 3 row') log)
      as (log2 & E2 & Hc2).
    rewrite E2. destruct (IH log2) as (log' & E' & Hc').
    exists log'. split; [exact E' | lia].
Qed.

(** C1 at an input where the code breaks it.  The row has an ISBN and no
    DOI; the registry returns a DOI for the ISBN and has no metadata for
    that DOI.  Whatever the recursion limit, the call does not return a
    row: it restarts once more than the limit allows nested calls (one
    log record per restart) and ends in [RecursionError]. *)
Theorem restart_unbounded (depth : nat) :
  exists log : list Log.entry,
    run_row depth row_without_doi ([], tt) = (Raise RecursionError, (log, tt))
    /\ restarts log = S depth.
Proof.
  unfold run_row. rewrite process_row_unfold. destruct depth as [|depth].
  - destruct (pass_without_doi (fun _ => M.raise RecursionError) [])
      as (log & E & Hc).
    rewrite E. exists log. split; [reflexivity | exact Hc].
  - destruct (pass_without_doi
                (fun row' => process_row registries no_mappings
                               PyFloat.C_locale cfg depth 3 row') [])
      as (log1 & E & Hc).
    rewrite E. destruct (restart_loop depth log1) as (log & E' & Hc').
    exists log. split; [exact E'|]. rewrite Hc', Hc. simpl. lia.
Qed.

(** When the registry does have metadata for the DOI it returned, the
    row is restarted once and the call returns. *)
Lemma restart_once_when_metadata_found (depth : nat) :
  exists (result : list string) (log : list Log.entry),
    process_row good_registries no_mappings PyFloat.C_locale cfg
      (S depth) 3 row_without_doi ([], tt)
    = (Ok (row_with_doi, Enriched "book_title" result), (log, tt))
    /\ restarts log = 1%nat.
Proof.
  rewrite process_row_unfold.
  assert (Hfirst : forall restart : list string -> M.t (W := unit) outcome,
             process_row_body good_registries no_mappings PyFloat.C_locale
               cfg restart 3 row_without_doi ([], tt)
             = restart row_with_doi
                 ([Log.mk Log.INFO "Line %s: No DOI found" ["1"];
                   Log.mk Log.INFO
                     "Line %s: Performed Crossref ISBN lookup, DOI found (%s)."
                     ["1"; found_doi];
                   Log.mk Log.INFO restart_msg []], tt))
    by (intros restart; vm_compute; reflexivity).
  rewrite Hfirst, process_row_unfold.
  do 2 eexists. split; [vm_compute; reflexivity | reflexivity].
Qed.

End Restart.

(** ** Facts about the string primitives *)

Module PyFacts.
Import Py.

Lemma take_drop (n : nat) (s : string) : take n s ++ drop n s = s.
Proof.
  revert s. induction n as [|n IH]; intros [|c s]; simpl; try reflexivity.
  now rewrite IH.
Qed.

(** [s[:i] + s[i:] == s], for every [i]. *)
Lemma slice_split (s : string) (i : Z) : slice_to s i ++ slice_from s i = s.
Proof. apply take_drop. Qed.

Lemma replace_app (old : ascii) (new a b : string) :
  replace old new (a ++ b) = replace old new a ++ replace old new b.
Proof.
  induction a as [|c a IH]; simpl; [reflexivity|].
  rewrite IH. now rewrite string_app_assoc.
Qed.

Lemma contains_app (c : ascii) (a b : string) :
  contains c (a ++ b) = contains c a || contains c b.
Proof.
  induction a as [|d a IH]; simpl; [reflexivity|].
  rewrite IH. now rewrite orb_assoc.
Qed.

(** Removing a character that does not occur changes nothing. *)
Lemma replace_absent (old : ascii) (new s : string) :
  contains old s = false -> replace old new s = s.
Proof.
  induction s as [|c s IH]; simpl; [reflexivity|].
  intros H. apply orb_false_elim in H as [Hc Hs].
  rewrite Hc. simpl. now rewrite IH.
Qed.

Lemma prefix_split (p s : string) :
  startswith p s = true -> s = p ++ drop (String.length p) s.
Proof.
  unfold startswith. revert s.
  induction p as [|c p IH]; intros [|d s]; simpl; try reflexivity;
    try discriminate.
  destruct (ascii_dec c d) as [->|]; [|discriminate].
  intros H. now rewrite <- (IH s H).
Qed.

Lemma prefix_length (p s : string) :
  startswith p s = true -> (String.length p <= String.length s)%nat.
Proof.
  intros H. pose proof (prefix_split p s H) as E.
  apply (f_equal String.length) in E.
  rewrite string_length_app in E. lia.
Qed.

Lemma slice_from_prefix (p s : string) :
  startswith p s = true -> s = p ++ slice_from s (len p).
Proof.
  intros H. transitivity (p ++ drop (String.length p) s);
    [now apply prefix_split|]. f_equal.
  unfold slice_from, bound, len.
  pose proof (prefix_length p s H).
  destruct (Z.ltb_spec (Z.of_nat (String.length p)) 0); [lia|].
  f_equal. lia.
Qed.

(** A string without blanks is its own [strip]. *)
Lemma lstrip_no_blank (s : string) : no_blank s -> lstrip s = s.
Proof.
  destruct s as [|c s]; [reflexivity|]. unfold no_blank. simpl.
  intros H. inversion H as [|? ? Hc _]; subst. now rewrite Hc.
Qed.

Lemma rstrip_no_blank (s : string) : no_blank s -> rstrip s = s.
Proof.
  unfold no_blank. induction s as [|c s IH]; simpl; [reflexivity|].
  intros H. inversion H as [|? ? Hc Hs]; subst.
  rewrite (IH Hs), Hc. destruct s; reflexivity.
Qed.

Lemma strip_no_blank (s : string) : no_blank s -> strip s = s.
Proof.
  intros H. unfold strip. rewrite (lstrip_no_blank s H).
  now apply rstrip_no_blank.
Qed.

Lemma no_blank_app (a b : string) :
  no_blank (a ++ b) <-> no_blank a /\ no_blank b.
Proof.
  unfold no_blank. induction a as [|c a IH]; simpl.
  - split; [intros H; split; [constructor | exact H] | now intros [_ H]].
  - split.
    + intros H. inversion H; subst. apply IH in H3 as [Ha Hb].
      split; [constructor|]; assumption.
    + intros [Ha Hb]. inversion Ha; subst. constructor; [assumption|].
      apply IH. now split.
Qed.

Lemma digit_not_blank (c : ascii) : isdigit c = true -> isspace c = false.
Proof.
  destruct c as [[] [] [] [] [] [] [] []]; intros H;
    try discriminate H; reflexivity.
Qed.

Lemma digit_not_hyphen (c : ascii) :
  isdigit c = true -> Ascii.eqb c hyphen = false.
Proof.
  destruct c as [[] [] [] [] [] [] [] []]; intros H;
    try discriminate H; reflexivity.
Qed.

End PyFacts.

(** ** More on the ISBN normaliser: segments, round trip, idempotence *)

Section ISBNSplit.
Import ISBNHandling Py PyFacts.

(** What [ISBN_RE] accepts: 97, an 8 or a 9, ten digits, and at most a
    final newline. *)
Lemma ISBN_RE_shape (s : string) :
  Re.matches ISBN_RE s = true ->
  exists (c : ascii) (ds tl : string),
    s = String "9" (String "7" (String c (ds ++ tl)))
    /\ (c = "8" \/ c = "9")%char
    /\ String.length ds = 10%nat
    /\ Forall (fun d => isdigit d = true) (list_ascii_of_string ds)
    /\ Re.at_end tl = true.
Proof.
  intros M. apply ReFacts.matches_sem in M as (s' & M). simpl in M.
  destruct M as (m1 & -> & m2 & -> & m3 & (c & -> & Hc) & m4
                 & (n & Hn & Hi) & <- & He).
  assert (n = 10%nat) as -> by lia.
  apply ReFacts.iter_cls in Hi as (ds & -> & Hl & Hall).
  exists c, ds, m4. repeat split; try assumption.
  simpl in Hc. rewrite orb_false_r in Hc.
  apply orb_prop in Hc as [H | H]; apply Ascii.eqb_eq in H; auto.
Qed.

Lemma digits_no_hyphen (ds : string) :
  Forall (fun d => isdigit d = true) (list_ascii_of_string ds) ->
  contains hyphen ds = false.
Proof.
  induction ds as [|d ds IH]; simpl; [reflexivity|].
  intros H. inversion H; subst.
  rewrite (digit_not_hyphen d) by assumption. now apply IH.
Qed.

Lemma digits_no_blank (ds : string) :
  Forall (fun d => isdigit d = true) (list_ascii_of_string ds) ->
  no_blank ds.
Proof.
  unfold no_blank. induction ds as [|d ds IH]; simpl; [constructor|].
  intros H. inversion H; subst. constructor; [|now apply IH].
  now apply digit_not_blank.
Qed.

(** A string accepted by [ISBN_RE] has no hyphen. *)
Lemma ISBN_RE_no_hyphen (s : string) :
  Re.matches ISBN_RE s = true -> contains hyphen s = false.
Proof.
  intros M. destruct (ISBN_RE_shape s M) as (c & ds & tl & -> & Hc & _ & Hd & He).
  simpl. rewrite contains_app, (digits_no_hyphen ds Hd).
  apply ReFacts.at_end_cases in He as [-> | ->];
    destruct Hc as [-> | ->]; reflexivity.
Qed.

(** With exactly 13 characters it has no blank either. *)
Lemma ISBN_RE_no_blank (s : string) :
  Re.matches ISBN_RE s = true -> String.length s = 13%nat -> no_blank s.
Proof.
  intros M Hl. destruct (ISBN_RE_shape s M) as (c & ds & tl & -> & Hc & Hds & Hd & He).
  simpl in Hl. rewrite string_length_app in Hl.
  assert (tl = "") as -> by (destruct tl; [reflexivity | simpl in Hl; lia]).
  rewrite string_app_nil_r. unfold no_blank. simpl.
  repeat constructor; try (destruct Hc as [-> | ->]; reflexivity).
  now apply digits_no_blank.
Qed.

(** The fourth character of a string accepted by [ISBN_SPLIT_RE] is a
    hyphen, that of one accepted by [ISBN_RE] a digit. *)
Lemma ISBN_RE_not_split (s : string) :
  Re.matches ISBN_RE s = true -> Re.matches ISBN_SPLIT_RE s = false.
Proof.
  intros M. destruct (Re.matches ISBN_SPLIT_RE s) eqn:M'; [|reflexivity].
  exfalso.
  destruct (ISBN_RE_shape s M) as (c & ds & tl & -> & _ & Hl & Hd & _).
  apply ReFacts.matches_sem in M' as (s' & M'). simpl in M'.
  destruct M' as (m1 & E1 & m2 & E2 & m3 & (c' & E3 & _) & m4 & E4 & _).
  destruct ds as [|d ds]; [discriminate|].
  simpl in *. simplify_eq. inversion Hd; subst. discriminate.
Qed.

(** The second loop of [split_isbn]: when it succeeds, it has cut what
    was left into registrant, publication and check digit. *)
Lemma split_registrant_shape (isbn sp rem : string) (groups : list Element)
    (r : split_result) :
  split_registrant isbn sp rem groups = Ok r -> success r = true ->
  exists a b c : string,
    value r = (sp ++ "-" ++ a) ++ "-" ++ b ++ "-" ++ c
    /\ a ++ b ++ c = rem.
Proof.
  induction groups as [|g groups IH]; simpl.
  - unfold fail. intros H; injection H as <-. discriminate.
  - destruct (String.eqb sp (Prefix g)); [|exact IH].
    destruct (_get_range_length_from_rules rem (Rules g)) as [n|e]; simpl;
      [|discriminate].
    destruct (n =? 0).
    + unfold fail. intros H; injection H as <-. discriminate.
    + intros H _. injection H as <-. simpl.
      exists (slice_to rem n), (slice_to (slice_from rem n) (-1)),
             (slice_from (slice_from rem n) (-1)).
      split; [reflexivity|]. now rewrite !slice_split.
Qed.

Lemma split_group_shape (self : t) (isbn : string) (eans : list Element)
    (r : split_result) :
  split_group self isbn eans = Ok r -> success r = true ->
  exists p g a b c : string,
    value r = Py.join "-" [p; g; a; b; c]
    /\ p ++ g ++ a ++ b ++ c = isbn.
Proof.
  induction eans as [|ean eans IH]; simpl.
  - unfold fail. intros H; injection H as <-. discriminate.
  - destruct (startswith (Prefix ean) isbn) eqn:Hp; [|exact IH].
    destruct (_get_range_length_from_rules _ (Rules ean)) as [n|e]; simpl;
      [|discriminate].
    destruct (n =? 0).
    + unfold fail. intros H; injection H as <-. discriminate.
    + intros H Hs.
      destruct (split_registrant_shape _ _ _ _ _ H Hs) as (a & b & c & -> & E).
      exists (Prefix ean), (slice_to (slice_from isbn (len (Prefix ean))) n),
             a, b, c.
      split.
      * simpl. now rewrite !string_app_assoc.
      * rewrite E, slice_split. symmetry. now apply slice_from_prefix.
Qed.

Lemma split_success_matches (self : t) (isbn : string) (r : split_result) :
  split_isbn self isbn = Ok r -> success r = true ->
  Re.matches ISBN_RE isbn = true.
Proof.
  unfold split_isbn. destruct (Re.matches ISBN_RE isbn); [reflexivity|].
  simpl. unfold fail. intros H; injection H as <-. discriminate.
Qed.

(** What a successful split says about its input. *)
Lemma split_isbn_inv (self : t) (isbn : string) (r : split_result) :
  split_isbn self isbn = Ok r -> success r = true ->
  contains hyphen isbn = false
  /\ exists p g a b c : string,
       value r = Py.join "-" [p; g; a; b; c]
       /\ p ++ g ++ a ++ b ++ c = isbn.
Proof.
  intros H Hs. split.
  - exact (ISBN_RE_no_hyphen isbn (split_success_matches _ _ _ H Hs)).
  - revert H Hs. unfold split_isbn. destruct (negb (Re.matches ISBN_RE isbn)).
    + unfold fail. intros H; injection H as <-. discriminate.
    + apply split_group_shape.
Qed.

Lemma split_value_unhyphen (self : t) (isbn : string) (r : split_result) :
  split_isbn self isbn = Ok r -> success r = true ->
  replace hyphen "" (value r) = isbn.
Proof.
  intros H Hs.
  destruct (split_isbn_inv _ _ _ H Hs) as (Hh & p & g & a & b & c & -> & E).
  subst isbn. rewrite !contains_app in Hh.
  repeat (apply orb_false_elim in Hh as [? Hh]).
  simpl. repeat (progress (rewrite ?replace_app; simpl)).
  now rewrite !replace_absent by assumption.
Qed.

Lemma split_value_length (self : t) (isbn : string) (r : split_result) :
  split_isbn self isbn = Ok r -> success r = true ->
  String.length (value r) = (String.length isbn + 4)%nat.
Proof.
  intros H Hs.
  destruct (split_isbn_inv _ _ _ H Hs) as (_ & p & g & a & b & c & -> & E).
  subst isbn.
  simpl. repeat (progress (rewrite ?string_length_app; simpl)). lia.
Qed.

(** X1.  When [split_isbn] succeeds, its value is five segments joined by
    hyphens, and the segments put together are the input: nothing is
    lost, added or reordered. *)
Theorem split_isbn_segments (self : t) (isbn : string) (r : split_result) :
  split_isbn self isbn = Ok r -> success r = true ->
  exists p g a b c : string,
    value r = Py.join "-" [p; g; a; b; c]
    /\ p ++ g ++ a ++ b ++ c = isbn.
Proof.
  intros H Hs. exact (proj2 (split_isbn_inv self isbn r H Hs)).
Qed.

Lemma split_isbn_segments_witness :
  exists p g a b c : string,
    value {| success := true; value := "978-2-7535-1827-8" |}
    = Py.join "-" [p; g; a; b; c]
    /\ p ++ g ++ a ++ b ++ c = "9782753518278".
Proof.
  apply (split_isbn_segments Examples.range_file "9782753518278"
           {| success := true; value := "978-2-7535-1827-8" |});
    reflexivity.
Defined.

(** X2.  Round trip: taking the hyphens out of a successful split gives
    the input back, and the split is four characters longer than the
    input. *)
Theorem split_isbn_roundtrip (self : t) (isbn : string) (r : split_result) :
  split_isbn self isbn = Ok r -> success r = true ->
  replace hyphen "" (value r) = isbn
  /\ String.length (value r) = (String.length isbn + 4)%nat.
Proof.
  intros H Hs. split.
  - exact (split_value_unhyphen self isbn r H Hs).
  - exact (split_value_length self isbn r H Hs).
Qed.

Lemma split_isbn_roundtrip_witness :
  replace hyphen "" "978-2-7535-1827-8" = "9782753518278"
  /\ String.length "978-2-7535-1827-8" = (String.length "9782753518278" + 4)%nat.
Proof.
  apply (split_isbn_roundtrip Examples.range_file "9782753518278"
           {| success := true; value := "978-2-7535-1827-8" |});
    reflexivity.
Defined.

Lemma join_no_blank (p g a b c : string) :
  no_blank (p ++ g ++ a ++ b ++ c) -> no_blank (Py.join "-" [p; g; a; b; c]).
Proof.
  assert (Hsep : forall x y, no_blank x -> no_blank y ->
                         no_blank (x ++ "-" ++ y)).
  { intros x y Hx Hy. apply no_blank_app. split; [assumption|].
    unfold no_blank. simpl. constructor; [reflexivity | assumption]. }
  intros H. repeat (apply no_blank_app in H as [? H]).
  unfold Py.join. repeat (apply Hsep; [assumption|]). assumption.
Qed.

(** Both forms of a successful split, with and without hyphens, are
    accepted and normalised to the split. *)
Lemma normalise_split_forms (self : t) (unsplit : string)
    (sr : split_result) :
  String.length unsplit = 13%nat ->
  split_isbn self unsplit = Ok sr ->
  success sr = true ->
  test_and_normalize_isbn self (value sr)
  = Ok {| valid := true; input_value := value sr;
          normalised := Some (value sr); error_type := None |}
  /\ test_and_normalize_isbn self (replace hyphen "" (value sr))
     = Ok {| valid := true; input_value := replace hyphen "" (value sr);
             normalised := Some (value sr); error_type := None |}.
Proof.
  intros Hlen Hsplit Hs.
  pose proof (split_success_matches _ _ _ Hsplit Hs) as Hre.
  pose proof (ISBN_RE_no_blank _ Hre Hlen) as Hnb.
  pose proof (split_value_unhyphen _ _ _ Hsplit Hs) as Hrt.
  pose proof (split_value_length _ _ _ Hsplit Hs) as Hl.
  assert (Hnbv : no_blank (value sr)).
  { destruct (split_isbn_inv _ _ _ Hsplit Hs)
      as (_ & p & g & a & b & c & -> & E).
    apply join_no_blank. now rewrite E. }
  split.
  - unfold test_and_normalize_isbn.
    rewrite (strip_no_blank _ Hnbv), Hrt, Hre, Hsplit. simpl.
    rewrite String.eqb_refl. simpl.
    destruct (Re.matches ISBN_SPLIT_RE (value sr)); [|reflexivity].
    unfold len. rewrite Hl, Hlen. reflexivity.
  - rewrite Hrt. unfold test_and_normalize_isbn.
    rewrite (strip_no_blank _ Hnb).
    rewrite (replace_absent _ _ _ (ISBN_RE_no_hyphen _ Hre)).
    rewrite (ISBN_RE_not_split _ Hre), Hre, Hsplit. reflexivity.
Qed.

(** X3.  Idempotence where the split succeeds.  If the digits of an
    input, blanks and hyphens removed, are 13 characters and
    [split_isbn] succeeds on them, then the input is accepted with the
    split as its normalised form (unless its own segmentation is
    rejected), normalising the split again returns it unchanged, and
    normalising its digits returns it too. *)
Theorem normalisation_idempotent_on_success (self : t) (isbn : string)
    (sr : split_result) :
  String.length (replace hyphen "" (strip isbn)) = 13%nat ->
  split_isbn self (replace hyphen "" (strip isbn)) = Ok sr ->
  success sr = true ->
  (forall res : norm_result,
      test_and_normalize_isbn self isbn = Ok res -> valid res = true ->
      normalised res = Some (value sr))
  /\ test_and_normalize_isbn self (value sr)
     = Ok {| valid := true; input_value := value sr;
             normalised := Some (value sr); error_type := None |}
  /\ test_and_normalize_isbn self (replace hyphen "" (value sr))
     = Ok {| valid := true; input_value := replace hyphen "" (value sr);
             normalised := Some (value sr); error_type := None |}.
Proof.
  intros Hlen Hsplit Hs. split.
  - intros res Hres Hv.
    destruct (test_and_normalize_cases self isbn)
      as [E | [E | [E | [E | [[e E] | (s & Es & _ & E)]]]]];
      rewrite E in Hres; try discriminate;
      injection Hres as <-; try discriminate.
    rewrite Hsplit in Es. injection Es as <-. reflexivity.
  - exact (normalise_split_forms self _ sr Hlen Hsplit Hs).
Qed.

Lemma normalisation_idempotent_on_success_witness :
  (forall res : norm_result,
      test_and_normalize_isbn Examples.range_file " 9782753518278 " = Ok res ->
      valid res = true ->
      normalised res = Some "978-2-7535-1827-8")
  /\ test_and_normalize_isbn Examples.range_file "978-2-7535-1827-8"
     = Ok {| valid := true; input_value := "978-2-7535-1827-8";
             normalised := Some "978-2-7535-1827-8"; error_type := None |}
  /\ test_and_normalize_isbn Examples.range_file
       (replace hyphen "" "978-2-7535-1827-8")
     = Ok {| valid := true;
             input_value := replace hyphen "" "978-2-7535-1827-8";
             normalised := Some "978-2-7535-1827-8"; error_type := None |}.
Proof.
  apply (normalisation_idempotent_on_success Examples.range_file
           " 9782753518278 "
           {| success := true; value := "978-2-7535-1827-8" |});
    reflexivity.
Defined.

End ISBNSplit.

(** ** Check digits: ISBN-13 and ISSN *)

Section CheckDigits.
Import ISBNHandling Py PyFacts.

#[local] Arguments Py.isdigit : simpl never.
#[local] Arguments Py.digit_value : simpl never.
#[local] Arguments Z.mul : simpl never.
#[local] Arguments Z.add : simpl never.

(** The loop of [isbn_has_valid_check_digit] over a string of digits adds
    the weighted sum to the checksum. *)
Lemma checksum_loop (s : string) :
  Forall (fun d => isdigit d = true) (list_ascii_of_string s) ->
  forall (index : nat) (checksum : Z),
    (fix loop (index : nat) (s : string) (checksum : Z) : result Z :=
       match s with
       | String digit s' =>
           (let? d := Py.int (chr digit) in
            loop (S index) s'
                 (if (index mod 2 =? 0)%nat then checksum + d
                  else checksum + 3 * d))%result
       | EmptyString => Ok checksum
       end) index s checksum
    = Ok (checksum + isbn13_sum index s).
Proof.
  induction s as [|c s IH]; intros Hall index checksum.
  - simpl. f_equal. lia.
  - inversion Hall as [|? ? Hc Hs]; subst.
    cbn [isbn13_sum]. rewrite (int_digit c Hc). cbn [rbind].
    rewrite (IH Hs). f_equal.
    assert (Nat.even index = (index mod 2 =? 0)%nat) as ->.
    { rewrite <- Nat.bit0_mod, Nat.bit0_odd, <- Nat.negb_even.
      destruct (Nat.even index); reflexivity. }
    destruct (index mod 2 =? 0)%nat; lia.
Qed.

Lemma ISBN_RE_digits (s : string) :
  Re.matches ISBN_RE s = true -> String.length s = 13%nat ->
  Forall (fun d => isdigit d = true) (list_ascii_of_string s).
Proof.
  intros M Hl.
  destruct (ISBN_RE_shape s M) as (c & ds & tl & -> & Hc & Hds & Hd & He).
  simpl in Hl. rewrite string_length_app in Hl.
  assert (tl = "") as -> by (destruct tl; [reflexivity | simpl in Hl; lia]).
  rewrite string_app_nil_r. simpl.
  repeat constructor; try (destruct Hc as [-> | ->]; reflexivity).
  exact Hd.
Qed.

Lemma isbn13_sum_app (a b : string) (index : nat) :
  isbn13_sum index (a ++ b)
  = isbn13_sum index a + isbn13_sum (index + String.length a) b.
Proof.
  revert index. induction a as [|c a IH]; intros index; simpl.
  - rewrite Nat.add_0_r. lia.
  - rewrite IH. replace (S index + String.length a)%nat
      with (index + S (String.length a))%nat by lia. lia.
Qed.

Lemma digits_app (a b : string) :
  Forall (fun d => isdigit d = true) (list_ascii_of_string (a ++ b)) ->
  Forall (fun d => isdigit d = true) (list_ascii_of_string a)
  /\ Forall (fun d => isdigit d = true) (list_ascii_of_string b).
Proof.
  induction a as [|c a IH]; simpl; intros H.
  - split; [constructor | exact H].
  - inversion H; subst. destruct (IH H3). split; [constructor|]; assumption.
Qed.

(** A weight of 1 or 3 never hides the change of one digit modulo 10. *)
Lemma decimal_shift (T T' v v' w : Z) :
  w = 1 \/ w = 3 -> 0 <= v <= 9 -> 0 <= v' <= 9 -> v <> v' ->
  T' = T + w * (v' - v) -> (T mod 10 =? 0) = true -> (T' mod 10 =? 0) = false.
Proof.
  intros Hw Hv Hv' Hne -> H0. apply Z.eqb_eq in H0. apply Z.eqb_neq.
  intros H1.
  assert (Hd : (w * (v' - v)) mod 10 = 0).
  { replace (w * (v' - v)) with ((T + w * (v' - v)) - T) by ring.
    rewrite Zminus_mod, H0, H1. reflexivity. }
  remember (v' - v) as d eqn:Ed.
  assert (d = -9 \/ d = -8 \/ d = -7 \/ d = -6 \/ d = -5 \/ d = -4
          \/ d = -3 \/ d = -2 \/ d = -1 \/ d = 1 \/ d = 2 \/ d = 3
          \/ d = 4 \/ d = 5 \/ d = 6 \/ d = 7 \/ d = 8 \/ d = 9)
    as Hc by lia.
  clear - Hw Hc Hd.
  destruct Hw as [-> | ->];
    repeat (destruct Hc as [-> | Hc]); try subst;
    vm_compute in Hd; discriminate Hd.
Qed.

Lemma isbn_checksum_value (isbn : string) :
  Re.matches ISBN_RE isbn = true -> String.length isbn = 13%nat ->
  isbn_has_valid_check_digit isbn = Ok (isbn13_sum 0 isbn mod 10 =? 0).
Proof.
  intros M Hl. unfold isbn_has_valid_check_digit. rewrite M. cbn [negb].
  rewrite (checksum_loop isbn (ISBN_RE_digits isbn M Hl)). reflexivity.
Qed.

(** X4.  On an unsplit ISBN of 13 characters the check-digit test is the
    standard one: the digits weighted 1, 3, 1, 3, ... must add up to a
    multiple of 10.  It raises [ValueError] on whatever [ISBN_RE]
    rejects. *)
Theorem isbn_check_digit_standard (isbn : string) :
  (Re.matches ISBN_RE isbn = true -> String.length isbn = 13%nat ->
   isbn_has_valid_check_digit isbn = Ok (isbn13_sum 0 isbn mod 10 =? 0))
  /\ (Re.matches ISBN_RE isbn = false ->
      exists msg, isbn_has_valid_check_digit isbn = Raise (ValueError msg)).
Proof.
  split; intros M.
  - intros Hl. exact (isbn_checksum_value isbn M Hl).
  - unfold isbn_has_valid_check_digit. rewrite M. cbn [negb]. eauto.
Qed.

Lemma isbn_check_digit_standard_witness :
  isbn_has_valid_check_digit "9783161484100"
  = Ok (isbn13_sum 0 "9783161484100" mod 10 =? 0).
Proof.
  apply (proj1 (isbn_check_digit_standard "9783161484100")); reflexivity.
Defined.

(** X5.  The check-digit test notices every change of a single digit:
    if an unsplit 13-character ISBN passes, the string with one digit
    replaced by another does not. *)
Theorem isbn_check_digit_detects_single_change (pre post : string)
    (c c' : ascii) :
  Re.matches ISBN_RE (pre ++ String c post) = true ->
  Re.matches ISBN_RE (pre ++ String c' post) = true ->
  String.length (pre ++ String c post) = 13%nat ->
  c <> c' ->
  isbn_has_valid_check_digit (pre ++ String c post) = Ok true ->
  isbn_has_valid_check_digit (pre ++ String c' post) = Ok false.
Proof.
  intros M M' Hl Hne Hv.
  assert (Hl' : String.length (pre ++ String c' post) = 13%nat).
  { rewrite string_length_app in *. exact Hl. }
  rewrite (isbn_checksum_value _ M Hl) in Hv.
  rewrite (isbn_checksum_value _ M' Hl').
  injection Hv as Hv. f_equal.
  destruct (digits_app _ _ (ISBN_RE_digits _ M Hl)) as [_ Hd].
  destruct (digits_app _ _ (ISBN_RE_digits _ M' Hl')) as [_ Hd'].
  inversion Hd as [|? ? Hc _]; inversion Hd' as [|? ? Hc' _]; subst.
  rewrite isbn13_sum_app in Hv |- *. cbn [isbn13_sum] in Hv |- *.
  pose proof (digit_value_range c Hc) as Rc.
  pose proof (digit_value_range c' Hc') as Rc'.
  assert (Hvne : digit_value c <> digit_value c').
  { intros E. apply Hne.
    apply isdigit_cases in Hc, Hc'. simpl in Hc, Hc'.
    repeat (destruct Hc as [<- | Hc]; [|]);
      repeat (destruct Hc' as [<- | Hc']; [|]);
      try contradiction; try reflexivity; vm_compute in E; discriminate E. }
  eapply (decimal_shift _ _ (digit_value c) (digit_value c')
            (if Nat.even (0 + String.length pre) then 1 else 3));
    [destruct (Nat.even _); auto | exact Rc | exact Rc' | exact Hvne
    | | exact Hv].
  ring.
Qed.

Lemma isbn_check_digit_detects_single_change_witness :
  isbn_has_valid_check_digit ("97831614" ++ String "9" "4100") = Ok false.
Proof.
  apply (isbn_check_digit_detects_single_change "97831614" "4100"
           "8"%char "9"%char); try reflexivity.
  discriminate.
Defined.

End CheckDigits.

(** ** More on ISSNs *)

Section ISSNExtra.
Import Py PyFacts.

#[local] Arguments Py.isdigit : simpl never.
#[local] Arguments Py.digit_value : simpl never.

(** Seven digits around a hyphen and a check symbol are well-formed. *)
Lemma wellformed_shape (d0 d1 d2 d3 d4 d5 d6 ck : ascii) (tl : string) :
  Forall (fun d => isdigit d = true) [d0; d1; d2; d3; d4; d5; d6] ->
  is_check_symbol ck = true ->
  Re.at_end tl = true ->
  is_wellformed_ISSN (issn_shape d0 d1 d2 d3 d4 d5 d6 ck tl) = true.
Proof.
  intros Hall Hck He.
  repeat match goal with
         | H : Forall _ (_ :: _) |- _ =>
             let Hd := fresh "Hd" in apply Forall_cons_1 in H as [Hd H]
         end.
  unfold is_wellformed_ISSN, ISSN_RE_match.
  assert (M : Re.matches ISSN_RE (issn_shape d0 d1 d2 d3 d4 d5 d6 ck tl) = true).
  { apply ReFacts.matches_sem. exists tl. unfold issn_shape. simpl.
    eexists. split.
    { exists 4%nat. split; [lia|]. simpl.
      repeat (eexists; split; [eexists; split; [reflexivity | eassumption]|]).
      reflexivity. }
    eexists. split; [reflexivity|].
    eexists. split.
    { exists 3%nat. split; [lia|]. simpl.
      repeat (eexists; split; [eexists; split; [reflexivity | eassumption]|]).
      reflexivity. }
    eexists. split; [eexists; split; [reflexivity | exact Hck]|].
    split; [reflexivity | exact He]. }
  now rewrite M.
Qed.

(** X6.  [is_valid_ISSN] is only defined on well-formed strings: it
    raises [AttributeError] on every string that [is_wellformed_ISSN]
    rejects and returns a truth value on every one it accepts. *)
Theorem is_valid_ISSN_needs_wellformed (issn_string : string) :
  (is_wellformed_ISSN issn_string = false <->
   exists msg, is_valid_ISSN issn_string = Raise (AttributeError msg))
  /\ (is_wellformed_ISSN issn_string = true <->
      exists b, is_valid_ISSN issn_string = Ok b).
Proof.
  destruct (is_wellformed_ISSN issn_string) eqn:Hwf.
  - assert (E : exists b, is_valid_ISSN issn_string = Ok b).
    { destruct (wellformed_inv _ Hwf)
        as (d0 & d1 & d2 & d3 & d4 & d5 & d6 & ck & tl & -> & Hall & Hck & _).
      eexists. now apply is_valid_shape. }
    split; split; try discriminate; eauto.
    + intros (msg & H). destruct E as (b & E). rewrite E in H. discriminate.
  - assert (E : exists msg, is_valid_ISSN issn_string
                            = Raise (AttributeError msg)).
    { unfold is_wellformed_ISSN in Hwf. unfold is_valid_ISSN.
      destruct (ISSN_RE_match issn_string); [discriminate | eauto]. }
    split; split; try discriminate; eauto.
    + intros (b & H). destruct E as (msg & E). rewrite E in H. discriminate.
Qed.

Lemma is_valid_ISSN_needs_wellformed_witness :
  exists msg, is_valid_ISSN "02624079" = Raise (AttributeError msg).
Proof.
  apply (proj1 (proj1 (is_valid_ISSN_needs_wellformed "02624079"))).
  reflexivity.
Defined.

(** X7.  Seven digits have exactly one check value: among the check
    symbols, those and only those that stand for it make a valid
    ISSN. *)
Theorem issn_check_symbol_unique (d0 d1 d2 d3 d4 d5 d6 : ascii) :
  Forall (fun d => isdigit d = true) [d0; d1; d2; d3; d4; d5; d6] ->
  let expected := issn_expected_check (shape_sum d0 d1 d2 d3 d4 d5 d6) in
  0 <= expected <= 10
  /\ forall ck : ascii,
       is_check_symbol ck = true ->
       (is_valid_ISSN (issn_shape d0 d1 d2 d3 d4 d5 d6 ck "") = Ok true
        <-> issn_symbol_value ck = expected).
Proof.
  intros Hall expected. subst expected. unfold issn_expected_check.
  pose proof (Z.mod_pos_bound (shape_sum d0 d1 d2 d3 d4 d5 d6) 11 eq_refl) as Hm.
  split.
  - destruct (_ =? 0) eqn:E0; lia.
  - intros ck Hck.
    rewrite is_valid_shape
      by (try assumption; now apply wellformed_shape).
    unfold accept. destruct (_ mod 11 =? 0) eqn:E0; split; intros H.
    + injection H as H. lia.
    + f_equal. lia.
    + injection H as H. lia.
    + f_equal. lia.
Qed.

Lemma issn_check_symbol_unique_witness :
  let expected := issn_expected_check (shape_sum "0" "2" "6" "2" "4" "0" "7") in
  0 <= expected <= 10
  /\ forall ck : ascii,
       is_check_symbol ck = true ->
       (is_valid_ISSN (issn_shape "0" "2" "6" "2" "4" "0" "7" ck "") = Ok true
        <-> issn_symbol_value ck = expected).
Proof.
  apply (issn_check_symbol_unique "0" "2" "6" "2" "4" "0" "7").
  repeat constructor.
Defined.

End ISSNExtra.

(** ** More on the writer *)

Section WriterExtra.
Import OpenAPCUnicodeWriter Py PyFacts.

Lemma take_app_length (a b : string) : take (String.length a) (a ++ b) = a.
Proof. induction a as [|c a IH]; simpl; [now destruct b | now rewrite IH]. Qed.

Lemma drop_app_length (a b : string) : drop (String.length a) (a ++ b) = b.
Proof. induction a as [|c a IH]; simpl; [now destruct b | exact IH]. Qed.

Lemma undouble_replace (cell : string) :
  undouble (replace dquote (String dquote (chr dquote)) cell) = cell.
Proof.
  induction cell as [|c cell IH]; [reflexivity|].
  cbn [replace]. destruct (Ascii.eqb c dquote) eqn:E.
  - apply Ascii.eqb_eq in E. subst c. cbn. now rewrite IH.
  - cbn. rewrite E. now rewrite IH.
Qed.

(** X8.  Quoting loses nothing: reading a quoted cell back (outer quotes
    off, doubled quotes halved) gives the cell, whatever it contains. *)
Theorem quoted_roundtrip (cell : string) : unquote (quoted cell) = Some cell.
Proof.
  unfold quoted, unquote. cbn [String.append chr].
  rewrite Ascii.eqb_refl, string_length_app. cbn [String.length].
  rewrite Nat.add_1_r.
  rewrite drop_app_length, take_app_length, undouble_replace.
  reflexivity.
Qed.

(** The line written for a data row. *)
Lemma data_rows_returned (self : t) (rows : list (list string)) :
  (write_data_rows self rows).2
  = map (fun row => _prepare_row self row true) rows.
Proof.
  revert self. induction rows as [|row rows IH]; intros self; simpl.
  - reflexivity.
  - destruct (write_data_rows _ rows) as [self' out] eqn:E. simpl.
    specialize (IH (_write_row self (_prepare_row self row true))).
    rewrite E in IH. simpl in IH. rewrite IH. reflexivity.
Qed.

(** X9.  [write_rows] fails only on an empty list when a header is
    expected ([rows.pop(0)]).  Otherwise it appends to the file, keeping
    what was there, one line per row in order: the header with every
    cell prepared without the mask, then the data rows prepared with it;
    and it leaves the caller's data rows with the prepared cells in
    them. *)
Theorem write_rows_lines (self : t) (rows : list (list string)) :
  match write_rows self rows with
  | Raise e => e = IndexError /\ has_header self = true /\ rows = []
  | Ok (self', rows') =>
      let data := if has_header self then tail rows else rows in
      outfile self'
      = outfile self
        ++ (if has_header self
            then line (_prepare_row self (hd [] rows) false) else "")
        ++ String.concat ""
             (map (fun row => line (_prepare_row self row true)) data)
      /\ rows' = map (fun row => _prepare_row self row true) data
  end.
Proof.
  unfold write_rows. destruct (has_header self) eqn:Hh.
  - destruct rows as [|header rows]; [auto|].
    destruct (write_data_rows _ rows) as [self' rows'] eqn:E.
    pose proof (write_data_rows_outfile
                  (_write_row self (_prepare_row self header false)) rows) as Ho.
    pose proof (data_rows_returned
                  (_write_row self (_prepare_row self header false)) rows) as Hr.
    rewrite E in Ho, Hr. simpl in Ho, Hr. simpl. split.
    + rewrite Ho, string_app_assoc. reflexivity.
    + rewrite Hr. reflexivity.
  - destruct (write_data_rows self rows) as [self' rows'] eqn:E.
    pose proof (write_data_rows_outfile self rows) as Ho.
    pose proof (data_rows_returned self rows) as Hr.
    rewrite E in Ho, Hr. simpl in Ho, Hr. simpl. now split.
Qed.

End WriterExtra.

(** ** More on the steps of the pipeline *)

Section StepFacts.
Context {W : Type}.
Implicit Types st : M.state (W := W).
Import Py PyFacts.

#[local] Arguments Py.isdigit : simpl never.

(** What [period_re] accepts starts with four digits and a hyphen. *)
Lemma period_re_shape (s : string) :
  Re.matches period_re s = true ->
  exists (d0 d1 d2 d3 : ascii) (rest : string),
    s = String d0 (String d1 (String d2 (String d3 (String "-" rest))))
    /\ Forall (fun d => isdigit d = true) [d0; d1; d2; d3].
Proof.
  intros M. apply ReFacts.matches_sem in M as (s' & M). simpl in M.
  destruct M as (m1 & (n1 & Hn1 & I1) & m2 & -> & _).
  assert (n1 = 4%nat) as -> by lia. simpl in I1.
  destruct I1 as (? & (d0 & -> & H0) & ? & (d1 & -> & H1)
                  & ? & (d2 & -> & H2) & ? & (d3 & -> & H3) & ->).
  exists d0, d1, d2, d3, m2. split; [reflexivity|].
  repeat constructor; assumption.
Qed.

Lemma slice_to_4 (d0 d1 d2 d3 c : ascii) (rest : string) :
  slice_to (String d0 (String d1 (String d2 (String d3 (String c rest))))) 4
  = String d0 (String d1 (String d2 (String d3 ""))).
Proof.
  unfold slice_to, bound, len. cbn [String.length Z.ltb Z.compare].
  replace (Z.to_nat (Z.min 4 _)) with 4%nat by lia. reflexivity.
Qed.

(** A year of four digits is not a date. *)
Lemma year_not_period (d0 d1 d2 d3 : ascii) :
  Re.matches period_re (String d0 (String d1 (String d2 (String d3 ""))))
  = false.
Proof.
  destruct (Re.matches period_re _) eqn:M; [|reflexivity].
  apply period_re_shape in M as (? & ? & ? & ? & ? & E & _). discriminate.
Qed.

(** X10.  [_process_period_value] never fails.  A value of the form
    YYYY-MM or YYYY-MM-DD is cut to its four-digit year, with one INFO
    record; any other value is returned as it is, with no record.
    Either way the result is stable: processing it again returns it
    unchanged and logs nothing. *)
Theorem period_value_year (period_value : string) (row_num : Z) st :
  exists (year : string) (new : list Log.entry),
    _process_period_value period_value row_num st
    = (Ok year, ((st.1 ++ new)%list, st.2))
    /\ (if Re.matches period_re period_value
        then String.length year = 4%nat
             /\ Forall (fun d => isdigit d = true) (list_ascii_of_string year)
             /\ startswith year period_value = true
             /\ exists e, new = [e] /\ Log.lvl e = Log.INFO
        else year = period_value /\ new = [])
    /\ forall st', _process_period_value year row_num st' = (Ok year, st').
Proof.
  unfold _process_period_value.
  destruct (Re.matches period_re period_value) eqn:M.
  - destruct (period_re_shape _ M) as (d0 & d1 & d2 & d3 & rest & -> & Hd).
    rewrite slice_to_4.
    eexists. eexists [_]. split; [reflexivity|]. split.
    + repeat split.
      * exact Hd.
      * unfold startswith. simpl.
        repeat (destruct (ascii_dec _ _); [|congruence]). reflexivity.
      * eauto.
    + intros st'. rewrite year_not_period. reflexivity.
  - exists period_value, []. split; [now rewrite app_nil_r; destruct st|].
    split; [now split|]. intros st'. now rewrite M.
Qed.

(** [float(s)] raises nothing but [ValueError]. *)
Lemma of_string_cases (s : string) :
  (exists x, PyFloat.of_string s = Ok x)
  \/ (exists msg, PyFloat.of_string s = Raise (ValueError msg)).
Proof.
  unfold PyFloat.of_string.
  repeat match goal with
         | |- context [let (_, _) := ?x in _] => destruct x
         | |- context [if ?b then _ else _] => destruct b
         | |- context [match PyFloat.exponent ?r with _ => _ end] =>
             destruct (PyFloat.exponent r)
         | |- context [match ?a ++ ?b with _ => _ end] => destruct (a ++ b)
         end; eauto.
Qed.

(** X11.  [_process_euro_value] never raises and never touches the
    outside world: whatever the cell holds, it returns [NA] or the text
    of a number, logging at most two records. *)
Theorem euro_value_total (conv : PyFloat.localeconv) (euro_value : string)
    (round_monetary : bool) (row_num index : Z)
    (offsetting_mode : option string) st :
  exists (text : string) (new : list Log.entry),
    _process_euro_value conv euro_value round_monetary row_num index
      offsetting_mode st
    = (Ok text, ((st.1 ++ new)%list, st.2))
    /\ (text = "NA" \/ exists n, text = PyFloat.str n)
    /\ (length new <= 2)%nat.
Proof.
  unfold _process_euro_value, PyFloat.atof.
  destruct (has_value euro_value).
  2: { eexists; eexists [_]. split; [reflexivity|]. split; [now left | simpl; lia]. }
  cbn [negb].
  destruct (of_string_cases (PyFloat.delocalize conv euro_value))
    as [(x & ->) | (msg & ->)].
  2: { eexists; eexists [_]. split; [reflexivity|]. split; [now left | simpl; lia]. }
  set (euro := if PyFloat.is_integer x then _ else _).
  destruct (Re.matches _ (PyFloat.str euro)); [destruct round_monetary|];
    unfold M.bind, M.log, M.ret; cbn [fst snd];
    match goal with
    | |- context [PyFloat.eq_zero ?v] => destruct (PyFloat.eq_zero v)
    end;
    cbn [fst snd];
    rewrite <- ?app_assoc;
    (eexists; eexists; split;
     [try reflexivity; now rewrite app_nil_r; destruct st
     | split; [right; eauto | simpl; lia]]).
Qed.

(** X12.  The retry loop after a gateway timeout never raises, asks
    again at most [budget] times, logging one WARNING each time, and
    gives up with the timeout only after having used them all; an answer
    that is no timeout is passed on at once, without any request. *)
Theorem retry_crossref_bounded (env : collaborators W) (budget : nat)
    (doi : string) (first : crossref_response) st :
  exists (final : crossref_response) (new : list Log.entry) (w : W),
    retry_crossref env budget doi first st
    = (Ok final, ((st.1 ++ new)%list, w))
    /\ (length new <= budget)%nat
    /\ Forall (fun e => Log.lvl e = Log.WARNING) new
    /\ (forall msg, final = CrossrefError msg ->
        startswith "HTTPError: 504" msg = true -> length new = budget)
    /\ ((forall msg, first = CrossrefError msg ->
         startswith "HTTPError: 504" msg = false) ->
        final = first /\ new = [] /\ w = st.2).
Proof.
  revert first st. induction budget as [|budget IH]; intros first [log w0];
    cbn [fst snd].
  - assert (E : retry_crossref env 0 doi first (log, w0)
                = (Ok first, (log, w0))).
    { destruct first as [? ? ?|msg]; simpl; [reflexivity|].
      destruct (startswith _ msg); reflexivity. }
    rewrite E. exists first, [], w0. rewrite app_nil_r. repeat split; auto.
  - destruct first as [t p d|msg].
    + exists (CrossrefData t p d), [], w0. simpl. rewrite app_nil_r.
      repeat split; auto; try lia. discriminate.
    + simpl. destruct (startswith "HTTPError: 504" msg) eqn:E504.
      * unfold M.bind at 1. unfold M.log at 1. cbn [fst snd].
        unfold M.bind at 1. unfold M.call at 1. cbn [fst snd].
        destruct (get_metadata_from_crossref env doi w0) as [next w1].
        destruct (IH next ((log ++ [Log.mk Log.WARNING "%s, retrying..." [msg]])%list, w1))
          as (final & new & w & E & Hlen & Hall & Hfin & _).
        exists final, (Log.mk Log.WARNING "%s, retrying..." [msg] :: new), w.
        cbn [fst snd] in E. rewrite E. rewrite <- app_assoc. simpl.
        split; [reflexivity|]. split; [lia|]. split; [now constructor|].
        split.
        -- intros m Hf H5. rewrite (Hfin m Hf H5). reflexivity.
        -- intros Hno. specialize (Hno msg eq_refl). congruence.
      * exists (CrossrefError msg), [], w0. simpl. rewrite app_nil_r.
        repeat split; auto; try lia.
        intros m Hm H5. injection Hm as <-. congruence.
Qed.

End StepFacts.

(** ** The ISBN reverse lookup *)

Section IsbnLookup.
Context {W : Type}.
Implicit Types st : M.state (W := W).
Variable env : collaborators W.

Lemma isbn_lookup_unfold (current_row : gmap string string) (row_num : Z)
    (additional_isbns : list string) (isbn_handling : ISBNHandling.t) :
  _isbn_lookup env current_row row_num additional_isbns isbn_handling
  = (let! collected_isbns :=
       collect_loop current_row ["isbn"; "isbn_print"; "isbn_electronic"] [] in
     let collected_isbns :=
       (collected_isbns ++ filter (fun isbn => has_value isbn = true)
                                  additional_isbns)%list in
     match collected_isbns with
     | [] =>
         let! _ := M.log Log.WARNING
                     ("Line %s: Neither a DOI nor an ISBN found, assuming default record type "
                      ++ "journal_article") [PyFloat.str_int row_num] in
         M.ret (None, Some "journal_article")
     | _ =>
         let! query_isbns := query_loop isbn_handling collected_isbns [] in
         let! cr_res := find_book_dois_in_crossref env query_isbns in
         match cr_res with
         | QueryError error_msg =>
             let! _ := M.log Log.ERROR
                         "Line %s: Error while trying to look up ISBNs in Crossref: %s"
                         [PyFloat.str_int row_num; error_msg] in
             M.ret (None, Some "book_title")
         | FoundDois [] =>
             let! _ := M.log Log.INFO
                         "Line %s: Performed Crossref ISBN lookup, no DOI found."
                         [PyFloat.str_int row_num] in
             M.ret (None, Some "book_title")
         | FoundDois (doi :: (_ :: _) as dois) =>
             let! _ := M.log Log.WARNING
                         "Line %s: Performed Crossref ISBN lookup, more than one DOI found (%s) -> Used first in list."
                         (PyFloat.str_int row_num :: dois) in
             M.ret (Some doi, None)
         | FoundDois [doi] =>
             let! _ := M.log Log.INFO
                         "Line %s: Performed Crossref ISBN lookup, DOI found (%s)."
                         [PyFloat.str_int row_num; doi] in
             M.ret (Some doi, None)
         end
     end)%pipeline.
Proof. reflexivity. Qed.

(** The three ISBN fields of the row, when present: those with a value,
    in order. *)
Lemma collect_fields (current_row : gmap string string) (a b c : string) st :
  current_row !! "isbn" = Some a ->
  current_row !! "isbn_print" = Some b ->
  current_row !! "isbn_electronic" = Some c ->
  collect_loop current_row ["isbn"; "isbn_print"; "isbn_electronic"] [] st
  = (Ok (filter (fun v => has_value v = true) [a; b; c]), st).
Proof.
  intros Ha Hb Hc. unfold collect_loop, M.bind, M.lift, getitem, M.ret.
  rewrite Ha, Hb, Hc. rewrite !filter_cons, filter_nil.
  destruct (has_value a), (has_value b), (has_value c); reflexivity.
Qed.

(** A field that is missing from the row stops the lookup. *)
Lemma collect_fields_missing (current_row : gmap string string) st r st' :
  collect_loop current_row ["isbn"; "isbn_print"; "isbn_electronic"] [] st
  = (Ok r, st') ->
  exists a b c, current_row !! "isbn" = Some a
                /\ current_row !! "isbn_print" = Some b
                /\ current_row !! "isbn_electronic" = Some c.
Proof.
  unfold collect_loop, M.bind, M.lift, getitem, M.ret.
  destruct (current_row !! "isbn"); [|discriminate].
  destruct (current_row !! "isbn_print"); [|discriminate].
  destruct (current_row !! "isbn_electronic"); [|discriminate].
  intros _. repeat eexists.
Qed.


(** X13.  A row without any ISBN: [_isbn_lookup] finds no DOI, proposes
    the record type journal_article, logs one warning and sends no
    request. *)
Theorem isbn_lookup_without_isbn (current_row : gmap string string)
    (row_num : Z) (additional_isbns : list string)
    (isbn_handling : ISBNHandling.t) (a b c : string) st :
  current_row !! "isbn" = Some a ->
  current_row !! "isbn_print" = Some b ->
  current_row !! "isbn_electronic" = Some c ->
  Forall (fun v => has_value v = false) ([a; b; c] ++ additional_isbns)%list ->
  exists e : Log.entry,
    _isbn_lookup env current_row row_num additional_isbns isbn_handling st
    = (Ok (None, Some "journal_article"), ((st.1 ++ [e])%list, st.2))
    /\ Log.lvl e = Log.WARNING.
Proof.
  intros Ha Hb Hc Hall. rewrite isbn_lookup_unfold.
  apply Forall_app in Hall as [Hf Hadd].
  unfold M.bind at 1. rewrite (collect_fields _ a b c st Ha Hb Hc).
  assert (E : forall l, Forall (fun v => has_value v = false) l ->
                        filter (fun v => has_value v = true) l = []).
  { induction 1 as [|x l Hx _ IH]; [reflexivity|].
    rewrite filter_cons, IH. destruct (decide _); [congruence | reflexivity]. }
  rewrite (E _ Hf), (E _ Hadd). simpl.
  eexists. split; reflexivity.
Qed.


(** X15.  What [_isbn_lookup] can return: either a DOI and no record
    type, and then the DOI is the first one of a non-empty answer of the
    registry; or no DOI and one of the record types journal_article and
    book_title. *)
Theorem isbn_lookup_result (current_row : gmap string string) (row_num : Z)
    (additional_isbns : list string) (isbn_handling : ISBNHandling.t)
    st (r : option string * option string) st' :
  _isbn_lookup env current_row row_num additional_isbns isbn_handling st
  = (Ok r, st') ->
  r = (None, Some "journal_article")
  \/ r = (None, Some "book_title")
  \/ exists (doi : string) (isbns dois : list string) (w w' : W),
       r = (Some doi, None)
       /\ isbns <> []
       /\ crossref_isbn_query env isbns w = (FoundDois (doi :: dois), w').
Proof.
  rewrite isbn_lookup_unfold. unfold M.bind at 1.
  destruct (collect_loop _ _ _ st) as [[collected|e] st1]; [|discriminate].
  cbv zeta. destruct (_ ++ _)%list as [|x l].
  - intros H. injection H as <- _. now left.
  - unfold M.bind at 1.
    destruct (query_loop _ _ _ st1) as [[query|e] st2]; [|discriminate].
    unfold M.bind at 1. unfold find_book_dois_in_crossref.
    destruct query as [|q query]; [discriminate|].
    unfold M.call at 1.
    destruct (crossref_isbn_query env (q :: query) st2.2) as [res w'] eqn:Eq.
    destruct res as [[|doi [|doi2 dois]]|msg]; intros H; injection H as <- _.
    + now right; left.
    + right; right. exists doi, (q :: query), [], st2.2, w'.
      repeat split; [discriminate | exact Eq].
    + right; right. exists doi, (q :: query), (doi2 :: dois), st2.2, w'.
      repeat split; [discriminate | exact Eq].
    + now right; left.
Qed.

End IsbnLookup.

Lemma isbn_lookup_without_isbn_witness :
  exists e : Log.entry,
    _isbn_lookup Examples.registries
      {["isbn" := "NA"; "isbn_print" := "NA"; "isbn_electronic" := ""]}
      1 [] Examples.range_file ([], tt)
    = (Ok (None, Some "journal_article"), (([] ++ [e])%list, tt))
    /\ Log.lvl e = Log.WARNING.
Proof.
  apply (isbn_lookup_without_isbn Examples.registries
           {["isbn" := "NA"; "isbn_print" := "NA"; "isbn_electronic" := ""]}
           1 [] Examples.range_file "NA" "NA" "" ([], tt));
    try reflexivity.
  repeat constructor.
Defined.


Lemma isbn_lookup_result_witness :
  (Some Examples.found_doi, @None string) = (None, Some "journal_article")
  \/ (Some Examples.found_doi, @None string) = (None, Some "book_title")
  \/ exists (doi : string) (isbns dois : list string) (w w' : unit),
       (Some Examples.found_doi, @None string) = (Some doi, None)
       /\ isbns <> []
       /\ crossref_isbn_query Examples.registries isbns w
          = (FoundDois (doi :: dois), w').
Proof.
  apply (isbn_lookup_result Examples.registries
           {["isbn" := "9783161484100"; "isbn_print" := "NA";
             "isbn_electronic" := "NA"]}
           1 [] Examples.range_file ([], tt) (Some Examples.found_doi, None)
           ([Log.mk Log.INFO
               "Line %s: Performed Crossref ISBN lookup, DOI found (%s)."
               ["1"; Examples.found_doi]], tt)).
  vm_compute. reflexivity.
Defined.

(** ** The shape of what [process_row] returns *)

Section RowShape.
Context {W : Type}.
Implicit Types st : M.state (W := W).
Variable env : collaborators W.
Variable maps : mappings.t.
Variable conv : PyFloat.localeconv.
Variable cfg : settings.

Lemma post_ret {A} (P : A -> Prop) (a : A) : P a -> post (W := W) P (M.ret a).
Proof. intros H st v st' E. injection E as <- _. exact H. Qed.

Lemma post_raise {A} (P : A -> Prop) (e : exn) : post (W := W) P (M.raise e).
Proof. intros st v st' E. discriminate. Qed.

Lemma post_seq {A B} (Q : A -> Prop) (P : B -> Prop) (m : M.t (W := W) A)
    (k : A -> M.t B) :
  post Q m -> (forall a, Q a -> post P (k a)) -> post P (M.bind m k).
Proof.
  intros Hm Hk st v st' E. unfold M.bind in E.
  destruct (m st) as [[a|e] st1] eqn:Em; [|discriminate].
  exact (Hk a (Hm _ _ _ Em) _ _ _ E).
Qed.

Lemma post_bind {A B} (P : B -> Prop) (m : M.t (W := W) A) (k : A -> M.t B) :
  (forall a, post P (k a)) -> post P (M.bind m k).
Proof.
  intros Hk. apply (post_seq (fun _ => True)); [easy | auto].
Qed.

Lemma post_lift {A} (r : result A) : post (W := W) (fun a => r = Ok a) (M.lift r).
Proof. intros st v st' E. injection E as -> _. reflexivity. Qed.

Ltac post_step shape :=
  first
    [ shape
    | apply post_raise
    | apply post_bind; intros ?
    | match goal with
      | |- post _ (let (_, _) := ?x in _) => destruct x
      | |- post _ (if ?b then _ else _) => destruct b
      | |- post _ (match ?x with _ => _ end) => destruct x
      end ].

(** [finish] returns the list [row] it was given and one value for each
    column of the schema of the record type. *)
Lemma finish_shape (row : list string) (current_row : gmap string string)
    (record_type : option string) :
  post (W := W) (well_shaped cfg (length row)) (finish cfg row current_row record_type).
Proof.
  unfold finish.
  assert (Hloop : forall cr fields,
             post (fun res => length res = length fields)
                  ((fix loop (fields : list string)
                      : M.t (W := W) (list string) :=
                      match fields with
                      | field :: fields' =>
                          M.bind (M.lift (getitem cr field))
                            (fun v => M.bind (loop fields')
                                        (fun vs => M.ret (v :: vs)))
                      | [] => M.ret []
                      end) fields)).
  { intros cr fields. induction fields as [|f fields IH].
    - now apply post_ret.
    - apply post_bind; intros v.
      apply (post_seq (fun res => length res = length fields)); [exact IH|].
      intros vs Hvs. apply post_ret. simpl. now rewrite Hvs. }
  assert (Htail : forall cr (Q : string -> Prop) (m : M.t (W := W) string),
             post Q m ->
             (forall t, Q t ->
                        forall mode, offsetting_mode cfg = Some mode ->
                                     mode <> "" ->
                                     t = "journal_article_transagree") ->
             post (W := W) (well_shaped cfg (length row))
               (M.bind m (fun record_type =>
                  M.bind (M.lift (assoc COLUMN_SCHEMAS record_type))
                    (fun schema =>
                       M.bind ((fix loop (fields : list string)
                                  : M.t (W := W) (list string) :=
                                  match fields with
                                  | field :: fields' =>
                                      M.bind (M.lift (getitem cr field))
                                        (fun v => M.bind (loop fields')
                                                    (fun vs => M.ret (v :: vs)))
                                  | [] => M.ret []
                                  end) schema)
                         (fun result =>
                            M.ret (row, Enriched record_type result)))))).
  { intros cr Q m Hm HQ. apply (post_seq Q); [exact Hm|]. intros t Ht.
    eapply post_seq; [apply post_lift|]. intros schema Hs.
    eapply post_seq; [apply Hloop|]. intros res Hres. apply post_ret.
    split; [reflexivity|]. exists t, res, schema. repeat split; auto.
    exact (HQ t Ht). }
  destruct (offsetting_mode cfg) as [mode|] eqn:Em.
  - destruct (String.eqb mode "") eqn:E; cbn [negb].
    + apply String.eqb_eq in E. subst mode.
      apply (Htail _ (fun _ => True)); [easy|].
      intros t _ mode' Hm Hne. congruence.
    + apply (Htail _ (fun t => t = "journal_article_transagree"));
        [now apply post_ret | auto].
  - apply (Htail _ (fun _ => True)); [easy|].
    intros t _ mode' Hm. discriminate.
Qed.

Lemma stage_book_shape (row : list string) (current_row : gmap string string)
    (record_type : option string) :
  post (W := W) (well_shaped cfg (length row))
       (stage_book cfg row current_row record_type).
Proof.
  unfold stage_book. repeat post_step ltac:(apply finish_shape).
Qed.

Lemma stage_doaj_shape (row : list string) (current_row : gmap string string)
    (record_type : option string) :
  post (W := W) (well_shaped cfg (length row))
       (stage_doaj cfg row current_row record_type).
Proof.
  unfold stage_doaj. repeat post_step ltac:(apply stage_book_shape).
Qed.

Lemma stage_pubmed_shape (row : list string)
    (current_row : gmap string string) (record_type : option string)
    (doi : string) :
  post (W := W) (well_shaped cfg (length row))
       (stage_pubmed env cfg row current_row record_type doi).
Proof.
  unfold stage_pubmed. repeat post_step ltac:(apply stage_doaj_shape).
Qed.

(** Writing the DOI into the list keeps its length. *)
Lemma list_set_length {A} (l l' : list A) (i : option Z) (x : A) :
  list_set l i x = Ok l' -> length l' = length l.
Proof.
  unfold list_set. destruct i as [i|]; [|discriminate].
  destruct (list_index l i); [|discriminate].
  intros E. injection E as <-. apply length_insert.
Qed.

Section Restart.
Variable restart : list string -> M.t (W := W) outcome.
Variable row : list string.
Hypothesis restart_shape :
  forall row', length row' = length row ->
               post (W := W) (well_shaped cfg (length row)) (restart row').

Lemma integrate_shape (found_doi : string) :
  post (W := W) (well_shaped cfg (length row))
       (integrate_and_restart cfg restart row found_doi).
Proof.
  unfold integrate_and_restart. apply post_bind; intros _.
  apply post_bind; intros column.
  eapply post_seq; [apply post_lift|]. intros row' Hset.
  apply restart_shape. exact (list_set_length _ _ _ _ Hset).
Qed.

Lemma stage_doi_shape (retries : Z) (current_row : gmap string string)
    (record_type : option string) (doi : string) :
  post (W := W) (well_shaped cfg (length row))
       (stage_doi env maps cfg restart retries row current_row record_type doi).
Proof.
  unfold stage_doi.
  repeat post_step ltac:(first [ apply stage_pubmed_shape
                               | apply stage_doaj_shape
                               | apply integrate_shape ]).
Qed.

Lemma process_row_body_shape (retries : Z) :
  Z.of_nat (length row) = num_required_columns cfg ->
  post (W := W) (well_shaped cfg (length row))
       (process_row_body env maps conv cfg restart retries row).
Proof.
  intros Hn. unfold process_row_body.
  apply Z.eqb_eq in Hn. rewrite Hn. cbn [negb].
  repeat post_step ltac:(first [ apply stage_doi_shape
                               | apply integrate_shape ]).
Qed.

End Restart.

(** X16.  Whatever [process_row] returns has the right shape.  The list
    [row] keeps its length.  A row of the wrong length comes back
    itself; every other row comes back enriched, with a record type that
    has a schema in [COLUMN_SCHEMAS] and exactly one value per column of
    that schema, and in an offsetting file the record type is
    journal_article_transagree whatever the registries said. *)
Theorem process_row_result_shape (depth : nat) (retries : Z)
    (row : list string) st (out : outcome) st' :
  process_row env maps conv cfg depth retries row st = (Ok out, st') ->
  length out.1 = length row
  /\ match out.2 with
     | Unchanged row' =>
         row' = row /\ out.1 = row
         /\ Z.of_nat (length row) <> num_required_columns cfg
     | Enriched record_type result =>
         Z.of_nat (length row) = num_required_columns cfg
         /\ exists schema : list string,
              assoc COLUMN_SCHEMAS record_type = Ok schema
              /\ length result = length schema
              /\ forall mode, offsetting_mode cfg = Some mode -> mode <> "" ->
                              record_type = "journal_article_transagree"
     end.
Proof.
  revert retries row st out st'.
  induction depth as [|depth IH]; intros retries row st out st';
    rewrite process_row_unfold.
  - destruct (Z.eq_dec (Z.of_nat (length row)) (num_required_columns cfg))
      as [Hn|Hn].
    + intros E.
      destruct (process_row_body_shape (fun _ => M.raise RecursionError) row
                  (fun _ _ => post_raise _ _) retries Hn _ _ _ E)
        as (Hl & t & res & schema & -> & Hs & Hr & Ho).
      split; [exact Hl|]. split; [exact Hn|]. eauto.
    + unfold process_row_body. apply Z.eqb_neq in Hn. rewrite Hn. cbn [negb].
      intros E. injection E as <- _. apply Z.eqb_neq in Hn. simpl. auto.
  - destruct (Z.eq_dec (Z.of_nat (length row)) (num_required_columns cfg))
      as [Hn|Hn].
    + intros E.
      assert (Hrestart : forall row', length row' = length row ->
                post (W := W) (well_shaped cfg (length row))
                     (fun st => process_row env maps conv cfg depth 3 row' st)).
      { intros row' Hl' st1 out1 st1' E1.
        destruct (IH _ _ _ _ _ E1) as [Hl1 Hout1]. rewrite Hl' in *.
        split; [exact Hl1|].
        destruct (out1.2) as [x|t res].
        - destruct Hout1 as (_ & _ & Hne). contradiction.
        - destruct Hout1 as (_ & schema & Hs & Hr & Ho).
          exists t, res, schema. auto. }
      destruct (process_row_body_shape _ row Hrestart retries Hn _ _ _ E)
        as (Hl & t & res & schema & -> & Hs & Hr & Ho).
      split; [exact Hl|]. split; [exact Hn|]. eauto.
    + unfold process_row_body. apply Z.eqb_neq in Hn. rewrite Hn. cbn [negb].
      intros E. injection E as <- _. apply Z.eqb_neq in Hn. simpl. auto.
Qed.

End RowShape.

Lemma process_row_result_shape_witness :
  length MoreExamples.enriched.1 = length Examples.row_without_doi
  /\ match MoreExamples.enriched.2 with
     | Unchanged row' =>
         row' = Examples.row_without_doi
         /\ MoreExamples.enriched.1 = Examples.row_without_doi
         /\ Z.of_nat (length Examples.row_without_doi)
            <> num_required_columns Examples.cfg
     | Enriched record_type result =>
         Z.of_nat (length Examples.row_without_doi)
         = num_required_columns Examples.cfg
         /\ exists schema : list string,
              assoc COLUMN_SCHEMAS record_type = Ok schema
              /\ length result = length schema
              /\ forall mode, offsetting_mode Examples.cfg = Some mode ->
                              mode <> "" ->
                              record_type = "journal_article_transagree"
     end.
Proof.
  apply (process_row_result_shape Examples.good_registries
           Examples.no_mappings PyFloat.C_locale Examples.cfg 1 3
           Examples.row_without_doi ([], tt) MoreExamples.enriched
           (MoreExamples.enriched_run.2)).
  vm_compute. reflexivity.
Defined.

(** ** The values taken over from Crossref, and the hybrid status *)

Section CrossrefResults.
Context {W : Type}.
Implicit Types st : M.state (W := W).
Variable maps : mappings.t.
Import Py PyFacts.

#[local] Arguments Py.isdigit : simpl never.

(** What [bare_issn_re] accepts: seven digits, a check symbol and at most
    a final newline. *)
Lemma bare_issn_shape (s : string) :
  Re.matches bare_issn_re s = true ->
  exists d0 d1 d2 d3 d4 d5 d6 ck tl,
    s = String d0 (String d1 (String d2 (String d3
          (String d4 (String d5 (String d6 (String ck tl)))))))
    /\ Forall (fun d => isdigit d = true) [d0; d1; d2; d3; d4; d5; d6]
    /\ is_check_symbol ck = true
    /\ Re.at_end tl = true.
Proof.
  intros M. apply ReFacts.matches_sem in M as (s' & M). simpl in M.
  destruct M as (m1 & (n1 & Hn1 & I1) & m2 & (ck & -> & Hck) & <- & Hend).
  assert (n1 = 7%nat) as -> by lia. simpl in I1.
  destruct I1 as (? & (d0 & -> & H0) & ? & (d1 & -> & H1)
                  & ? & (d2 & -> & H2) & ? & (d3 & -> & H3)
                  & ? & (d4 & -> & H4) & ? & (d5 & -> & H5)
                  & ? & (d6 & -> & H6) & ->).
  exists d0, d1, d2, d3, d4, d5, d6, ck, m2.
  split; [reflexivity|]. split; [repeat constructor; assumption|].
  split; assumption.
Qed.

Lemma slice_from_4 (d0 d1 d2 d3 c : ascii) (rest : string) :
  slice_from (String d0 (String d1 (String d2 (String d3 (String c rest))))) 4
  = String c rest.
Proof.
  unfold slice_from, bound, len. cbn [String.length Z.ltb Z.compare].
  replace (Z.to_nat (Z.min 4 _)) with 4%nat by lia. reflexivity.
Qed.

(** A well-formed ISSN has its hyphen where [bare_issn_re] wants a
    digit. *)
Lemma wellformed_not_bare (s : string) :
  is_wellformed_ISSN s = true -> Re.matches bare_issn_re s = false.
Proof.
  intros Hwf. destruct (Re.matches bare_issn_re s) eqn:M; [|reflexivity].
  destruct (wellformed_inv s Hwf)
    as (d0 & d1 & d2 & d3 & d4 & d5 & d6 & ck & tl & -> & _).
  destruct (bare_issn_shape _ M)
    as (e0 & e1 & e2 & e3 & e4 & e5 & e6 & ek & tl' & E & Hall & _).
  unfold issn_shape in E. injection E as -> -> -> -> <- _.
  repeat match goal with
         | H : Forall _ (_ :: _) |- _ =>
             let Hd := fresh "Hd" in apply Forall_cons_1 in H as [Hd H]
         end.
  discriminate.
Qed.

(** Taking the hyphen out of a well-formed ISSN leaves its eight
    symbols. *)
Lemma ISSN_no_hyphen_parts (d0 d1 d2 d3 d4 d5 d6 ck : ascii) (tl : string) :
  Forall (fun d => isdigit d = true) [d0; d1; d2; d3; d4; d5; d6] ->
  is_check_symbol ck = true ->
  Re.at_end tl = true ->
  replace hyphen "" (issn_shape d0 d1 d2 d3 d4 d5 d6 ck tl)
  = String d0 (String d1 (String d2 (String d3
      (String d4 (String d5 (String d6 (String ck tl))))))).
Proof.
  intros Hall Hck He.
  repeat match goal with
         | H : Forall _ (_ :: _) |- _ =>
             let Hd := fresh "Hd" in apply Forall_cons_1 in H as [Hd H]
         end.
  assert (Hk : Ascii.eqb ck hyphen = false).
  { unfold is_check_symbol in Hck. apply orb_prop in Hck as [Hck|Hck].
    - now apply digit_not_hyphen.
    - simpl in Hck. repeat (apply orb_prop in Hck as [Hck|Hck]);
        try discriminate; apply Ascii.eqb_eq in Hck; now subst. }
  assert (Ht : replace hyphen "" tl = tl).
  { destruct (ReFacts.at_end_cases tl He) as [-> | ->]; reflexivity. }
  unfold issn_shape. cbn [replace].
  rewrite (digit_not_hyphen d0), (digit_not_hyphen d1), (digit_not_hyphen d2),
    (digit_not_hyphen d3), (digit_not_hyphen d4), (digit_not_hyphen d5),
    (digit_not_hyphen d6), Hk, Ht by assumption.
  reflexivity.
Qed.

(** X17.  An ISSN that Crossref delivers without its hyphen is repaired:
    for the three ISSN keys, a value of seven digits and a check symbol
    comes back well-formed, with the hyphen as the only change and one
    WARNING; every other value, a well-formed ISSN in particular, comes
    back as it is without a record; and the result is stable under a
    second pass. *)
Theorem crossref_issn_hyphen_fix (current_row : gmap string string)
    (row_num : Z) (prefix : option string) (key value : string) st :
  elem key ["issn"; "issn_print"; "issn_electronic"] = true ->
  exists (out : string) (new : list Log.entry),
    _process_crossref_results maps current_row row_num prefix key (Some value) st
    = (Ok out, ((st.1 ++ new)%list, st.2))
    /\ (if Re.matches bare_issn_re value
        then is_wellformed_ISSN out = true
             /\ replace hyphen "" out = value
             /\ exists e, new = [e] /\ Log.lvl e = Log.WARNING
        else out = value /\ new = [])
    /\ (is_wellformed_ISSN value = true -> out = value /\ new = [])
    /\ forall st2 : M.state (W := W),
         _process_crossref_results maps current_row row_num prefix key
           (Some out) st2
         = (Ok out, st2).
Proof.
  intros Hkey.
  assert (Hk : String.eqb key "journal_full_title" = false
               /\ String.eqb key "publisher" = false).
  { unfold elem in Hkey. simpl in Hkey.
    repeat (apply orb_prop in Hkey as [Hkey|Hkey]);
      try discriminate; apply String.eqb_eq in Hkey; subst key; now split. }
  destruct Hk as [Hk1 Hk2].
  unfold _process_crossref_results. rewrite Hk1, Hk2, Hkey.
  destruct (Re.matches bare_issn_re value) eqn:M.
  - destruct (bare_issn_shape _ M)
      as (d0 & d1 & d2 & d3 & d4 & d5 & d6 & ck & tl & -> & Hall & Hck & He).
    rewrite slice_to_4, slice_from_4.
    assert (Hwf : is_wellformed_ISSN (issn_shape d0 d1 d2 d3 d4 d5 d6 ck tl)
                  = true) by now apply wellformed_shape.
    change (String d0 (String d1 (String d2 (String d3 "")))
            ++ "-" ++ String d4 (String d5 (String d6 (String ck tl))))
      with (issn_shape d0 d1 d2 d3 d4 d5 d6 ck tl).
    eexists. eexists [_]. split; [reflexivity|]. split; [split; [|split]|split].
    + exact Hwf.
    + pose proof (ISSN_no_hyphen_parts d0 d1 d2 d3 d4 d5 d6 ck tl Hall Hck He)
        as Hh. exact Hh.
    + eauto.
    + intros Hv. apply wellformed_not_bare in Hv. congruence.
    + intros st2. rewrite (wellformed_not_bare _ Hwf). reflexivity.
  - exists value, []. split; [now rewrite app_nil_r; destruct st|].
    split; [now split|]. split; [now split|].
    intros st2. now rewrite M.
Qed.

(** What the whitelist lookup returns is a key of the table whose list
    holds the cleaned input. *)
Lemma whitelist_sound (hybrid_status boolean_value : string) :
  get_hybrid_status_from_whitelist maps hybrid_status = Some boolean_value ->
  exists whitelist,
    In (boolean_value, whitelist) (mappings.HYBRID_STATUS maps)
    /\ elem (PyFloat.lower (strip hybrid_status)) whitelist = true.
Proof.
  unfold get_hybrid_status_from_whitelist.
  induction (mappings.HYBRID_STATUS maps) as [|[b wl] items IH];
    [discriminate|].
  destruct (elem _ wl) eqn:E.
  - intros H. injection H as <-. exists wl. split; [now left | exact E].
  - intros H. destruct (IH H) as (wl' & Hin & He).
    exists wl'. split; [now right | exact He].
Qed.

(** X18.  [_process_hybrid_status] never fails, logs at most one record
    and asks no registry.  When it logs no error, what it returns is a
    key of the table [HYBRID_STATUS] whose whitelist holds the input,
    stripped and in lower case; when it logs an error, it returns NA for
    an empty cell and the input otherwise; when it logs nothing, it
    returns the input. *)
Theorem hybrid_status_total (hybrid_status : string) (row_num : Z) st :
  exists (out : string) (new : list Log.entry),
    _process_hybrid_status maps hybrid_status row_num st
    = (Ok out, ((st.1 ++ new)%list, st.2))
    /\ (length new <= 1)%nat
    /\ (Forall (fun e => Log.is_error e = false) new ->
        exists whitelist,
          In (out, whitelist) (mappings.HYBRID_STATUS maps)
          /\ elem (PyFloat.lower (strip hybrid_status)) whitelist = true)
    /\ (Exists (fun e => Log.is_error e = true) new ->
        out = if has_value hybrid_status then hybrid_status else "NA")
    /\ (new = [] -> out = hybrid_status).
Proof.
  unfold _process_hybrid_status.
  destruct (has_value hybrid_status) eqn:Hv; cbn [negb].
  - destruct (get_hybrid_status_from_whitelist maps hybrid_status)
      as [norm_value|] eqn:Hw.
    + apply whitelist_sound in Hw as (whitelist & Hin & Hel).
      destruct (String.eqb norm_value hybrid_status) eqn:E; cbn [negb].
      * apply String.eqb_eq in E. subst norm_value.
        exists hybrid_status, []. split; [now rewrite app_nil_r; destruct st|].
        split; [simpl; lia|]. split; [eauto|].
        split; [intros H; inversion H | reflexivity].
      * eexists. eexists [_]. split; [reflexivity|].
        split; [simpl; lia|]. split; [eauto|].
        split; [|discriminate].
        intros H. inversion H as [? ? He|? ? He]; [discriminate He | inversion He].
    + eexists. eexists [_]. split; [reflexivity|].
      split; [simpl; lia|]. split.
      { intros H. inversion H as [|? ? He]. discriminate He. }
      split; [reflexivity | discriminate].
  - eexists. eexists [_]. split; [reflexivity|].
    split; [simpl; lia|]. split.
    { intros H. inversion H as [|? ? He]. discriminate He. }
    split; [reflexivity | discriminate].
Qed.

Lemma opt_elem_In (prefix : option string) (l : list string) :
  opt_elem prefix l = true <-> exists p, prefix = Some p /\ In p l.
Proof.
  destruct prefix as [p|]; simpl.
  - unfold elem. rewrite existsb_exists. split.
    + intros (y & Hy & E). apply String.eqb_eq in E. subst y. eauto.
    + intros (p' & Hp & Hin). injection Hp as <-.
      exists p. split; [exact Hin | apply String.eqb_refl].
  - split; [discriminate | intros (p & H & _); discriminate].
Qed.

Lemma opt_elem_not_In (prefix : option string) (l : list string) (p : string) :
  opt_elem prefix l = false -> prefix = Some p -> ~ In p l.
Proof.
  intros E Hp Hin.
  assert (H : opt_elem prefix l = true) by (apply opt_elem_In; eauto).
  congruence.
Qed.

(** X19.  The publisher delivered by Crossref.  The year of the row is
    read with [int]: a blank period makes the call fail with
    [ValueError].  From 2015 on, and for every publisher whose unified
    name is not Springer Nature, the unified name is returned.  Before
    2015 the name Springer Nature is replaced by the name that the
    prefix stands for: Springer Science + Business Media for the three
    Springer prefixes, Nature Publishing Group for the two Nature
    prefixes, each with a warning; with any other prefix, or none, it is
    returned together with an error record. *)
Theorem crossref_publisher (current_row : gmap string string) (row_num : Z)
    (prefix : option string) (value period : string) st :
  current_row !! "period" = Some period ->
  (strip period = "" ->
   exists (msg : string) (log : list Log.entry),
     _process_crossref_results maps current_row row_num prefix "publisher"
       (Some value) st
     = (Raise (ValueError msg), (log, st.2)))
  /\ (forall year : Z,
        Py.int period = Ok year ->
        exists (out : string) (new : list Log.entry),
          _process_crossref_results maps current_row row_num prefix
            "publisher" (Some value) st
          = (Ok out, ((st.1 ++ new)%list, st.2))
          /\ (length new <= 2)%nat
          /\ (2015 <= year -> out = get_unified_publisher_name maps value)
          /\ (year < 2015 -> out = "Springer Nature" ->
              exists e, last new = Some e /\ Log.lvl e = Log.ERROR)
          /\ (out = get_unified_publisher_name maps value
              \/ out = "Springer Science + Business Media"
              \/ out = "Nature Publishing Group")
          /\ (get_unified_publisher_name maps value <> "Springer Nature" ->
              out = get_unified_publisher_name maps value)
          /\ (year < 2015 ->
              get_unified_publisher_name maps value = "Springer Nature" ->
              (forall p, prefix = Some p ->
                 In p ["Springer (Biomed Central Ltd.)"; "Springer-Verlag";
                       "Springer - Psychonomic Society"] ->
                 out = "Springer Science + Business Media"
                 /\ exists e, last new = Some e
                              /\ Log.lvl e = Log.WARNING)
              /\ (forall p, prefix = Some p ->
                    In p ["Nature Publishing Group";
                          "Nature Publishing Group - Macmillan Publishers"] ->
                    out = "Nature Publishing Group"
                    /\ exists e, last new = Some e
                                 /\ Log.lvl e = Log.WARNING)
              /\ ((forall p, prefix = Some p ->
                     ~ In p ["Springer (Biomed Central Ltd.)";
                             "Springer-Verlag";
                             "Springer - Psychonomic Society";
                             "Nature Publishing Group";
                             "Nature Publishing Group - Macmillan Publishers"]) ->
                  out = "Springer Nature"
                  /\ exists e, last new = Some e
                               /\ Log.lvl e = Log.ERROR))).
Proof.
  intros Hp. unfold _process_crossref_results.
  cbn [String.eqb Ascii.eqb Bool.eqb andb].
  set (unified := get_unified_publisher_name maps value).
  unfold getitem. rewrite Hp. split.
  - intros Hblank.
    assert (E : exists msg, Py.int period = Raise (ValueError msg)).
    { unfold Py.int. rewrite Hblank. eauto. }
    destruct E as (msg & E). exists msg. destruct st as [l w].
    unfold M.bind at 1.
    destruct (negb (String.eqb unified value));
      unfold M.log, M.ret, M.bind, M.lift; rewrite E; cbn [fst snd]; eauto.
  - intros year Hy. unfold M.bind, M.log, M.ret, M.lift. rewrite Hy.
    destruct st as [l w]. cbn [fst snd].
    destruct (year <? 2015) eqn:Ey;
      [apply Z.ltb_lt in Ey | apply Z.ltb_ge in Ey]; cbn [andb].
    + destruct (String.eqb unified "Springer Nature") eqn:Es.
      * apply String.eqb_eq in Es.
        destruct (opt_elem prefix ["Springer (Biomed Central Ltd.)";
                                   "Springer-Verlag";
                                   "Springer - Psychonomic Society"]) eqn:E1;
          [|destruct (opt_elem prefix
                        ["Nature Publishing Group";
                         "Nature Publishing Group - Macmillan Publishers"])
              eqn:E2].
        -- (* a Springer prefix *)
           destruct (negb (String.eqb unified value)); cbn [fst snd];
             rewrite <- ?app_assoc;
             (eexists; eexists; split; [reflexivity|]);
             (split; [simpl; lia|]); (split; [lia|]);
             (split; [intros _ Hout; discriminate Hout|]);
             (split; [auto|]); (split; [intros Hne; contradiction|]);
             intros _ _; (split; [|split]).
           all: try (intros p Hpre Hin; split;
                     [reflexivity | eexists; split; reflexivity]).
           all: try (intros p Hpre Hin; exfalso; subst prefix;
                     simpl in E1, Hin;
                     destruct Hin as [<-|[<-|[]]]; vm_compute in E1;
                     discriminate E1).
           all: intros Hnot; exfalso;
             apply opt_elem_In in E1 as (p & Hpre & Hin);
             apply (Hnot p Hpre); simpl in Hin |- *; tauto.
        -- (* a Nature prefix *)
           destruct (negb (String.eqb unified value)); cbn [fst snd];
             rewrite <- ?app_assoc;
             (eexists; eexists; split; [reflexivity|]);
             (split; [simpl; lia|]); (split; [lia|]);
             (split; [intros _ Hout; discriminate Hout|]);
             (split; [auto|]); (split; [intros Hne; contradiction|]);
             intros _ _; (split; [|split]).
           all: try (intros p Hpre Hin; split;
                     [reflexivity | eexists; split; reflexivity]).
           all: try (intros p Hpre Hin; exfalso;
                     exact (opt_elem_not_In _ _ p E1 Hpre Hin)).
           all: intros Hnot; exfalso;
             apply opt_elem_In in E2 as (p & Hpre & Hin);
             apply (Hnot p Hpre); simpl in Hin |- *; tauto.
        -- (* no known prefix *)
           destruct (negb (String.eqb unified value)); cbn [fst snd];
             rewrite <- ?app_assoc;
             (eexists; eexists; split; [reflexivity|]);
             (split; [simpl; lia|]); (split; [lia|]);
             (split; [intros _ _; eexists; split; reflexivity|]);
             (split; [auto|]); (split; [intros Hne; contradiction|]);
             intros _ _; (split; [|split]).
           all: try (intros p Hpre Hin; exfalso;
                     exact (opt_elem_not_In _ _ p E1 Hpre Hin)).
           all: try (intros p Hpre Hin; exfalso;
                     exact (opt_elem_not_In _ _ p E2 Hpre Hin)).
           all: intros _; split; [exact Es | eexists; split; reflexivity].
      * destruct (negb (String.eqb unified value)); cbn [fst snd];
          [eexists; eexists [_] | exists unified, []; rewrite app_nil_r];
          (split; [reflexivity|]);
          (split; [simpl; lia|]); (split; [reflexivity|]);
          (split; [intros _ Hout; apply String.eqb_neq in Es; contradiction|]);
          (split; [auto|]); (split; [reflexivity|]);
          intros _ Hu; apply String.eqb_neq in Es; contradiction.
    + destruct (negb (String.eqb unified value)); cbn [fst snd];
        [eexists; eexists [_] | exists unified, []; rewrite app_nil_r];
        (split; [reflexivity|]);
        (split; [simpl; lia|]); (split; [reflexivity|]);
        (split; [intros Hlt; lia|]);
        (split; [auto|]); (split; [reflexivity|]);
        intros Hlt; lia.
Qed.

End CrossrefResults.

Lemma crossref_issn_hyphen_fix_witness :
  exists (out : string) (new : list Log.entry),
    _process_crossref_results Examples.no_mappings MoreExamples.row_2012 1
      None "issn" (Some "02624079") ([], tt)
    = (Ok out, (([] ++ new)%list, tt))
    /\ (if Re.matches bare_issn_re "02624079"
        then is_wellformed_ISSN out = true
             /\ Py.replace Py.hyphen "" out = "02624079"
             /\ exists e, new = [e] /\ Log.lvl e = Log.WARNING
        else out = "02624079" /\ new = [])
    /\ (is_wellformed_ISSN "02624079" = true -> out = "02624079" /\ new = [])
    /\ forall st2 : M.state (W := unit),
         _process_crossref_results Examples.no_mappings MoreExamples.row_2012
           1 None "issn" (Some out) st2
         = (Ok out, st2).
Proof.
  apply (crossref_issn_hyphen_fix Examples.no_mappings MoreExamples.row_2012
           1 None "issn" "02624079" ([], tt)).
  reflexivity.
Defined.

Lemma crossref_publisher_witness :
  exists (out : string) (new : list Log.entry),
    _process_crossref_results Examples.no_mappings MoreExamples.row_2012 1
      (Some "Springer-Verlag") "publisher" (Some "Springer Nature") ([], tt)
    = (Ok out, (([] ++ new)%list, tt))
    /\ out = "Springer Science + Business Media"
    /\ exists e, last new = Some e /\ Log.lvl e = Log.WARNING.
Proof.
  destruct (proj2 (crossref_publisher Examples.no_mappings
                     MoreExamples.row_2012 1 (Some "Springer-Verlag")
                     "Springer Nature" "2012" ([], tt) eq_refl)
              2012 eq_refl)
    as (out & new & E & _ & _ & _ & _ & _ & Hprefix).
  exists out, new. split; [exact E|].
  apply (proj1 (Hprefix ltac:(lia) eq_refl) "Springer-Verlag" eq_refl).
  simpl. auto.
Defined.

(** ** The DOAB lookup *)

Section DOAB.
Context {W : Type}.
Implicit Types st : M.state (W := W).
Import ISBNHandling Py PyFacts.

(** X20.  The DOAB lookup does not depend on the hyphens: where
    [split_isbn] succeeds on an unsplit ISBN of 13 characters, looking
    up the unsplit ISBN and looking up its split form give the same
    answer, which is read from [isbn_map] at the split form. *)
Theorem doab_lookup_hyphens (self : DOABAnalysis.t) (unsplit : string)
    (sr : split_result) :
  String.length unsplit = 13%nat ->
  split_isbn (DOABAnalysis.isbn_handling self) unsplit = Ok sr ->
  success sr = true ->
  DOABAnalysis.lookup self unsplit = DOABAnalysis.lookup self (value sr)
  /\ (DOABAnalysis.isbn_map self !! value sr = None ->
      DOABAnalysis.lookup self unsplit = Ok None)
  /\ (forall found,
        DOABAnalysis.lookup self unsplit = Ok (Some found) ->
        exists line,
          DOABAnalysis.isbn_map self !! value sr = Some line
          /\ found = [("book_title", default "" (line !! "Title"));
                      ("publisher", default "" (line !! "Publisher"));
                      ("license_ref", default "" (line !! "License"))]).
Proof.
  intros Hlen Hsplit Hs.
  destruct (normalise_split_forms _ _ _ Hlen Hsplit Hs) as [E1 E2].
  rewrite (split_value_unhyphen _ _ _ Hsplit Hs) in E2.
  unfold DOABAnalysis.lookup. rewrite E1, E2. cbn.
  split; [reflexivity|]. split.
  - intros ->. reflexivity.
  - intros found. destruct (DOABAnalysis.isbn_map self !! value sr) as [line|];
      [|discriminate].
    unfold getitem.
    destruct (line !! "Title") eqn:Et; [|discriminate].
    destruct (line !! "Publisher") eqn:Ep; [|discriminate].
    destruct (line !! "License") eqn:Ec; [|discriminate].
    cbn. intros H. injection H as <-. exists line.
    rewrite Et, Ep, Ec. split; reflexivity.
Qed.

Lemma lookup_found_shape (self : DOABAnalysis.t) (isbn : string)
    (found : DOABAnalysis.lookup_result) :
  DOABAnalysis.lookup self isbn = Ok (Some found) ->
  exists title publisher license : string,
    found = [("book_title", title); ("publisher", publisher);
             ("license_ref", license)].
Proof.
  unfold DOABAnalysis.lookup.
  destruct (test_and_normalize_isbn _ isbn) as [r|e]; [|discriminate]. cbn.
  destruct (valid r); [|discriminate].
  destruct (normalised r); [|discriminate].
  destruct (DOABAnalysis.isbn_map self !! _) as [line|]; [|discriminate].
  unfold getitem.
  destruct (line !! "Title"); [|discriminate].
  destruct (line !! "Publisher"); [|discriminate].
  destruct (line !! "License"); [|discriminate].
  cbn. intros H. injection H as <-. eauto.
Qed.

(** X21.  The loop over the collected ISBNs.  It asks no registry.  If
    no ISBN is in DOAB, the row is marked doab = FALSE and nothing else
    changes.  Otherwise the first ISBN found decides: the row is marked
    doab = TRUE; if Crossref had resolved the DOI, its values stay (only
    the fields doab and isbn can differ), else title, publisher and
    licence are those of DOAB; and the field isbn keeps a value it has,
    or takes the ISBN found. *)
Theorem doab_loop_result (cfg : settings) (isbns : list string)
    (current_row current_row' : gmap string string) st st' :
  doab_loop cfg isbns current_row st = (Ok current_row', st') ->
  st'.2 = st.2
  /\ ((Forall (fun isbn => DOABAnalysis.lookup (doab_analysis cfg) isbn
                           = Ok None) isbns
       /\ current_row' = <["doab" := "FALSE"]> current_row)
      \/ exists (pre : list string) (isbn : string) (post : list string)
                (title publisher license : string),
           isbns = (pre ++ isbn :: post)%list
           /\ Forall (fun isbn => DOABAnalysis.lookup (doab_analysis cfg) isbn
                                  = Ok None) pre
           /\ DOABAnalysis.lookup (doab_analysis cfg) isbn
              = Ok (Some [("book_title", title); ("publisher", publisher);
                          ("license_ref", license)])
           /\ current_row' !! "doab" = Some "TRUE"
           /\ (current_row !! "indexed_in_crossref" = Some "TRUE" ->
               forall k, k <> "doab" -> k <> "isbn" ->
                         current_row' !! k = current_row !! k)
           /\ (current_row !! "indexed_in_crossref" <> Some "TRUE" ->
               current_row' !! "book_title" = Some title
               /\ current_row' !! "publisher" = Some publisher
               /\ current_row' !! "license_ref" = Some license)
           /\ exists v, current_row !! "isbn" = Some v
                        /\ current_row' !! "isbn"
                           = Some (if has_value v then v else isbn)).
Proof.
  revert st. induction isbns as [|isbn isbns IH]; intros [l w].
  - cbn. intros H. injection H as <- <-. split; [reflexivity|].
    left. split; [constructor | reflexivity].
  - cbn [doab_loop]. unfold M.bind at 1. unfold M.lift at 1.
    destruct (DOABAnalysis.lookup (doab_analysis cfg) isbn)
      as [[found|]|e] eqn:El; [| |discriminate].
    + clear IH. destruct (lookup_found_shape _ _ _ El) as (t & p & lic & ->).
      cbn [assoc String.eqb Ascii.eqb Bool.eqb].
      unfold M.bind, M.lift, M.log, M.ret, getitem. cbn [fst snd].
      rewrite lookup_insert_ne by discriminate.
      destruct (current_row !! "indexed_in_crossref") as [idx|] eqn:Ei;
        [|discriminate].
      destruct (String.eqb idx "TRUE") eqn:Et; cbn [fst snd fold_left].
      * apply String.eqb_eq in Et. subst idx.
        rewrite lookup_insert_ne by discriminate.
        destruct (current_row !! "isbn") as [v|] eqn:Ev; [|discriminate].
        intros H. split.
        { destruct (negb (has_value v)); injection H as _ <-; reflexivity. }
        right. exists [], isbn, isbns, t, p, lic.
        split; [reflexivity|]. split; [constructor|]. split; [exact El|].
        destruct (has_value v) eqn:Hv; cbn [negb] in H; injection H as <- _;
          (split; [now simplify_map_eq|]);
          (split; [intros _ k Hk1 Hk2; now simplify_map_eq|]);
          (split; [congruence|]);
          exists v; rewrite Hv; (split; [reflexivity | now simplify_map_eq]).
      * apply String.eqb_neq in Et.
        rewrite !lookup_insert_ne by discriminate.
        destruct (current_row !! "isbn") as [v|] eqn:Ev; [|discriminate].
        intros H. split.
        { destruct (negb (has_value v)); injection H as _ <-; reflexivity. }
        right. exists [], isbn, isbns, t, p, lic.
        split; [reflexivity|]. split; [constructor|]. split; [exact El|].
        destruct (has_value v) eqn:Hv; cbn [negb] in H; injection H as <- _;
          (split; [now simplify_map_eq|]);
          (split; [congruence|]);
          (split; [intros _; now simplify_map_eq|]);
          exists v; rewrite Hv; (split; [reflexivity | now simplify_map_eq]).
    + intros H. destruct (IH _ H) as [Hw [[Hall ->] | Hfound]].
      * split; [exact Hw|]. left. split; [now constructor | reflexivity].
      * split; [exact Hw|]. right.
        destruct Hfound as (pre & i & post & t & p & lic & -> & Hpre & Hrest).
        exists (isbn :: pre), i, post, t, p, lic.
        split; [reflexivity|]. split; [now constructor | exact Hrest].
Qed.

End DOAB.

Lemma doab_lookup_hyphens_witness :
  DOABAnalysis.lookup MoreExamples.doab "9782753518278"
  = DOABAnalysis.lookup MoreExamples.doab "978-2-7535-1827-8".
Proof.
  apply (proj1 (doab_lookup_hyphens MoreExamples.doab "9782753518278"
                  {| ISBNHandling.success := true;
                     ISBNHandling.value := "978-2-7535-1827-8" |}
                  eq_refl eq_refl eq_refl)).
Defined.

Lemma doab_loop_result_witness :
  (MoreExamples.doab_run.2).2 = tt
  /\ ((Forall (fun isbn => DOABAnalysis.lookup
                             (doab_analysis MoreExamples.cfg_doab) isbn
                           = Ok None) MoreExamples.two_isbns
       /\ MoreExamples.doab_row
          = <["doab" := "FALSE"]> MoreExamples.unresolved_row)
      \/ exists (pre : list string) (isbn : string) (post : list string)
                (title publisher license : string),
           MoreExamples.two_isbns = (pre ++ isbn :: post)%list
           /\ Forall (fun isbn => DOABAnalysis.lookup
                                    (doab_analysis MoreExamples.cfg_doab) isbn
                                  = Ok None) pre
           /\ DOABAnalysis.lookup (doab_analysis MoreExamples.cfg_doab) isbn
              = Ok (Some [("book_title", title); ("publisher", publisher);
                          ("license_ref", license)])
           /\ MoreExamples.doab_row !! "doab" = Some "TRUE"
           /\ (MoreExamples.unresolved_row !! "indexed_in_crossref"
               = Some "TRUE" ->
               forall k, k <> "doab" -> k <> "isbn" ->
                         MoreExamples.doab_row !! k
                         = MoreExamples.unresolved_row !! k)
           /\ (MoreExamples.unresolved_row !! "indexed_in_crossref"
               <> Some "TRUE" ->
               MoreExamples.doab_row !! "book_title" = Some title
               /\ MoreExamples.doab_row !! "publisher" = Some publisher
               /\ MoreExamples.doab_row !! "license_ref" = Some license)
           /\ exists v, MoreExamples.unresolved_row !! "isbn" = Some v
                        /\ MoreExamples.doab_row !! "isbn"
                           = Some (if has_value v then v else isbn)).
Proof.
  apply (doab_loop_result (W := unit) MoreExamples.cfg_doab
           MoreExamples.two_isbns MoreExamples.unresolved_row
           MoreExamples.doab_row ([], tt) (MoreExamples.doab_run.2)).
  vm_compute. reflexivity.
Defined.

(** ** The offline copies of DOAJ and DOAB *)

Section DOAJ.

Lemma doaj_rows_spec (reader : list (gmap string string))
    (self0 self : DOAJAnalysis.t) :
  DOAJAnalysis_rows reader self0 = Ok self ->
  forall k : string,
    (k <> "" ->
     DOAJAnalysis.doaj_issn_map self !! k
     = match last_title "Journal ISSN (print version)" reader k with
       | Some title => Some title
       | None => DOAJAnalysis.doaj_issn_map self0 !! k
       end
     /\ DOAJAnalysis.doaj_eissn_map self !! k
        = match last_title "Journal EISSN (online version)" reader k with
          | Some title => Some title
          | None => DOAJAnalysis.doaj_eissn_map self0 !! k
          end)
    /\ DOAJAnalysis.doaj_issn_map self !! ""
       = DOAJAnalysis.doaj_issn_map self0 !! ""
    /\ DOAJAnalysis.doaj_eissn_map self !! ""
       = DOAJAnalysis.doaj_eissn_map self0 !! "".
Proof.
  revert self0. induction reader as [|line reader IH]; intros self0.
  - intros H. injection H as <-. intros k. repeat split; reflexivity.
  - cbn [DOAJAnalysis_rows last_title]. unfold getitem.
    destruct (line !! "Journal title") as [title|] eqn:Et; [|discriminate].
    destruct (line !! "Journal ISSN (print version)") as [issn|] eqn:Ei;
      [|discriminate].
    destruct (line !! "Journal EISSN (online version)") as [eissn|] eqn:Ee;
      [|discriminate].
    cbn [rbind]. intros H k. specialize (IH _ H k).
    destruct IH as (IHk & IH1 & IH2).
    assert (Hins : forall (m : gmap string string) (v k' : string),
               <[v := title]> m !! k'
               = if bool_decide (Some v = Some k') then Some title
                 else m !! k').
    { intros m v k'.
      destruct (bool_decide_reflect (Some v = Some k')) as [E|E].
      - injection E as <-. apply lookup_insert_eq.
      - rewrite lookup_insert_ne by congruence. reflexivity. }
    assert (Hno : forall v k' : string,
               truthy v = false -> k' <> "" ->
               bool_decide (Some v = Some k') = false).
    { intros v k' Hv Hk'. unfold truthy in Hv.
      apply negb_false_iff, String.eqb_eq in Hv. subst v.
      apply bool_decide_eq_false. congruence. }
    assert (Hkeep : forall (m : gmap string string) (v : string),
               truthy v = true -> <[v := title]> m !! "" = m !! "").
    { intros m v Hv. unfold truthy in Hv.
      apply negb_true_iff, String.eqb_neq in Hv.
      now rewrite lookup_insert_ne. }
    destruct (truthy issn) eqn:Ti; destruct (truthy eissn) eqn:Te;
      cbn [DOAJAnalysis.doaj_issn_map DOAJAnalysis.doaj_eissn_map] in *;
      (split; [|split]);
      try (rewrite IH1, ?Hkeep by assumption; reflexivity);
      try (rewrite IH2, ?Hkeep by assumption; reflexivity);
      intros Hk; destruct (IHk Hk) as [E1 E2]; rewrite E1, E2;
      rewrite ?Hins, ?(Hno issn k Ti Hk), ?(Hno eissn k Te Hk);
      (split;
       [destruct (last_title "Journal ISSN (print version)" reader k);
        [reflexivity|]; first [reflexivity | destruct (bool_decide _); reflexivity]
       |destruct (last_title "Journal EISSN (online version)" reader k);
        [reflexivity|]; first [reflexivity | destruct (bool_decide _); reflexivity]]).
Qed.

(** X22.  What [lookup] answers once [__init__] has read the rows of the
    DOAJ file: the title of the last row that has the ISSN as its print
    ISSN; if there is none, the title of the last row that has it as its
    EISSN; and nothing for the empty string, which is never indexed. *)
Theorem doaj_lookup_after_init (reader : list (gmap string string))
    (self : DOAJAnalysis.t) (any_issn : string) :
  DOAJAnalysis_init reader = Ok self ->
  DOAJAnalysis.lookup self any_issn
  = if String.eqb any_issn "" then None
    else match last_title "Journal ISSN (print version)" reader any_issn with
         | Some title => Some title
         | None =>
             last_title "Journal EISSN (online version)" reader any_issn
         end.
Proof.
  intros H. destruct (doaj_rows_spec _ _ _ H any_issn) as (Hk & H1 & H2).
  unfold DOAJAnalysis.lookup.
  destruct (String.eqb any_issn "") eqn:E.
  - apply String.eqb_eq in E. subst any_issn. rewrite H1, H2. reflexivity.
  - apply String.eqb_neq in E. destruct (Hk E) as [E1 E2]. rewrite E1, E2.
    cbn. rewrite !lookup_empty.
    destruct (last_title _ reader any_issn); [reflexivity|].
    destruct (last_title _ reader any_issn); reflexivity.
Qed.

End DOAJ.

(** The loop [while "  " in s] ends: a round that finds a double space
    shortens the string, so as many rounds as the string has characters
    leave none. *)
Lemma replace_double_space_cons (c d : ascii) (s : string) :
  replace_double_space (String c (String d s))
  = if Ascii.eqb c Py.space && Ascii.eqb d Py.space
    then String Py.space (replace_double_space s)
    else String c (replace_double_space (String d s)).
Proof. reflexivity. Qed.

Lemma double_space_in_cons (c d : ascii) (s : string) :
  double_space_in (String c (String d s))
  = (Ascii.eqb c Py.space && Ascii.eqb d Py.space)
    || double_space_in (String d s).
Proof. reflexivity. Qed.

Lemma replace_double_space_length (n : nat) :
  forall s : string,
    (String.length s <= n)%nat ->
    (String.length (replace_double_space s) <= String.length s)%nat
    /\ (double_space_in s = true ->
        (String.length (replace_double_space s) < String.length s)%nat).
Proof.
  induction n as [|n IH]; intros s Hn.
  - destruct s; [|simpl in Hn; lia]. split; [reflexivity | discriminate].
  - destruct s as [|c [|d s]]; [split; [reflexivity | discriminate]
                               |split; [reflexivity | discriminate]|].
    rewrite replace_double_space_cons, double_space_in_cons.
    assert (Hs : (String.length s <= n)%nat /\ (String.length (String d s) <= n)%nat)
      by (cbn [String.length] in *; lia).
    destruct Hs as [Hs Hds].
    destruct (Ascii.eqb c Py.space && Ascii.eqb d Py.space).
    + destruct (IH s Hs) as [Hle _].
      change (String.length (String Py.space (replace_double_space s)))
        with (S (String.length (replace_double_space s))).
      change (String.length (String c (String d s)))
        with (S (S (String.length s))).
      split; [lia | intros _; lia].
    + destruct (IH (String d s) Hds) as [Hle Hlt].
      change (String.length (String c (replace_double_space (String d s))))
        with (S (String.length (replace_double_space (String d s)))).
      change (String.length (String c (String d s)))
        with (S (String.length (String d s))).
      split; [lia|]. intros H. specialize (Hlt H). lia.
Qed.

Lemma squeeze_spaces_done (fuel : nat) :
  forall s : string,
    (String.length s <= fuel)%nat ->
    double_space_in (squeeze_spaces fuel s) = false.
Proof.
  induction fuel as [|fuel IH]; intros s Hn.
  - destruct s; [reflexivity | simpl in Hn; lia].
  - cbn [squeeze_spaces]. destruct (double_space_in s) eqn:E; [|exact E].
    apply IH.
    destruct (replace_double_space_length (S fuel) s Hn) as [_ Hlt].
    specialize (Hlt E). lia.
Qed.

Section DOABIndex.
Variable list_set_of : list string -> list string.
Variable isbn_handling : ISBNHandling.t.
Variable verbose : bool.

Lemma elem_spec (x : string) (l : list string) :
  Py.elem x l = true <-> x ∈ l.
Proof.
  unfold Py.elem. rewrite existsb_exists. setoid_rewrite <- list_elem_of_In. split.
  - intros (y & Hy & E). apply String.eqb_eq in E. now subst.
  - intros H. exists x. split; [exact H | apply String.eqb_refl].
Qed.

(** The loop over the ISBNs of a row notes one offer for each ISBN that
    normalises. *)
Lemma index_isbns_note (line_num : Z) (line : gmap string string)
    (isbns : list string) (ix ix' : doab_index) :
  index_isbns isbn_handling verbose line_num line isbns ix = Ok ix' ->
  (entries ix', duplicate_isbns ix')
  = fold_left note_offer
      (map (fun isbn => (isbn, line)) (omap (indexed_form isbn_handling) isbns))
      (entries ix, duplicate_isbns ix).
Proof.
  revert ix. induction isbns as [|isbn isbns IH]; intros ix.
  - intros H. injection H as <-. reflexivity.
  - cbn [index_isbns].
    change (omap (indexed_form isbn_handling) (isbn :: isbns))
      with (match indexed_form isbn_handling isbn with
            | Some y => y :: omap (indexed_form isbn_handling) isbns
            | None => omap (indexed_form isbn_handling) isbns
            end).
    unfold indexed_form at 1.
    destruct (ISBNHandling.test_and_normalize_isbn isbn_handling isbn)
      as [res|e]; [|discriminate].
    cbn [rbind]. destruct (ISBNHandling.valid res); cbn [negb].
    + unfold normalised_of.
      destruct (ISBNHandling.normalised res) as [k|]; [|discriminate].
      cbn [rbind map fold_left].
      assert (Hnote : note_offer (entries ix, duplicate_isbns ix) (k, line)
                      = match entries ix !! k with
                        | None => (<[k := line]> (entries ix),
                                   duplicate_isbns ix)
                        | Some _ =>
                            (entries ix,
                             if Py.elem k (duplicate_isbns ix)
                             then duplicate_isbns ix
                             else (duplicate_isbns ix ++ [k])%list)
                        end) by reflexivity.
      rewrite Hnote. clear Hnote.
      destruct (entries ix !! k) as [old|].
      * destruct (Py.elem k (duplicate_isbns ix)); cbn [negb rbind].
        -- intros H. exact (IH _ H).
        -- destruct verbose; cbn; intros H; exact (IH _ H).
      * cbn [rbind]. intros H. exact (IH _ H).
    + destruct verbose.
      * destruct (isbn_error_text res); [|discriminate].
        cbn. intros H. exact (IH _ H).
      * cbn. intros H. exact (IH _ H).
Qed.

Lemma index_lines_note (reader : list (Z * gmap string string))
    (ix ix' : doab_index) :
  index_lines list_set_of isbn_handling verbose reader ix = Ok ix' ->
  (entries ix', duplicate_isbns ix')
  = fold_left note_offer (offers list_set_of isbn_handling reader)
      (entries ix, duplicate_isbns ix).
Proof.
  revert ix. induction reader as [|[line_num line] reader IH]; intros ix.
  - intros H. injection H as <-. reflexivity.
  - cbn [index_lines offers flat_map]. fold (offers list_set_of isbn_handling reader).
    rewrite fold_left_app. unfold row_offers, getitem. cbn [snd].
    destruct (line !! "ISBN") as [isbn_string|]; [|discriminate].
    destruct (line !! "Type") as [record_type|]; [|discriminate].
    cbn [rbind]. destruct (String.eqb record_type "book"); cbn [negb].
    + unfold isbn_values.
      destruct (Py.len _ =? 0).
      * intros H. exact (IH _ H).
      * destruct (index_isbns _ _ _ _ _ ix) as [ix1|e] eqn:E1; [|discriminate].
        cbn [rbind]. intros H.
        rewrite <- (index_isbns_note _ _ _ _ _ E1). exact (IH _ H).
    + intros H. exact (IH _ H).
Qed.

(** After any number of offers: the index holds, for every ISBN, the row
    of the first offer made for it, and the list of duplicates holds,
    once each, the ISBNs offered more than once. *)
Lemma note_invariant (os : list (string * gmap string string)) :
  let state := fold_left note_offer os (∅, []) in
  (forall k, state.1 !! k = snd <$> head (filter (fun o => o.1 = k) os))
  /\ (forall k, k ∈ state.2
                <-> (2 <= length (filter (fun o => o.1 = k) os))%nat)
  /\ NoDup state.2.
Proof.
  induction os as [|[k0 line0] os IH] using rev_ind; cbn zeta.
  - cbn. split; [intros k; apply lookup_empty|].
    split; [|constructor]. intros k. split; [inversion 1 | lia].
  - rewrite fold_left_app. cbn [fold_left].
    destruct (fold_left note_offer os (∅, [])) as [m d].
    cbn zeta in IH. cbn [fst snd] in IH. destruct IH as (Hm & Hd & Hnd).
    assert (Hf : forall k,
               filter (fun o : string * gmap string string => o.1 = k)
                      (os ++ [(k0, line0)])%list
               = (filter (fun o => o.1 = k) os
                  ++ if decide (k0 = k) then [(k0, line0)] else [])%list).
    { intros k. rewrite filter_app, filter_cons, filter_nil. cbn [fst].
      destruct (decide (k0 = k)); reflexivity. }
    unfold note_offer. cbn [fst snd].
    destruct (m !! k0) as [old|] eqn:E0.
    + (* the ISBN is in the index already *)
      assert (H0 : (1 <= length (filter (fun o => o.1 = k0) os))%nat).
      { specialize (Hm k0). rewrite E0 in Hm.
        destruct (filter _ os); [discriminate | simpl; lia]. }
      cbn [fst snd]. split; [|split].
      * intros k. rewrite Hm, Hf.
        destruct (decide (k0 = k)) as [<-|]; [|now rewrite app_nil_r].
        destruct (filter _ os); [simpl in H0; lia | reflexivity].
      * intros k. rewrite Hf, length_app.
        destruct (Py.elem k0 d) eqn:Ed.
        -- apply elem_spec in Ed. rewrite Hd.
           destruct (decide (k0 = k)) as [<-|]; simpl; [|lia].
           apply Hd in Ed. lia.
        -- rewrite elem_of_app, list_elem_of_singleton, Hd.
           destruct (decide (k0 = k)) as [<-|]; simpl.
           ++ split; [lia | auto].
           ++ split; [intros [H|H]; [lia | congruence] | intros H; left; lia].
      * destruct (Py.elem k0 d) eqn:Ed; [exact Hnd|].
        apply NoDup_app. split; [exact Hnd|]. split.
        -- intros x Hx Hx'. apply list_elem_of_singleton in Hx'. subst x.
           apply elem_spec in Hx. congruence.
        -- apply NoDup_singleton.
    + (* a new ISBN *)
      assert (H0 : filter (fun o : string * gmap string string => o.1 = k0) os
                   = []).
      { specialize (Hm k0). rewrite E0 in Hm.
        destruct (filter _ os); [reflexivity | discriminate]. }
      cbn [fst snd]. split; [|split].
      * intros k. rewrite Hf.
        destruct (decide (k0 = k)) as [<-|Hne].
        -- rewrite lookup_insert_eq, H0. reflexivity.
        -- rewrite lookup_insert_ne by exact Hne.
           now rewrite Hm, app_nil_r.
      * intros k. rewrite Hf, length_app, Hd.
        destruct (decide (k0 = k)) as [<-|]; simpl; [|lia].
        rewrite H0. simpl. lia.
      * exact Hnd.
Qed.

(** Deleting the duplicates does not fail when each of them is in the
    index and is listed once. *)
Lemma drop_duplicates_spec (duplicates : list string)
    (isbn_map : gmap string (gmap string string)) :
  NoDup duplicates ->
  (forall k, k ∈ duplicates -> is_Some (isbn_map !! k)) ->
  exists isbn_map',
    drop_duplicates duplicates isbn_map = Ok isbn_map'
    /\ forall k, isbn_map' !! k
                 = if decide (k ∈ duplicates) then None else isbn_map !! k.
Proof.
  revert isbn_map.
  induction duplicates as [|d ds IH]; intros m Hnd Hin.
  - exists m. split; [reflexivity|]. intros k.
    destruct (decide (k ∈ [])) as [H|]; [inversion H | reflexivity].
  - apply NoDup_cons in Hnd as [Hd Hnd]. cbn [drop_duplicates].
    destruct (Hin d) as [old Eold]; [now left|]. rewrite Eold.
    destruct (IH (delete d m) Hnd) as (m' & E & Hm').
    { intros k Hk. rewrite lookup_delete_ne by (intros ->; contradiction).
      apply Hin. now right. }
    exists m'. split; [exact E|]. intros k. rewrite Hm'.
    destruct (decide (k = d)) as [->|Hne].
    + destruct (decide (d ∈ ds)); [contradiction|].
      destruct (decide (d ∈ d :: ds)) as [|H]; [|exfalso; apply H; now left].
      apply lookup_delete_eq.
    + rewrite lookup_delete_ne by congruence.
      destruct (decide (k ∈ ds)) as [H|H];
        destruct (decide (k ∈ d :: ds)) as [H'|H']; try reflexivity.
      * exfalso. apply H'. now right.
      * apply elem_of_cons in H' as [?|?]; contradiction.
Qed.

(** X23.  What [DOABAnalysis.__init__] leaves in [isbn_map]: an ISBN is
    in the index exactly when one single offer was made for it, by one
    row and one of its values, and it is indexed with that row; an ISBN
    offered by two rows, or twice by one row in two notations, is not in
    the index.  The deletion of the duplicates never fails: [__init__]
    raises only what the loop over the rows raises. *)
Theorem doab_index_unique (reader : list (Z * gmap string string)) :
  match DOABAnalysis_init list_set_of isbn_handling verbose reader with
  | Ok (self, _) =>
      DOABAnalysis.isbn_handling self = isbn_handling
      /\ forall (isbn : string) (line : gmap string string),
           DOABAnalysis.isbn_map self !! isbn = Some line
           <-> offers_for list_set_of isbn_handling isbn reader
               = [(isbn, line)]
  | Raise e =>
      index_lines list_set_of isbn_handling verbose reader
        {| entries := ∅; duplicate_isbns := []; printed := [] |}
      = Raise e
  end.
Proof.
  unfold DOABAnalysis_init.
  destruct (index_lines _ _ _ reader _) as [ix|e] eqn:E; [|reflexivity].
  cbn [rbind]. apply index_lines_note in E. cbn [entries duplicate_isbns] in E.
  pose proof (note_invariant (offers list_set_of isbn_handling reader)) as Hinv.
  cbn zeta in Hinv. rewrite <- E in Hinv. cbn [fst snd] in Hinv.
  destruct Hinv as (Hm & Hd & Hnd).
  destruct (drop_duplicates_spec (duplicate_isbns ix) (entries ix) Hnd)
    as (m' & Edrop & Hm').
  { intros k Hk. apply Hd in Hk. rewrite Hm.
    destruct (filter _ _); [simpl in Hk; lia | eauto]. }
  rewrite Edrop. cbn. split; [reflexivity|].
  intros isbn line. rewrite Hm'. unfold offers_for.
  specialize (Hm isbn). specialize (Hd isbn).
  assert (Hkey : Forall (fun o : string * gmap string string => o.1 = isbn)
                   (filter (fun o => o.1 = isbn)
                           (offers list_set_of isbn_handling reader))).
  { apply Forall_forall. intros o Ho. now apply list_elem_of_filter in Ho as [? _]. }
  destruct (filter _ _) as [|[k1 l1] [|o2 rest]] eqn:Ef.
  - destruct (decide _) as [Hin|_]; [apply Hd in Hin; simpl in Hin; lia|].
    rewrite Hm. split; discriminate.
  - apply Forall_cons_1 in Hkey as [Hk1 _]. cbn in Hk1. subst k1.
    destruct (decide _) as [Hin|_]; [apply Hd in Hin; simpl in Hin; lia|].
    rewrite Hm. cbn. split; intros H; injection H as <-; reflexivity.
  - destruct (decide _) as [_|Hout].
    + split; discriminate.
    + exfalso. apply Hout, Hd. simpl. lia.
Qed.

End DOABIndex.

Lemma doaj_lookup_after_init_witness :
  DOAJAnalysis.lookup MoreExamples.doaj "0262-4079"
  = if String.eqb "0262-4079" "" then None
    else match last_title "Journal ISSN (print version)"
                 MoreExamples.doaj_reader "0262-4079" with
         | Some title => Some title
         | None =>
             last_title "Journal EISSN (online version)"
               MoreExamples.doaj_reader "0262-4079"
         end.
Proof.
  apply (doaj_lookup_after_init MoreExamples.doaj_reader MoreExamples.doaj
           "0262-4079").
  vm_compute. reflexivity.
Defined.

(** The ISBN that two rows offer is dropped, the other one is indexed
    with its row; the chapter is ignored. *)
Lemma doab_index_example :
  exists self : DOABAnalysis.t,
    DOABAnalysis_init remove_dups Examples.range_file false
      MoreExamples.doab_reader
    = Ok (self, [])
    /\ DOABAnalysis.isbn_map self
       = {["978-2-7535-1827-8" :=
             MoreExamples.doab_line "Three" "book"
               "978-3-16-148410-0; 9782753518278"]}.
Proof. eexists. split; vm_compute; reflexivity. Qed.
